(** * ZilaWS client: the message correlation and dispatch engine

    A shallow embedding of [src/index.ts] (class [ZilaConnection]) and of the
    sibling snapshots of the same class that the repository carries, with the
    properties of its envelope, handler table, listener registry, dispatch
    loop and connection status.

    Conventions of the embedding.
    - A JavaScript value is a [JSValue]; a function object is known by its
      reference, so [===] on functions is equality of references.  A string
      is held as the bytes of its UTF-8 encoding.
    - The connection object is a record [ZilaConnection] that every method
      takes and returns; a method that can throw returns a [Completion].
    - Application functions are given by [user], a parameter of the
      development: what the function with reference [r] does to the
      connection when called with some arguments.  An abrupt completion of
      [user] is a synchronous throw.
    - The handler table is the plain object [callbacks]; the record holds
      its own properties.  A lookup of the class also reaches the members
      of [Object.prototype] ([prototypeMember]), and an assignment to
      [__proto__] replaces the prototype: where a statement rests on what
      the table holds or lacks under an identifier that the application or
      the peer chose, it carries the condition that the identifier names
      none of these members.  Correlation ids come from [randomUUID].
    - [JSON.parse] and [JSON.stringify] belong to the runtime and are
      parameters too.
    - The transport is a spy: it records every text handed to
      [connection.send] and every call of [connection.close]. *)

From stdpp Require Import gmap strings list fin_maps pretty.
From Stdlib Require Import ZArith Ascii.

Set Warnings "-register-all".

Local Open Scope string_scope.
Local Open Scope Z_scope.
Local Open Scope nat_scope.
Local Open Scope list_scope.

(** ** Values *)

Inductive JSValue : Type :=
| JSUndefined
| JSNull
| JSBoolean (b : bool)
| JSNumber (n : Z)
| JSString (s : string)
| JSArray (elements : list JSValue)
| JSObject (properties : list (string * JSValue))
| JSFunction (ref : nat).

(** [typeof el == "function"] *)
Definition isFunction (v : JSValue) : bool :=
  match v with JSFunction _ => true | _ => false end.

(** ToBoolean, as used by [&&] and [if]. *)
Definition truthy (v : JSValue) : bool :=
  match v with
  | JSUndefined | JSNull => false
  | JSBoolean b => b
  | JSNumber n => negb (Z.eqb n 0)
  | JSString s => negb (String.eqb s "")
  | JSArray _ | JSObject _ | JSFunction _ => true
  end.

(** What a thrown value is. *)
Inductive JSError : Type :=
| SyntaxError
| TypeError
| ReferenceError (message : string)
| Error (message : string).

(** [o.name] on an object that is neither [null] nor [undefined]. *)
Fixpoint lookupProperty (name : string) (properties : list (string * JSValue)) : JSValue :=
  match properties with
  | [] => JSUndefined
  | (k, v) :: rest => if String.eqb k name then v else lookupProperty name rest
  end.

Definition getProperty (name : string) (v : JSValue) : option JSValue :=
  match v with
  | JSUndefined | JSNull => None
  | JSObject properties => Some (lookupProperty name properties)
  | _ => Some JSUndefined
  end.

(** A continuation byte of UTF-8, [10xxxxxx]. *)
Definition isContinuation (a : ascii) : bool :=
  (128 <=? nat_of_ascii a) && (nat_of_ascii a <? 192).

Definition startsWithContinuation (s : string) : bool :=
  match s with
  | String b _ => isContinuation b
  | EmptyString => false
  end.

(** The code points of a string, each with the bytes that encode it: a
    byte that is followed by continuation bytes takes them along. *)
Fixpoint codePoints (s : string) : list string :=
  match s with
  | EmptyString => []
  | String a rest =>
      if startsWithContinuation rest then
        match codePoints rest with
        | p :: ps => String a p :: ps
        | [] => [String a EmptyString]
        end
      else String a EmptyString :: codePoints rest
  end.

(** What the spread of a string yields: the iterator of a string goes by
    code point, and each element is the string of one code point. *)
Definition characters (s : string) : list JSValue :=
  map JSString (codePoints s).

(** [...v] in an argument list: arrays and strings are iterable, a spread of
    anything else throws a TypeError. *)
Definition spread (v : JSValue) : option (list JSValue) :=
  match v with
  | JSArray elements => Some elements
  | JSString s => Some (characters s)
  | _ => None
  end.

(** [identifier[0] == "@"] for a string identifier. *)
Definition startsWithAt (identifier : string) : bool :=
  match identifier with
  | String a _ => Ascii.eqb a "@"%char
  | EmptyString => false
  end.

(** ** The connection status *)

Inductive WSStatus : Type := OPENING | OPEN | CLOSED | ERROR.

#[global] Instance WSStatus_eq_dec : EqDecision WSStatus.
Proof. solve_decision. Defined.

(** The numeric value of the enum member, which is what a listener receives. *)
Definition statusValue (v : WSStatus) : JSValue :=
  match v with
  | OPENING => JSNumber 0
  | OPEN => JSNumber 1
  | CLOSED => JSNumber 2
  | ERROR => JSNumber 3
  end.

(** ** Function objects held by the connection *)

Inductive Callback : Type :=
| UserFn (ref : nat)
  (** a function of the application *)
| OnceCallback (ref : nat) (eventType : string) (callback : Callback)
  (** the function [onceCallback] that one call of [onceEventListener]
      creates; [ref] is the identity of that new function object *)
| OnceHandler (identifier : string) (callback : Callback)
  (** the arrow function that [onceMessageHandler] stores *)
| Resolver (uuid : string)
  (** the arrow function [(args) => resolve(args)] of [waiter], for the
      promise of the call with correlation id [uuid] *)
| ConnectSettle.
  (** the arrow function that [connectTo] registers: it rejects or resolves
      the promise of [connectTo], which is not part of the connection *)

#[global] Instance Callback_eq_dec : EqDecision Callback.
Proof. solve_decision. Defined.

(** The [async] functions among these: the arrow function that
    [onceMessageHandler] stores.  A call of an [async] function does not
    throw; it returns a promise, and what the function body throws is the
    rejection of that promise. *)
Definition isAsync (callback : Callback) : bool :=
  match callback with
  | OnceHandler _ _ => true
  | _ => false
  end.

(** ** The connection object *)

(** The array object stored under one event type.  An array object leaves
    [localEventCallbacks] only through [delete], right after its last element
    has been spliced out, and nothing can reach it afterwards: a loop that
    still iterates it sees length 0 from then on.  [arrayId] tells such a
    detached array from the one registered later under the same event
    type. *)
Record ListenerArray : Type := {
  arrayId : nat;
  elems : list Callback
}.

(** The transport spy: the texts handed to [send], the calls of [close], and
    the error callback that the [onerror] handler installed by [connectTo]
    has captured. *)
Record WebSocket : Type := {
  sent : list string;
  closeCalls : nat;
  onerrorCallback : option Callback
}.

(** [callbacks] holds the own properties of the handler table, an object
    whose prototype is [Object.prototype]. *)
Record ZilaConnection : Type := {
  callbacks : gmap string Callback;
  localEventCallbacks : gmap string ListenerArray;
  connection : WebSocket;
  errorCallback : option Callback;
  _status : WSStatus;
  (** the promises of [waiter] that are settled, by correlation id *)
  settled : gmap string JSValue;
  (** every assignment to [document.cookie], oldest first *)
  documentCookie : list JSValue;
  (** the next identity of an array object *)
  nextArray : nat;
  (** the next identity of a function object made by [onceEventListener] *)
  nextFunction : nat
}.

Definition with_callbacks (m : gmap string Callback) (c : ZilaConnection) : ZilaConnection :=
  {| callbacks := m; localEventCallbacks := localEventCallbacks c;
     connection := connection c; errorCallback := errorCallback c;
     _status := _status c; settled := settled c;
     documentCookie := documentCookie c;
     nextArray := nextArray c; nextFunction := nextFunction c |}.

Definition with_localEventCallbacks (m : gmap string ListenerArray) (c : ZilaConnection) : ZilaConnection :=
  {| callbacks := callbacks c; localEventCallbacks := m;
     connection := connection c; errorCallback := errorCallback c;
     _status := _status c; settled := settled c;
     documentCookie := documentCookie c;
     nextArray := nextArray c; nextFunction := nextFunction c |}.

Definition with_connection (w : WebSocket) (c : ZilaConnection) : ZilaConnection :=
  {| callbacks := callbacks c; localEventCallbacks := localEventCallbacks c;
     connection := w; errorCallback := errorCallback c;
     _status := _status c; settled := settled c;
     documentCookie := documentCookie c;
     nextArray := nextArray c; nextFunction := nextFunction c |}.

Definition with_errorCallback (e : option Callback) (c : ZilaConnection) : ZilaConnection :=
  {| callbacks := callbacks c; localEventCallbacks := localEventCallbacks c;
     connection := connection c; errorCallback := e;
     _status := _status c; settled := settled c;
     documentCookie := documentCookie c;
     nextArray := nextArray c; nextFunction := nextFunction c |}.

Definition with_status (v : WSStatus) (c : ZilaConnection) : ZilaConnection :=
  {| callbacks := callbacks c; localEventCallbacks := localEventCallbacks c;
     connection := connection c; errorCallback := errorCallback c;
     _status := v; settled := settled c;
     documentCookie := documentCookie c;
     nextArray := nextArray c; nextFunction := nextFunction c |}.

Definition with_settled (m : gmap string JSValue) (c : ZilaConnection) : ZilaConnection :=
  {| callbacks := callbacks c; localEventCallbacks := localEventCallbacks c;
     connection := connection c; errorCallback := errorCallback c;
     _status := _status c; settled := m;
     documentCookie := documentCookie c;
     nextArray := nextArray c; nextFunction := nextFunction c |}.

Definition with_documentCookie (l : list JSValue) (c : ZilaConnection) : ZilaConnection :=
  {| callbacks := callbacks c; localEventCallbacks := localEventCallbacks c;
     connection := connection c; errorCallback := errorCallback c;
     _status := _status c; settled := settled c;
     documentCookie := l;
     nextArray := nextArray c; nextFunction := nextFunction c |}.

Definition with_nextArray (n : nat) (c : ZilaConnection) : ZilaConnection :=
  {| callbacks := callbacks c; localEventCallbacks := localEventCallbacks c;
     connection := connection c; errorCallback := errorCallback c;
     _status := _status c; settled := settled c;
     documentCookie := documentCookie c;
     nextArray := n; nextFunction := nextFunction c |}.

Definition with_nextFunction (n : nat) (c : ZilaConnection) : ZilaConnection :=
  {| callbacks := callbacks c; localEventCallbacks := localEventCallbacks c;
     connection := connection c; errorCallback := errorCallback c;
     _status := _status c; settled := settled c;
     documentCookie := documentCookie c;
     nextArray := nextArray c; nextFunction := n |}.

(** [new ZilaConnection(ws, errorCallback)]: the fields as the constructor
    leaves them. *)
Definition newConnection (errorCallback : option Callback) : ZilaConnection :=
  {| callbacks := ∅; localEventCallbacks := ∅;
     connection := {| sent := []; closeCalls := 0;
                      onerrorCallback := errorCallback |};
     errorCallback := errorCallback;
     _status := OPENING; settled := ∅; documentCookie := [];
     nextArray := 0; nextFunction := 0 |}.

(** [get status()] *)
Definition status (c : ZilaConnection) : WSStatus := _status c.

(** The callbacks registered under an event type, in the order of the
    array. *)
Definition listeners (eventType : string) (c : ZilaConnection) : list Callback :=
  match localEventCallbacks c !! eventType with
  | Some array => elems array
  | None => []
  end.

(** How a call ends.  [Unknown] is where the embedding determines no result:
    the loop bound is used up, or an inbound envelope breaks the types of
    [interface WSMessage] (an [identifier] or a [callbackId] that is present
    and is not a string), which would need the coercions of the runtime. *)
Inductive Undetermined : Type := OutOfFuel | OutsideInterface.

Inductive Completion : Type :=
| Normal (value : JSValue) (c : ZilaConnection)
| Abrupt (e : JSError) (c : ZilaConnection)
| Unknown (why : Undetermined).

(** ** Listener registry *)

(** [Array.prototype.findIndex]: the first index whose element satisfies
    [p], or -1. *)
Fixpoint findIndexFrom (p : Callback → bool) (l : list Callback) (i : Z) : Z :=
  match l with
  | [] => (-1)%Z
  | el :: rest => if p el then i else findIndexFrom p rest (i + 1)%Z
  end.

Definition findIndex (p : Callback → bool) (l : list Callback) : Z :=
  findIndexFrom p l 0%Z.

(** [Array.prototype.indexOf], which compares with [===]. *)
Definition indexOf (callback : Callback) (l : list Callback) : Z :=
  findIndex (λ el, bool_decide (el = callback)) l.

(** [array.splice(id, 1)]: the array without the element at index [id]. *)
Definition splice1 (id : nat) (l : list Callback) : list Callback :=
  take id l ++ drop (S id) l.

Definition addEventListener (eventType : string) (callback : Callback)
    (c : ZilaConnection) : Completion :=
  match localEventCallbacks c !! eventType with
  | Some array =>
      if (0 <=? findIndex (λ el, bool_decide (el = callback)) (elems array))%Z
      then Abrupt (Error (eventType +:+ " listener already has this callback added to it.")) c
      else Normal JSUndefined
             (with_localEventCallbacks
                (<[eventType := {| arrayId := arrayId array;
                                   elems := elems array ++ [callback] |}]>
                   (localEventCallbacks c)) c)
  | None =>
      Normal JSUndefined
        (with_nextArray (S (nextArray c))
           (with_localEventCallbacks
              (<[eventType := {| arrayId := nextArray c; elems := [callback] |}]>
                 (localEventCallbacks c)) c))
  end.

Definition removeEventListener (eventType : string) (callback : Callback)
    (c : ZilaConnection) : ZilaConnection :=
  match localEventCallbacks c !! eventType with
  | None => c
  | Some array =>
      let id := indexOf callback (elems array) in
      if (id =? -1)%Z then c
      else
        let rest := splice1 (Z.to_nat id) (elems array) in
        if length rest =? 0
        then with_localEventCallbacks (delete eventType (localEventCallbacks c)) c
        else with_localEventCallbacks
               (<[eventType := {| arrayId := arrayId array; elems := rest |}]>
                  (localEventCallbacks c)) c
  end.

Definition onceEventListener (eventType : string) (callback : Callback)
    (c : ZilaConnection) : Completion :=
  let onceCallback := OnceCallback (nextFunction c) eventType callback in
  addEventListener eventType onceCallback
    (with_nextFunction (S (nextFunction c)) c).

(** [ZilaConnection.connectTo(wsUrl, errorCallback)], once the transport
    object exists: the connection that the constructor makes, with the
    one-shot listener that settles the promise of [connectTo] at the first
    change of status.  The application receives the connection when that
    listener resolves the promise. *)
Definition connectTo (errorCallback : option Callback) : ZilaConnection :=
  match onceEventListener "onStatusChange" ConnectSettle (newConnection errorCallback) with
  | Normal _ socket => socket
  | _ => newConnection errorCallback
  end.

(** ** Handler table *)

(** The names of the properties of [Object.prototype], which a lookup
    [this.callbacks[identifier]] reaches when the table has no own property
    of that name. *)
Definition prototypeMember (identifier : string) : bool :=
  bool_decide (identifier ∈
    [ "constructor"; "hasOwnProperty"; "isPrototypeOf"; "propertyIsEnumerable";
      "toLocaleString"; "toString"; "valueOf"; "__proto__";
      "__defineGetter__"; "__defineSetter__"; "__lookupGetter__";
      "__lookupSetter__" ]).

Definition setMessageHandler (identifier : string) (callback : Callback)
    (c : ZilaConnection) : ZilaConnection :=
  with_callbacks (<[identifier := callback]> (callbacks c)) c.

Definition removeMessageHandler (identifier : string) (c : ZilaConnection) : ZilaConnection :=
  with_callbacks (delete identifier (callbacks c)) c.

Definition onceMessageHandler (identifier : string) (callback : Callback)
    (c : ZilaConnection) : ZilaConnection :=
  with_callbacks (<[identifier := OnceHandler identifier callback]> (callbacks c)) c.

(** [setErrorHandler]: the promise it returns is already resolved. *)
Definition setErrorHandler (callback : Callback) (c : ZilaConnection) : ZilaConnection :=
  with_errorCallback (Some callback) c.

(** [resolve(v)] on the promise of the waiter [uuid]; a settled promise stays
    as it is. *)
Definition resolve (uuid : string) (v : JSValue) (c : ZilaConnection) : ZilaConnection :=
  match settled c !! uuid with
  | Some _ => c
  | None => with_settled (<[uuid := v]> (settled c)) c
  end.

(** [connection.send(text)] and [connection.close()] on the spy. *)
Definition transportSend (text : string) (c : ZilaConnection) : ZilaConnection :=
  with_connection
    {| sent := sent (connection c) ++ [text];
       closeCalls := closeCalls (connection c);
       onerrorCallback := onerrorCallback (connection c) |} c.

Definition disconnect (c : ZilaConnection) : ZilaConnection :=
  with_connection
    {| sent := sent (connection c);
       closeCalls := S (closeCalls (connection c));
       onerrorCallback := onerrorCallback (connection c) |} c.

(** ** What a run does, besides changing the connection *)

Inductive Effect : Type :=
| ListenerCall (eventType : string) (callback : Callback) (args : list JSValue)
  (** a notification loop called a listener *)
| HandlerCall (identifier : string) (callback : Callback) (args : list JSValue)
  (** the dispatch loop called a message handler *)
| ErrorCall (callback : Callback) (args : list JSValue)
  (** a transport callback called the error callback *)
| Reply (text : string).
  (** the dispatch loop sent the reply to a call *)

Definition Run : Type := list Effect * Completion.

(** Sequencing: what follows runs after a normal completion only. *)
Definition andThen (m : Run) (k : JSValue → ZilaConnection → Run) : Run :=
  match m with
  | (t, Normal v c) => let '(t', r) := k v c in (t ++ t', r)
  | other => other
  end.

(** The lifecycle callbacks and messages that the transport delivers. *)
Inductive TransportEvent : Type :=
| EvOpen
| EvClose (code : Z) (reason : string)
| EvError
| EvMessage (data : string).

Section Engine.

(** The body of the application function with reference [ref]. *)
Variable user : nat → list JSValue → ZilaConnection → Completion.

(** [JSON.parse]: [None] when it throws a SyntaxError. *)
Variable JSON_parse : string → option JSValue.

(** [JSON.stringify] of a value without cycles. *)
Variable JSON_stringify : JSValue → string.

(** [typeof window !== "undefined" && typeof window.document !== "undefined"] *)
Variable browser : bool.

(** The template string [`${cookieName}=; expires=${new Date(0)}; path=/;`]. *)
Variable expiredCookie : JSValue → JSValue.

(** Calling a function object with [args].  For an [async] function
    ([isAsync]) the completion is the settlement of the promise that the call
    returns: a normal completion with [v] is a promise fulfilled with [v],
    an abrupt completion with [e] a promise rejected with [e].  The closure
    of [onceMessageHandler] is called by the dispatch loop only, which reads
    the completion this way. *)
Fixpoint invoke (callback : Callback) (args : list JSValue) (c : ZilaConnection)
    : Completion :=
  match callback with
  | UserFn ref => user ref args c
  | OnceCallback _ eventType inner =>
      match invoke inner args (removeEventListener eventType callback c) with
      | Normal _ c' => Normal JSUndefined c'
      | other => other
      end
  | OnceHandler identifier inner =>
      invoke inner args (removeMessageHandler identifier c)
  | Resolver uuid =>
      Normal JSUndefined (resolve uuid (nth 0 args JSUndefined) c)
  | ConnectSettle => Normal JSUndefined c
  end.

(** The elements that a loop over the array object [id], taken from
    [localEventCallbacks[eventType]], sees now. *)
Definition arrayNow (eventType : string) (id : nat) (c : ZilaConnection) : list Callback :=
  match localEventCallbacks c !! eventType with
  | Some array => if arrayId array =? id then elems array else []
  | None => []
  end.

(** [for (const cb of array) cb(...args)] from index [i] on: the iterator
    reads the array again at every step. *)
Fixpoint forOf (fuel : nat) (eventType : string) (id : nat) (i : nat)
    (args : list JSValue) (c : ZilaConnection) : Run :=
  match arrayNow eventType id c !! i with
  | None => ([], Normal JSUndefined c)
  | Some cb =>
      match fuel with
      | 0 => ([], Unknown OutOfFuel)
      | S fuel' =>
          match invoke cb args c with
          | Normal _ c' =>
              let '(t, r) := forOf fuel' eventType id (S i) args c' in
              (ListenerCall eventType cb args :: t, r)
          | other => ([ListenerCall eventType cb args], other)
          end
      end
  end.

(** [if (this.localEventCallbacks.X) for (const cb of this.localEventCallbacks.X) cb(...args)] *)
Definition notify (fuel : nat) (eventType : string) (args : list JSValue)
    (c : ZilaConnection) : Run :=
  match localEventCallbacks c !! eventType with
  | Some array => forOf fuel eventType (arrayId array) 0 args c
  | None => ([], Normal JSUndefined c)
  end.

(** [set status(v)] *)
Definition setStatus (fuel : nat) (v : WSStatus) (c : ZilaConnection) : Run :=
  notify fuel "onStatusChange" [statusValue v] (with_status v c).

(** The object that [getMessageJSON] serializes. *)
Definition messageObject (identifier : string) (data : option (list JSValue))
    (callbackId : option string) (isBuiltIn : bool) : JSValue :=
  JSObject
    [ ("identifier", JSString (if isBuiltIn then identifier else "@" +:+ identifier));
      ("message", match data with Some l => JSArray l | None => JSNull end);
      ("callbackId", match callbackId with Some s => JSString s | None => JSNull end) ].

Definition getMessageJSON (identifier : string) (data : option (list JSValue))
    (callbackId : option string) (isBuiltIn : bool) : string :=
  JSON_stringify (messageObject identifier data callbackId isBuiltIn).

Definition bSend (identifier : string) (data : list JSValue) (c : ZilaConnection)
    : ZilaConnection :=
  transportSend (getMessageJSON identifier (Some data) None true) c.

Definition send (identifier : string) (data : list JSValue) (c : ZilaConnection)
    : ZilaConnection :=
  transportSend (getMessageJSON identifier (Some data) None false) c.

(** [waiter(identifier, ...data)], where [uuid] is what [randomUUID()]
    returned.  The promise it returns is the one that [settled] tracks under
    [uuid]. *)
Definition waiter (uuid : string) (identifier : string) (data : list JSValue)
    (c : ZilaConnection) : ZilaConnection :=
  transportSend (getMessageJSON identifier (Some data) (Some uuid) false)
    (onceMessageHandler uuid (Resolver uuid) c).

(** Lines 220-227 of [callEventHandler]: the handler table lookup, the call
    and the reply, [Promise.resolve(callback(...msgObj.message)).then(...)].
    The continuation passed to [then] is run as soon as the handler has its
    value.  A handler that throws ends the dispatch with its exception; an
    [async] handler does not throw: its promise is rejected, the
    continuation is not run, nobody holds the promise that [then] returned,
    and the dispatch completes. *)
Definition routeToHandler (identifier : string) (message callbackId : JSValue)
    (c : ZilaConnection) : Run :=
  match callbacks c !! identifier with
  | None => ([], Normal JSUndefined c)
  | Some callback =>
      if truthy message then
        match spread message with
        | None => ([], Abrupt TypeError c)
        | Some args =>
            match invoke callback args c with
            | Normal val c' =>
                if truthy callbackId then
                  match callbackId with
                  | JSString id =>
                      let c'' := send id [val] c' in
                      ([HandlerCall identifier callback args;
                        Reply (getMessageJSON id (Some [val]) None false)],
                       Normal JSUndefined c'')
                  | _ => ([HandlerCall identifier callback args],
                          Unknown OutsideInterface)
                  end
                else ([HandlerCall identifier callback args], Normal JSUndefined c')
            | Abrupt e c' =>
                if isAsync callback
                then ([HandlerCall identifier callback args], Normal JSUndefined c')
                else ([HandlerCall identifier callback args], Abrupt e c')
            | Unknown why => ([HandlerCall identifier callback args], Unknown why)
            end
        end
      else ([], Normal JSUndefined c)
  end.

(** The branch of [callEventHandler] for an identifier that starts with
    [@]. *)
Definition controlPlane (fuel : nat) (identifier : string) (message : JSValue)
    (c : ZilaConnection) : Run :=
  if String.eqb identifier "@SetCookie" then
    if browser then
      notify fuel "onCookieSet" [message]
        (with_documentCookie (documentCookie c ++ [message]) c)
    else ([], Normal JSUndefined c)
  else if String.eqb identifier "@DelCookie" then
    if browser then
      notify fuel "onCookieDelete" [message]
        (with_documentCookie (documentCookie c ++ [expiredCookie message]) c)
    else ([], Normal JSUndefined c)
  else ([], Normal JSUndefined c).

(** [msgObj.message] and [msgObj.callbackId] of a parsed object. *)
Definition fieldOf (name : string) (msgObj : JSValue) : JSValue :=
  match getProperty name msgObj with
  | Some v => v
  | None => JSUndefined
  end.

(** [callEventHandler(msg)].  It is an [async] function: an abrupt completion
    is the rejection of the promise it returns. *)
Definition callEventHandler (fuel : nat) (msg : string) (c : ZilaConnection) : Run :=
  andThen (notify fuel "onRawMessageRecieved" [JSString msg] c) (λ _ c1,
    match JSON_parse msg with
    | None => ([], Abrupt SyntaxError c1)
    | Some msgObj =>
        match getProperty "identifier" msgObj with
        | None | Some JSUndefined | Some JSNull => ([], Abrupt TypeError c1)
        | Some (JSString identifier) =>
            if startsWithAt identifier
            then controlPlane fuel identifier (fieldOf "message" msgObj) c1
            else
              andThen (notify fuel "onMessageRecieved" [fieldOf "message" msgObj] c1)
                (λ _ c2,
                   routeToHandler identifier (fieldOf "message" msgObj)
                     (fieldOf "callbackId" msgObj) c2)
        | Some _ => ([], Unknown OutsideInterface)
        end
    end).

(** The callbacks that the constructor installs on the transport, and the
    [onerror] that [connectTo] installs. *)
Definition onopen (fuel : nat) (c : ZilaConnection) : Run :=
  setStatus fuel OPEN c.

Definition onclose (fuel : nat) (code : Z) (reason : string) (c : ZilaConnection) : Run :=
  andThen (setStatus fuel CLOSED c) (λ _ c1,
    match errorCallback c1 with
    | Some cb => ([ErrorCall cb [JSString reason]], invoke cb [JSString reason] c1)
    | None => ([], Normal JSUndefined c1)
    end).

(** [onmessage] drops the promise of [callEventHandler]: a rejection does not
    reach the transport. *)
Definition onmessage (fuel : nat) (data : string) (c : ZilaConnection) : Run :=
  match callEventHandler fuel data c with
  | (t, Abrupt _ c') => (t, Normal JSUndefined c')
  | other => other
  end.

Definition onerror (c : ZilaConnection) : Run :=
  match onerrorCallback (connection c) with
  | Some cb => ([ErrorCall cb []], invoke cb [] c)
  | None => ([], Normal JSUndefined c)
  end.

Definition deliver (fuel : nat) (ev : TransportEvent) (c : ZilaConnection) : Run :=
  match ev with
  | EvOpen => onopen fuel c
  | EvClose code reason => onclose fuel code reason c
  | EvError => onerror c
  | EvMessage data => onmessage fuel data c
  end.

(** The transport delivers [evs] one after the other.  A callback that
    throws does not stop the transport from delivering the next one. *)
Fixpoint run (fuel : nat) (evs : list TransportEvent) (c : ZilaConnection) : Run :=
  match evs with
  | [] => ([], Normal JSUndefined c)
  | ev :: rest =>
      match deliver fuel ev c with
      | (t, Normal _ c') | (t, Abrupt _ c') =>
          let '(t', r) := run fuel rest c' in (t ++ t', r)
      | (t, Unknown why) => (t, Unknown why)
      end
  end.

End Engine.

(** ** The snapshot of the class in [unnamed/part_000]

    It differs from [src/index.ts] in [send] and [waiter], which refuse
    functions and build the message object themselves. *)
Module Snapshot.
Section Snapshot.

Variable JSON_stringify : JSValue → string.

(** [data.filter((el) => typeof el == "function").length > 0]; the first
    operand of the [||], [typeof data == "function"], is false for the rest
    array. *)
Definition hasFunction (data : list JSValue) : bool :=
  0 <? length (filter (λ el, isFunction el = true) data).

Definition msg (identifier : string) (data : list JSValue) (callbackId : JSValue)
    : JSValue :=
  JSObject [ ("callbackId", callbackId);
             ("message", JSArray data);
             ("identifier", JSString identifier) ].

Definition send (identifier : string) (data : list JSValue) (c : ZilaConnection)
    : Completion :=
  if hasFunction data
  then Abrupt (Error "Passing functions to the server is prohibited.") c
  else Normal JSUndefined
         (transportSend (JSON_stringify (msg identifier data JSNull)) c).

(** The [throw] is inside the executor of the promise, so an abrupt
    completion is the rejection of the promise that [waiter] returns. *)
Definition waiter (uuid : string) (identifier : string) (data : list JSValue)
    (c : ZilaConnection) : Completion :=
  if hasFunction data
  then Abrupt (Error "Passing functions to the server is prohibited.") c
  else Normal JSUndefined
         (transportSend (JSON_stringify (msg identifier data (JSString uuid)))
            (onceMessageHandler uuid (Resolver uuid) c)).

End Snapshot.
End Snapshot.

(** ** The second class in [src/index.ts] (from line 446 on)

    The older client over [w3cwebsocket]; its listener registry differs. *)
Module Legacy.

(** [if (array.findIndex((el) => el == callback))]: the index itself is the
    condition. *)
Definition addEventListener (eventType : string) (callback : Callback)
    (c : ZilaConnection) : Completion :=
  match localEventCallbacks c !! eventType with
  | Some array =>
      if truthy (JSNumber (findIndex (λ el, bool_decide (el = callback)) (elems array)))
      then Abrupt (Error (eventType +:+ " listener already has this callback added to it.")) c
      else Normal JSUndefined
             (with_localEventCallbacks
                (<[eventType := {| arrayId := arrayId array;
                                   elems := elems array ++ [callback] |}]>
                   (localEventCallbacks c)) c)
  | None =>
      Normal JSUndefined
        (with_nextArray (S (nextArray c))
           (with_localEventCallbacks
              (<[eventType := {| arrayId := nextArray c; elems := [callback] |}]>
                 (localEventCallbacks c)) c))
  end.

Definition removeEventListener (eventType : string) (callback : Callback)
    (c : ZilaConnection) : Completion :=
  match localEventCallbacks c !! eventType with
  | None => Normal JSUndefined c
  | Some array =>
      let id := indexOf callback (elems array) in
      if (id =? -1)%Z
      then Abrupt (ReferenceError "EventListener doesn't exist with the given eventName and callback!") c
      else
        let rest := splice1 (Z.to_nat id) (elems array) in
        Normal JSUndefined
          (if length rest =? 0
           then with_localEventCallbacks (delete eventType (localEventCallbacks c)) c
           else with_localEventCallbacks
                  (<[eventType := {| arrayId := arrayId array; elems := rest |}]>
                     (localEventCallbacks c)) c)
  end.

End Legacy.

(** ** Fixtures for the examples *)

(** The double quote character. *)
Definition quote : string := String (ascii_of_nat 34) EmptyString.

(** A serializer for the examples: JSON text of a value, with a function or
    [undefined] written as [null] as [JSON.stringify] does inside an array. *)
Fixpoint sampleStringify (v : JSValue) : string :=
  match v with
  | JSUndefined | JSNull | JSFunction _ => "null"
  | JSBoolean b => if b then "true" else "false"
  | JSNumber n => pretty n
  | JSString s => quote +:+ s +:+ quote
  | JSArray elements =>
      "[" +:+
      (fix items (l : list JSValue) : string :=
         match l with
         | [] => ""
         | [x] => sampleStringify x
         | x :: rest => sampleStringify x +:+ "," +:+ items rest
         end) elements
      +:+ "]"
  | JSObject properties =>
      "{" +:+
      (fix members (l : list (string * JSValue)) : string :=
         match l with
         | [] => ""
         | [(k, x)] => quote +:+ k +:+ quote +:+ ":" +:+ sampleStringify x
         | (k, x) :: rest =>
             quote +:+ k +:+ quote +:+ ":" +:+ sampleStringify x +:+ "," +:+ members rest
         end) properties
      +:+ "}"
  end.

(** A parser for the examples: it knows the texts of the values in [known]
    and throws on every other text. *)
Definition sampleParse (known : list JSValue) (text : string) : option JSValue :=
  List.find (λ v, String.eqb (sampleStringify v) text) known.

(** An inbound envelope as the peer writes it. *)
Definition inbound (identifier : string) (message callbackId : JSValue) : JSValue :=
  JSObject [ ("identifier", JSString identifier);
             ("message", message);
             ("callbackId", callbackId) ].

(** Application functions for the examples, by reference:
    0 returns [undefined]; 1 throws; 2 returns its first argument;
    3 registers function 0 as the handler [job] and returns [true];
    every other reference returns [undefined]. *)
Definition sampleUser (ref : nat) (args : list JSValue) (c : ZilaConnection) : Completion :=
  match ref with
  | 1 => Abrupt (Error "boom") c
  | 2 => Normal (nth 0 args JSUndefined) c
  | 3 => Normal (JSBoolean true) (setMessageHandler "job" (UserFn 0) c)
  | _ => Normal JSUndefined c
  end.

(** The connection that the application receives from [connectTo]: the
    transport has opened, the promise is resolved, no listener is left. *)
Definition connected : ZilaConnection :=
  match onopen sampleUser 5 (connectTo None) with
  | (_, Normal _ c) => c
  | _ => connectTo None
  end.

(** The envelope of the specification: [{identifier, message, callbackId}]. *)
Definition envelope (identifier : string) (message callbackId : JSValue) : JSValue :=
  JSObject [ ("identifier", JSString identifier);
             ("message", message);
             ("callbackId", callbackId) ].

(** ** Predicates of the statements *)

(** The resting state of the registry: no event type is registered with an
    empty array, and no array holds a callback twice. *)
Definition registryOk (c : ZilaConnection) : Prop :=
  ∀ eventType array, localEventCallbacks c !! eventType = Some array →
    elems array ≠ [] ∧ NoDup (elems array).

(** The calls that a loop over [l] makes when it reaches every element. *)
Definition calls (eventType : string) (args : list JSValue) (l : list Callback)
    : list Effect :=
  map (λ cb, ListenerCall eventType cb args) l.

(** A callback that, called with [args], returns and leaves the registry of
    listeners as it found it. *)
Definition quiet (user : nat → list JSValue → ZilaConnection → Completion)
    (args : list JSValue) (cb : Callback) : Prop :=
  ∀ c, ∃ v c', invoke user cb args c = Normal v c'
               ∧ localEventCallbacks c' = localEventCallbacks c.

(** A callback that, called with [args], throws [e]. *)
Definition raises (user : nat → list JSValue → ZilaConnection → Completion)
    (args : list JSValue) (cb : Callback) (e : JSError) : Prop :=
  ∀ c, ∃ c', invoke user cb args c = Abrupt e c'.

(** What the specification asks of a notification: every registered callback
    is called, once, in the order of the array. *)
Definition notifiesAll (user : nat → list JSValue → ZilaConnection → Completion)
    (fuel : nat) (eventType : string) (args : list JSValue) (c : ZilaConnection)
    : Prop :=
  (notify user fuel eventType args c).1 = calls eventType args (listeners eventType c).

(** The statuses that the status-change listeners were called with, in the
    order of the calls. *)
Definition statusNotified (t : list Effect) : list JSValue :=
  flat_map (λ ef,
    match ef with
    | ListenerCall eventType _ [v] =>
        if String.eqb eventType "onStatusChange" then [v] else []
    | _ => []
    end) t.

(** No [OPEN] is notified after a [CLOSED] or an [ERROR]. *)
Definition terminalRespected (l : list JSValue) : Prop :=
  ∀ l1 l2, l = l1 ++ statusValue OPEN :: l2 →
    (statusValue CLOSED ∉ l1) ∧ (statusValue ERROR ∉ l1).

(** The member of the enum that a notified value stands for. *)
Definition asStatus (v : JSValue) : option WSStatus :=
  match v with
  | JSNumber n =>
      if (n =? 0)%Z then Some OPENING
      else if (n =? 1)%Z then Some OPEN
      else if (n =? 2)%Z then Some CLOSED
      else if (n =? 3)%Z then Some ERROR
      else None
  | _ => None
  end.

(** The transitions of the specification: OPENING → OPEN → (CLOSED | ERROR). *)
Definition specifiedTransition (a b : WSStatus) : bool :=
  match a, b with
  | OPENING, OPEN | OPEN, CLOSED | OPEN, ERROR => true
  | _, _ => false
  end.

(** The transitions of the code when no [open] follows a [close]: those of
    the specification that lead to [OPEN] or [CLOSED], and OPENING → CLOSED
    for a transport that closes before it has opened. *)
Definition codeTransition (a b : WSStatus) : bool :=
  match a, b with
  | OPENING, OPEN | OPEN, CLOSED | OPENING, CLOSED => true
  | _, _ => false
  end.

(** The notified values [l], read after the status [current], only repeat a
    status (one call per listener) or take an allowed transition. *)
Fixpoint follows (allowed : WSStatus → WSStatus → bool) (current : WSStatus)
    (l : list JSValue) : bool :=
  match l with
  | [] => true
  | v :: rest =>
      match asStatus v with
      | Some next =>
          (bool_decide (current = next) || allowed current next)
          && follows allowed next rest
      | None => false
      end
  end.

Definition isOpen (ev : TransportEvent) : bool :=
  match ev with EvOpen => true | _ => false end.

Definition isClose (ev : TransportEvent) : bool :=
  match ev with EvClose _ _ => true | _ => false end.

Definition isError (ev : TransportEvent) : bool :=
  match ev with EvError => true | _ => false end.

(** Each lifecycle callback is delivered at most once. *)
Definition atMostOnce (evs : list TransportEvent) : Prop :=
  length (List.filter isOpen evs) ≤ 1
  ∧ length (List.filter isClose evs) ≤ 1
  ∧ length (List.filter isError evs) ≤ 1.

(** The transport delivers no [open] after a [close]. *)
Fixpoint noOpenAfterClose (evs : list TransportEvent) : bool :=
  match evs with
  | [] => true
  | ev :: rest =>
      (if isClose ev then forallb (λ ev', negb (isOpen ev')) rest else true)
      && noOpenAfterClose rest
  end.

(** The value that the specification gives the promise of a waiter whose
    reply carries the arguments [args]. *)
Definition specifiedResolution (args : list JSValue) : JSValue :=
  match args with
  | [x] => x
  | _ => JSArray args
  end.

(** A parsed text without the field [identifier], [null] included. *)
Definition lacksIdentifier (v : JSValue) : Prop :=
  getProperty "identifier" v = None ∨ getProperty "identifier" v = Some JSUndefined.

(** A connection with one status-change listener, the application function
    0. *)
Definition listening : ZilaConnection :=
  match addEventListener "onStatusChange" (UserFn 0) connected with
  | Normal _ c => c
  | _ => connected
  end.

(** A connection with three status-change listeners, in this order: the
    application functions 0, 1 (which throws) and 2. *)
Definition threeListeners : ZilaConnection :=
  match addEventListener "onStatusChange" (UserFn 0) connected with
  | Normal _ c =>
      match addEventListener "onStatusChange" (UserFn 1) c with
      | Normal _ c' =>
          match addEventListener "onStatusChange" (UserFn 2) c' with
          | Normal _ c'' => c''
          | _ => c'
          end
      | _ => c
      end
  | _ => connected
  end.

(** A connection with a one-shot status-change listener around the
    application function 0, followed by the listener 2. *)
Definition onceThenOther : ZilaConnection :=
  match onceEventListener "onStatusChange" (UserFn 0) connected with
  | Normal _ c =>
      match addEventListener "onStatusChange" (UserFn 2) c with
      | Normal _ c' => c'
      | _ => c
      end
  | _ => connected
  end.

(** Every status that the effect [ef] notifies satisfies [Q]. *)
Definition carries (Q : JSValue → Prop) (ef : Effect) : Prop :=
  Forall Q (statusNotified [ef]).

(** A reply that carries two arguments, and what the connection is after a
    waiter with the correlation id [u-1] has received it. *)
Definition twoArgumentReply : JSValue :=
  inbound "u-1" (JSArray [JSNumber 1; JSNumber 2]) JSNull.

Definition afterTwoArgumentReply : Run :=
  callEventHandler sampleUser (sampleParse [twoArgumentReply]) sampleStringify
    false (λ v, v) 5 (sampleStringify twoArgumentReply)
    (waiter sampleStringify "u-1" "sample" [JSString "sampleData"] connected).

(** An inbound call of the handler [job], without a correlation id. *)
Definition jobCall : JSValue := inbound "job" (JSArray [JSNumber 7]) JSNull.

(** A parsed text without an identifier. *)
Definition noIdentifier : JSValue := JSObject [("message", JSArray [])].

(** An inbound call of the handler [job] with no argument, from a waiter of
    the peer. *)
Definition emptyCall : JSValue := inbound "job" (JSArray []) (JSString "cb-9").

(** The reply to the waiter [u-1]. *)
Definition oneArgumentReply : JSValue :=
  inbound "u-1" (JSArray [JSString "sampleData success"]) JSNull.

(** A run that ends with a normal completion. *)
Definition returnsNormally (r : Run) : Prop :=
  ∃ v c, r.2 = Normal v c.

(** ** The dispatch loop and the error callback of [unnamed/part_000]

    The loop is the one of [src/index.ts] except that the reply goes through
    the [send] of the snapshot, which refuses a function; the constructor
    installs an [onerror] of its own. *)
Module SnapshotLoop.
Section SnapshotLoop.

Variable user : nat → list JSValue → ZilaConnection → Completion.
Variable JSON_parse : string → option JSValue.
Variable JSON_stringify : JSValue → string.
Variable browser : bool.
Variable expiredCookie : JSValue → JSValue.

(** Lines 216-223 of [callEventHandler].  A [throw] of [send] inside the
    continuation passed to [then] rejects the promise that [then] returned,
    which nobody holds: the dispatch completes and nothing is sent. *)
Definition routeToHandler (identifier : string) (message callbackId : JSValue)
    (c : ZilaConnection) : Run :=
  match callbacks c !! identifier with
  | None => ([], Normal JSUndefined c)
  | Some callback =>
      if truthy message then
        match spread message with
        | None => ([], Abrupt TypeError c)
        | Some args =>
            match invoke user callback args c with
            | Normal val c' =>
                if truthy callbackId then
                  match callbackId with
                  | JSString id =>
                      match Snapshot.send JSON_stringify id [val] c' with
                      | Normal _ c'' =>
                          ([HandlerCall identifier callback args;
                            Reply (JSON_stringify (Snapshot.msg id [val] JSNull))],
                           Normal JSUndefined c'')
                      | Abrupt _ c'' =>
                          ([HandlerCall identifier callback args],
                           Normal JSUndefined c'')
                      | Unknown why =>
                          ([HandlerCall identifier callback args], Unknown why)
                      end
                  | _ => ([HandlerCall identifier callback args],
                          Unknown OutsideInterface)
                  end
                else ([HandlerCall identifier callback args], Normal JSUndefined c')
            | Abrupt e c' =>
                if isAsync callback
                then ([HandlerCall identifier callback args], Normal JSUndefined c')
                else ([HandlerCall identifier callback args], Abrupt e c')
            | Unknown why => ([HandlerCall identifier callback args], Unknown why)
            end
        end
      else ([], Normal JSUndefined c)
  end.

Definition callEventHandler (fuel : nat) (msg : string) (c : ZilaConnection) : Run :=
  andThen (notify user fuel "onRawMessageRecieved" [JSString msg] c) (λ _ c1,
    match JSON_parse msg with
    | None => ([], Abrupt SyntaxError c1)
    | Some msgObj =>
        match getProperty "identifier" msgObj with
        | None | Some JSUndefined | Some JSNull => ([], Abrupt TypeError c1)
        | Some (JSString identifier) =>
            if startsWithAt identifier
            then controlPlane user browser expiredCookie fuel identifier
                   (fieldOf "message" msgObj) c1
            else
              andThen (notify user fuel "onMessageRecieved" [fieldOf "message" msgObj] c1)
                (λ _ c2,
                   routeToHandler identifier (fieldOf "message" msgObj)
                     (fieldOf "callbackId" msgObj) c2)
        | Some _ => ([], Unknown OutsideInterface)
        end
    end).

(** [this.connection.onerror] of the constructor, an [async] function: the
    status becomes [ERROR], then the error callback is called without
    argument. *)
Definition onerror (fuel : nat) (c : ZilaConnection) : Run :=
  andThen (setStatus user fuel ERROR c) (λ _ c1,
    match errorCallback c1 with
    | Some cb => ([ErrorCall cb []], invoke user cb [] c1)
    | None => ([], Normal JSUndefined c1)
    end).

End SnapshotLoop.
End SnapshotLoop.

(** A callback that, called with [args], returns and leaves both the
    registry of listeners and the handler table as it found them. *)
Definition observer (user : nat → list JSValue → ZilaConnection → Completion)
    (args : list JSValue) (cb : Callback) : Prop :=
  ∀ c, ∃ v c', invoke user cb args c = Normal v c'
               ∧ localEventCallbacks c' = localEventCallbacks c
               ∧ callbacks c' = callbacks c.

(** A connection with one message-received listener, the application
    function 0, and no handler. *)
Definition observing : ZilaConnection :=
  match addEventListener "onMessageRecieved" (UserFn 0) connected with
  | Normal _ c => c
  | _ => connected
  end.

(** The envelope of the test [OnMessageRecieved event]. *)
Definition unknownCall : JSValue :=
  inbound "THISSHOULDNOTEXIST" (JSArray [JSString "SMTH"]) JSNull.

(** An envelope with an identifier that starts with [@], from a waiter of
    the peer. *)
Definition controlCall : JSValue :=
  inbound "@hello" (JSArray [JSNumber 1]) (JSString "cb-1").

(** A call of [job] whose message is a number. *)
Definition numberCall : JSValue := inbound "job" (JSNumber 5) (JSString "cb-2").

(** A call of [job] from a waiter of the peer. *)
Definition echoCall : JSValue :=
  inbound "job" (JSArray [JSString "hi"]) (JSString "cb-9").

(** The reply to the waiter [u-2]. *)
Definition otherReply : JSValue :=
  inbound "u-2" (JSArray [JSNumber 2]) JSNull.

(** An argument that holds a function without being one. *)
Definition nestedFunction : JSValue := JSObject [("callback", JSFunction 0)].

(** The application leaves the private field [_status] alone: a function of
    the application returns or throws with the status it was called with. *)
Definition statusKept (user : nat → list JSValue → ZilaConnection → Completion)
    : Prop :=
  ∀ ref args c,
    match user ref args c with
    | Normal _ c' | Abrupt _ c' => status c' = status c
    | Unknown _ => True
    end.

(** The completion [r] leaves a connection whose status is [s]. *)
Definition leavesStatus (r : Completion) (s : WSStatus) : Prop :=
  match r with
  | Normal _ c | Abrupt _ c => status c = s
  | Unknown _ => True
  end.

(** The status that the transitions of the code give after the transport
    has delivered [evs] to a connection whose status was [current]. *)
Fixpoint statusAfter (current : WSStatus) (evs : list TransportEvent) : WSStatus :=
  match evs with
  | [] => current
  | EvOpen :: rest => statusAfter OPEN rest
  | EvClose _ _ :: rest => statusAfter CLOSED rest
  | _ :: rest => statusAfter current rest
  end.

(** The application leaves the registry of listeners alone, and its
    functions return or throw. *)
Definition registryKept (user : nat → list JSValue → ZilaConnection → Completion)
    : Prop :=
  ∀ ref args c,
    match user ref args c with
    | Normal _ c' | Abrupt _ c' => localEventCallbacks c' = localEventCallbacks c
    | Unknown _ => False
    end.

(** The registry [m'] holds nothing that [m] did not hold: every array of
    [m'] is an array of [m], with no more elements. *)
Definition shrunk (m' m : gmap string ListenerArray) : Prop :=
  ∀ eventType array', m' !! eventType = Some array' →
    ∃ array, m !! eventType = Some array
             ∧ arrayId array' = arrayId array
             ∧ length (elems array') ≤ length (elems array).

(** The completion [r] is determined and leaves a registry shrunk from the
    one of [c]. *)
Definition endsShrunk (r : Completion) (c : ZilaConnection) : Prop :=
  match r with
  | Normal _ c' | Abrupt _ c' => shrunk (localEventCallbacks c') (localEventCallbacks c)
  | Unknown _ => False
  end.

Definition isMessage (ev : TransportEvent) : bool :=
  match ev with EvMessage _ => true | _ => false end.

(** A connection as the constructor leaves it, with the application
    function 0 as a status-change listener. *)
Definition opening : ZilaConnection :=
  match addEventListener "onStatusChange" (UserFn 0) (newConnection None) with
  | Normal _ c => c
  | _ => newConnection None
  end.

(** The two bytes that encode the code point U+00E9. *)
Definition eAcute : string :=
  String (ascii_of_nat 195) (String (ascii_of_nat 169) EmptyString).

(** A call of [job] whose message is a string of two code points, the
    first of them encoded in two bytes. *)
Definition stringCall : JSValue := inbound "job" (JSString (eAcute +:+ "!")) JSNull.

(** The number of replies among the effects of a run. *)
Definition answers (t : list Effect) : nat :=
  length (List.filter (λ ef, match ef with Reply _ => true | _ => false end) t).

(** * Properties *)

(** ** Arrays of callbacks *)

Lemma findIndexFrom_absent (p : Callback → bool) (l : list Callback) (i : Z) :
  Forall (λ el, p el = false) l → findIndexFrom p l i = (-1)%Z.
Proof.
  intros H. revert i. induction H as [|el rest Hel _ IH]; intros i; simpl.
  - reflexivity.
  - rewrite Hel. apply IH.
Qed.

Lemma findIndexFrom_first (p : Callback → bool) (l1 l2 : list Callback)
    (el : Callback) (i : Z) :
  Forall (λ x, p x = false) l1 → p el = true →
  findIndexFrom p (l1 ++ el :: l2) i = (i + Z.of_nat (length l1))%Z.
Proof.
  intros H Hel. revert i. induction H as [|x rest Hx _ IH]; intros i; simpl.
  - rewrite Hel. lia.
  - rewrite Hx, IH. lia.
Qed.

Lemma same_reference_false (callback : Callback) (l : list Callback) :
  callback ∉ l → Forall (λ el, bool_decide (el = callback) = false) l.
Proof.
  intros H. apply Forall_forall. intros el Hin.
  apply bool_decide_eq_false. intros ->. contradiction.
Qed.

Lemma indexOf_absent (callback : Callback) (l : list Callback) :
  callback ∉ l → indexOf callback l = (-1)%Z.
Proof.
  intros H. apply findIndexFrom_absent, same_reference_false, H.
Qed.

Lemma indexOf_first (callback : Callback) (l1 l2 : list Callback) :
  callback ∉ l1 → indexOf callback (l1 ++ callback :: l2) = Z.of_nat (length l1).
Proof.
  intros H. unfold indexOf, findIndex.
  rewrite findIndexFrom_first.
  - lia.
  - apply same_reference_false, H.
  - apply bool_decide_eq_true. reflexivity.
Qed.

Lemma splice1_middle (l1 l2 : list Callback) (callback : Callback) :
  splice1 (length l1) (l1 ++ callback :: l2) = l1 ++ l2.
Proof.
  unfold splice1. induction l1 as [|x l1 IH]; simpl.
  - rewrite drop_0. reflexivity.
  - f_equal. exact IH.
Qed.

(** ** The registry of listeners *)

Lemma with_localEventCallbacks_same (c : ZilaConnection) :
  with_localEventCallbacks (localEventCallbacks c) c = c.
Proof. destruct c; reflexivity. Qed.

Lemma removeEventListener_absent (eventType : string) (callback : Callback)
    (c : ZilaConnection) :
  callback ∉ listeners eventType c → removeEventListener eventType callback c = c.
Proof.
  unfold listeners, removeEventListener.
  destruct (localEventCallbacks c !! eventType) as [array|]; [|reflexivity].
  intros H. rewrite (indexOf_absent _ _ H). reflexivity.
Qed.

Lemma removeEventListener_first (eventType : string) (callback : Callback)
    (c : ZilaConnection) (array : ListenerArray) (l1 l2 : list Callback) :
  localEventCallbacks c !! eventType = Some array →
  elems array = l1 ++ callback :: l2 → callback ∉ l1 →
  removeEventListener eventType callback c =
    if length (l1 ++ l2) =? 0
    then with_localEventCallbacks (delete eventType (localEventCallbacks c)) c
    else with_localEventCallbacks
           (<[eventType := {| arrayId := arrayId array; elems := l1 ++ l2 |}]>
              (localEventCallbacks c)) c.
Proof.
  intros Harray Helems Hfirst. unfold removeEventListener.
  rewrite Harray, Helems, (indexOf_first _ _ _ Hfirst). simpl.
  destruct (Z.eqb_spec (Z.of_nat (length l1)) (-1)) as [Hneg|_]; [lia|].
  rewrite Nat2Z.id, splice1_middle. reflexivity.
Qed.

Lemma listeners_removeEventListener_first (eventType : string) (callback : Callback)
    (c : ZilaConnection) (l1 l2 : list Callback) :
  listeners eventType c = l1 ++ callback :: l2 → callback ∉ l1 →
  listeners eventType (removeEventListener eventType callback c) = l1 ++ l2.
Proof.
  intros Hl Hfirst. unfold listeners in Hl.
  destruct (localEventCallbacks c !! eventType) as [array|] eqn:Harray.
  - rewrite (removeEventListener_first _ _ _ _ _ _ Harray Hl Hfirst).
    unfold listeners.
    destruct (Nat.eqb_spec (length (l1 ++ l2)) 0) as [Hz|Hz]; simpl.
    + rewrite lookup_delete_eq. symmetry. apply nil_length_inv, Hz.
    + rewrite lookup_insert_eq. reflexivity.
  - destruct l1; discriminate.
Qed.

Lemma listeners_removeEventListener_other (eventType other : string)
    (callback : Callback) (c : ZilaConnection) :
  other ≠ eventType →
  localEventCallbacks (removeEventListener eventType callback c) !! other
  = localEventCallbacks c !! other.
Proof.
  intros Hne. unfold removeEventListener.
  destruct (localEventCallbacks c !! eventType) as [array|]; [|reflexivity].
  destruct (Z.eqb _ _); [reflexivity|].
  destruct (Nat.eqb _ _); simpl.
  - apply lookup_delete_ne. congruence.
  - apply lookup_insert_ne. congruence.
Qed.

Lemma addEventListener_present (eventType : string) (callback : Callback)
    (c : ZilaConnection) :
  callback ∈ listeners eventType c →
  addEventListener eventType callback c
  = Abrupt (Error (eventType +:+ " listener already has this callback added to it.")) c.
Proof.
  unfold listeners, addEventListener.
  destruct (localEventCallbacks c !! eventType) as [array|].
  - intros Hin. apply list_elem_of_split_l in Hin as (l1 & l2 & -> & Hfirst).
    fold (indexOf callback (l1 ++ callback :: l2)).
    rewrite (indexOf_first _ _ _ Hfirst).
    destruct (Z.leb_spec 0 (Z.of_nat (length l1))); [reflexivity|lia].
  - intros Hin. apply not_elem_of_nil in Hin. contradiction.
Qed.

Lemma addEventListener_absent (eventType : string) (callback : Callback)
    (c : ZilaConnection) :
  callback ∉ listeners eventType c →
  ∃ c', addEventListener eventType callback c = Normal JSUndefined c'
        ∧ listeners eventType c' = listeners eventType c ++ [callback]
        ∧ ∀ other, other ≠ eventType →
            localEventCallbacks c' !! other = localEventCallbacks c !! other.
Proof.
  unfold listeners, addEventListener.
  destruct (localEventCallbacks c !! eventType) as [array|] eqn:Harray.
  - intros Hout.
    fold (indexOf callback (elems array)). rewrite (indexOf_absent _ _ Hout). simpl.
    eexists. split; [reflexivity|]. simpl. split.
    + rewrite lookup_insert_eq. reflexivity.
    + intros other Hne. apply lookup_insert_ne. congruence.
  - intros _. eexists. split; [reflexivity|]. simpl. split.
    + rewrite lookup_insert_eq. reflexivity.
    + intros other Hne. apply lookup_insert_ne. congruence.
Qed.

Lemma registryOk_newConnection (errorCallback : option Callback) :
  registryOk (newConnection errorCallback).
Proof. intros eventType array H. simpl in H. rewrite lookup_empty in H. discriminate. Qed.

Lemma registryOk_addEventListener (eventType : string) (callback : Callback)
    (c c' : ZilaConnection) (v : JSValue) :
  registryOk c → addEventListener eventType callback c = Normal v c' → registryOk c'.
Proof.
  intros Hok Hadd e a Hlook. unfold addEventListener in Hadd.
  destruct (localEventCallbacks c !! eventType) as [array|] eqn:Harray.
  - destruct (Z.leb_spec 0 (findIndex (λ el, bool_decide (el = callback)) (elems array)))
      as [_|Hneg]; [discriminate|].
    injection Hadd as _ <-. simpl in Hlook.
    destruct (decide (eventType = e)) as [->|Hne].
    + rewrite lookup_insert_eq in Hlook. injection Hlook as <-. simpl.
      destruct (Hok _ _ Harray) as [_ Hnd]. split.
      * destruct (elems array); discriminate.
      * apply NoDup_app. split; [exact Hnd|]. split; [|apply NoDup_singleton].
        intros x Hx Hx'. apply list_elem_of_singleton in Hx'. subst x.
        apply list_elem_of_split_l in Hx as (l1 & l2 & Hsplit & Hfirst).
        fold (indexOf callback (elems array)) in Hneg.
        rewrite Hsplit, (indexOf_first _ _ _ Hfirst) in Hneg. lia.
    + rewrite lookup_insert_ne in Hlook by exact Hne. exact (Hok _ _ Hlook).
  - injection Hadd as _ <-. simpl in Hlook.
    destruct (decide (eventType = e)) as [->|Hne].
    + rewrite lookup_insert_eq in Hlook. injection Hlook as <-. simpl.
      split; [discriminate|apply NoDup_singleton].
    + rewrite lookup_insert_ne in Hlook by exact Hne. exact (Hok _ _ Hlook).
Qed.

Lemma removeEventListener_never_empty (eventType : string) (callback : Callback)
    (c : ZilaConnection) :
  (∀ e a, localEventCallbacks c !! e = Some a → elems a ≠ []) →
  ∀ e a, localEventCallbacks (removeEventListener eventType callback c) !! e = Some a →
    elems a ≠ [].
Proof.
  intros Hok e a. unfold removeEventListener.
  destruct (localEventCallbacks c !! eventType) as [array|] eqn:Harray; [|apply Hok].
  destruct (Z.eqb _ _); [apply Hok|].
  destruct (Nat.eqb_spec (length (splice1 (Z.to_nat (indexOf callback (elems array)))
                                    (elems array))) 0) as [Hz|Hz]; simpl.
  - destruct (decide (eventType = e)) as [->|Hne].
    + rewrite lookup_delete_eq. discriminate.
    + rewrite lookup_delete_ne by exact Hne. apply Hok.
  - destruct (decide (eventType = e)) as [->|Hne].
    + rewrite lookup_insert_eq. intros [= <-]. simpl.
      intros Hnil. rewrite Hnil in Hz. simpl in Hz. lia.
    + rewrite lookup_insert_ne by exact Hne. apply Hok.
Qed.

Lemma registryOk_removeEventListener (eventType : string) (callback : Callback)
    (c : ZilaConnection) :
  registryOk c → registryOk (removeEventListener eventType callback c).
Proof.
  intros Hok e a Hlook. split.
  - revert e a Hlook. apply removeEventListener_never_empty.
    intros e a H. exact (proj1 (Hok _ _ H)).
  - destruct (decide (e = eventType)) as [->|Hne].
    + destruct (decide (callback ∈ listeners eventType c)) as [Hin|Hout].
      * apply list_elem_of_split_l in Hin as (l1 & l2 & Hsplit & Hfirst).
        pose proof (listeners_removeEventListener_first _ _ _ _ _ Hsplit Hfirst) as Hl.
        unfold listeners in Hl at 1. rewrite Hlook in Hl. rewrite Hl.
        unfold listeners in Hsplit.
        destruct (localEventCallbacks c !! eventType) as [array|] eqn:Harray.
        -- destruct (Hok _ _ Harray) as [_ Hnd]. rewrite Hsplit in Hnd.
           apply NoDup_app in Hnd as (Hnd1 & Hsep & Hnd2).
           apply NoDup_cons in Hnd2 as [_ Hnd2].
           apply NoDup_app. split; [exact Hnd1|]. split; [|exact Hnd2].
           intros x Hx Hx'. apply (Hsep x Hx). right. exact Hx'.
        -- destruct l1; discriminate.
      * rewrite (removeEventListener_absent _ _ _ Hout) in Hlook.
        exact (proj2 (Hok _ _ Hlook)).
    + rewrite listeners_removeEventListener_other in Hlook by exact Hne.
      exact (proj2 (Hok _ _ Hlook)).
Qed.

(** C8. [addEventListener] throws exactly when the callback is already in
    the array of the event type; otherwise it puts the callback at the end of
    that array; and once [removeEventListener] has taken the callback out of
    an array without duplicates, adding it again succeeds. *)
Theorem addEventListener_duplicate (eventType : string) (callback : Callback)
    (c : ZilaConnection) :
  (callback ∈ listeners eventType c ↔
     ∃ message, addEventListener eventType callback c = Abrupt (Error message) c)
  ∧ (callback ∉ listeners eventType c →
     ∃ c', addEventListener eventType callback c = Normal JSUndefined c'
           ∧ listeners eventType c' = listeners eventType c ++ [callback])
  ∧ (NoDup (listeners eventType c) → callback ∈ listeners eventType c →
     ∃ c', addEventListener eventType callback
             (removeEventListener eventType callback c) = Normal JSUndefined c'
           ∧ listeners eventType c'
             = listeners eventType (removeEventListener eventType callback c)
               ++ [callback]).
Proof.
  split; [split|split].
  - intros Hin. eexists. apply addEventListener_present, Hin.
  - intros [message Hthrow].
    destruct (decide (callback ∈ listeners eventType c)) as [Hin|Hout]; [exact Hin|].
    destruct (addEventListener_absent _ _ _ Hout) as (c' & Hadd & _).
    rewrite Hadd in Hthrow. discriminate.
  - intros Hout.
    destruct (addEventListener_absent _ _ _ Hout) as (c' & Hadd & Hl & _).
    exists c'. split; assumption.
  - intros Hnd Hin.
    apply list_elem_of_split_l in Hin as (l1 & l2 & Hsplit & Hfirst).
    assert (Hgone : callback ∉ listeners eventType
                      (removeEventListener eventType callback c)).
    { rewrite (listeners_removeEventListener_first _ _ _ _ _ Hsplit Hfirst).
      rewrite Hsplit in Hnd.
      apply NoDup_app in Hnd as (_ & _ & Hnd2).
      apply NoDup_cons in Hnd2 as [Hl2 _].
      apply not_elem_of_app. split; assumption. }
    destruct (addEventListener_absent _ _ _ Hgone) as (c' & Hadd & Hl & _).
    exists c'. split; assumption.
Qed.

(** C9. [removeEventListener] has no abrupt completion (it is a function to
    the connection).  It leaves the connection as it is when the callback is
    not registered under the event type, which covers an event type without
    registrations; on an array without duplicates a second removal changes
    nothing more; removing the only callback of an event type deletes the
    entry; and no removal leaves an entry with an empty array. *)
Theorem removeEventListener_idempotent (eventType : string) (callback : Callback)
    (c : ZilaConnection) :
  (callback ∉ listeners eventType c → removeEventListener eventType callback c = c)
  ∧ (NoDup (listeners eventType c) →
     removeEventListener eventType callback
       (removeEventListener eventType callback c)
     = removeEventListener eventType callback c)
  ∧ (listeners eventType c = [callback] →
     localEventCallbacks (removeEventListener eventType callback c) !! eventType = None)
  ∧ ((∀ e a, localEventCallbacks c !! e = Some a → elems a ≠ []) →
     ∀ e a, localEventCallbacks (removeEventListener eventType callback c) !! e = Some a →
       elems a ≠ []).
Proof.
  split; [|split; [|split]].
  - apply removeEventListener_absent.
  - intros Hnd. apply removeEventListener_absent.
    destruct (decide (callback ∈ listeners eventType c)) as [Hin|Hout].
    + apply list_elem_of_split_l in Hin as (l1 & l2 & Hsplit & Hfirst).
      rewrite (listeners_removeEventListener_first _ _ _ _ _ Hsplit Hfirst).
      rewrite Hsplit in Hnd.
      apply NoDup_app in Hnd as (_ & _ & Hnd2).
      apply NoDup_cons in Hnd2 as [Hl2 _].
      apply not_elem_of_app. split; assumption.
    + rewrite (removeEventListener_absent _ _ _ Hout). exact Hout.
  - intros Hone. unfold listeners in Hone.
    destruct (localEventCallbacks c !! eventType) as [array|] eqn:Harray; [|discriminate].
    rewrite (removeEventListener_first _ _ _ array [] [] Harray Hone).
    + simpl. apply lookup_delete_eq.
    + apply not_elem_of_nil.
  - apply removeEventListener_never_empty.
Qed.

(** ** Notification loops *)

Section Notification.

Variable user : nat → list JSValue → ZilaConnection → Completion.

Lemma arrayNow_registry (eventType : string) (id : nat) (c c' : ZilaConnection) :
  localEventCallbacks c' = localEventCallbacks c →
  arrayNow eventType id c' = arrayNow eventType id c.
Proof. intros H. unfold arrayNow. rewrite H. reflexivity. Qed.

Lemma arrayNow_listeners (eventType : string) (array : ListenerArray)
    (c : ZilaConnection) :
  localEventCallbacks c !! eventType = Some array →
  arrayNow eventType (arrayId array) c = listeners eventType c.
Proof.
  intros H. unfold arrayNow, listeners. rewrite H, Nat.eqb_refl. reflexivity.
Qed.

(** A loop only ever calls listeners of its event type, with its
    arguments. *)
Lemma forOf_effects (fuel : nat) (eventType : string) (id i : nat)
    (args : list JSValue) (c : ZilaConnection) :
  Forall (λ ef, ∃ cb, ef = ListenerCall eventType cb args)
    (forOf user fuel eventType id i args c).1.
Proof.
  revert i c. induction fuel as [|fuel IH]; intros i c; simpl.
  - destruct (arrayNow eventType id c !! i); simpl; constructor.
  - destruct (arrayNow eventType id c !! i) as [cb|]; simpl; [|constructor].
    destruct (invoke user cb args c) as [v c'| |].
    + specialize (IH (S i) c').
      destruct (forOf user fuel eventType id (S i) args c') as [t r]. simpl in *.
      constructor; [eauto|exact IH].
    + simpl. constructor; [eauto|constructor].
    + simpl. constructor; [eauto|constructor].
Qed.

Lemma notify_effects (fuel : nat) (eventType : string) (args : list JSValue)
    (c : ZilaConnection) :
  Forall (λ ef, ∃ cb, ef = ListenerCall eventType cb args)
    (notify user fuel eventType args c).1.
Proof.
  unfold notify. destruct (localEventCallbacks c !! eventType).
  - apply forOf_effects.
  - constructor.
Qed.

Lemma notify_unregistered (fuel : nat) (eventType : string) (args : list JSValue)
    (c : ZilaConnection) :
  localEventCallbacks c !! eventType = None →
  notify user fuel eventType args c = ([], Normal JSUndefined c).
Proof. intros H. unfold notify. rewrite H. reflexivity. Qed.

(** Quiet callbacks are all reached. *)
Lemma forOf_quiet (eventType : string) (id : nat) (args : list JSValue)
    (rest : list Callback) :
  ∀ (done : list Callback) (fuel : nat) (c : ZilaConnection),
    arrayNow eventType id c = done ++ rest →
    Forall (quiet user args) rest →
    length rest ≤ fuel →
    ∃ c', forOf user fuel eventType id (length done) args c
            = (calls eventType args rest, Normal JSUndefined c')
          ∧ localEventCallbacks c' = localEventCallbacks c.
Proof.
  induction rest as [|cb rest IH]; intros done fuel c Harr Hquiet Hfuel.
  - exists c. split; [|reflexivity].
    assert (Hnone : arrayNow eventType id c !! length done = None).
    { rewrite Harr, app_nil_r. apply lookup_ge_None. lia. }
    destruct fuel; simpl; rewrite Hnone; reflexivity.
  - destruct fuel as [|fuel]; [simpl in Hfuel; lia|].
    apply Forall_cons in Hquiet as [Hcb Hrest].
    assert (Hsome : arrayNow eventType id c !! length done = Some cb).
    { rewrite Harr. apply list_lookup_middle. reflexivity. }
    destruct (Hcb c) as (v & c1 & Hcall & Hreg).
    destruct (IH (done ++ [cb]) fuel c1) as (c' & Hloop & Hreg').
    + rewrite (arrayNow_registry _ _ _ _ Hreg), Harr, <- app_assoc. reflexivity.
    + exact Hrest.
    + simpl in Hfuel. lia.
    + exists c'. split; [|congruence].
      simpl. rewrite Hsome, Hcall.
      rewrite length_app in Hloop. simpl in Hloop.
      rewrite Nat.add_1_r in Hloop. rewrite Hloop. reflexivity.
Qed.

(** The loop ends at the first callback that throws. *)
Lemma forOf_raise (eventType : string) (id : nat) (args : list JSValue)
    (cb : Callback) (post : list Callback) (e : JSError) (pre : list Callback) :
  ∀ (done : list Callback) (fuel : nat) (c : ZilaConnection),
    arrayNow eventType id c = done ++ pre ++ cb :: post →
    Forall (quiet user args) pre →
    raises user args cb e →
    length pre < fuel →
    ∃ c', forOf user fuel eventType id (length done) args c
            = (calls eventType args (pre ++ [cb]), Abrupt e c').
Proof.
  induction pre as [|x pre IH]; intros done fuel c Harr Hquiet Hraise Hfuel.
  - destruct fuel as [|fuel]; [lia|].
    assert (Hsome : arrayNow eventType id c !! length done = Some cb).
    { rewrite Harr. apply list_lookup_middle. reflexivity. }
    destruct (Hraise c) as (c' & Hcall).
    exists c'. simpl. rewrite Hsome, Hcall. reflexivity.
  - destruct fuel as [|fuel]; [lia|].
    apply Forall_cons in Hquiet as [Hx Hpre].
    assert (Hsome : arrayNow eventType id c !! length done = Some x).
    { rewrite Harr. apply list_lookup_middle. reflexivity. }
    destruct (Hx c) as (v & c1 & Hcall & Hreg).
    destruct (IH (done ++ [x]) fuel c1) as (c' & Hloop).
    + rewrite (arrayNow_registry _ _ _ _ Hreg), Harr, <- app_assoc. reflexivity.
    + exact Hpre.
    + exact Hraise.
    + simpl in Hfuel. lia.
    + exists c'. simpl. rewrite Hsome, Hcall.
      rewrite length_app in Hloop. simpl in Hloop.
      rewrite Nat.add_1_r in Hloop. rewrite Hloop. reflexivity.
Qed.

(** C7, as the code has it.  A notification calls the registered callbacks
    in the order of the array, with the same arguments, each once, as long as
    they return and leave the registry alone; a callback that throws ends the
    loop: the callbacks after it are not called and the exception is the
    completion of the notification. *)
Theorem notify_until_raise (fuel : nat) (eventType : string) (args : list JSValue)
    (c : ZilaConnection) (pre : list Callback) :
  Forall (quiet user args) pre →
  (listeners eventType c = pre → length pre ≤ fuel →
   ∃ c', notify user fuel eventType args c
         = (calls eventType args pre, Normal JSUndefined c'))
  ∧ (∀ cb post e,
       listeners eventType c = pre ++ cb :: post →
       raises user args cb e → length pre < fuel →
       ∃ c', notify user fuel eventType args c
             = (calls eventType args (pre ++ [cb]), Abrupt e c')).
Proof.
  intros Hquiet. split.
  - intros Hl Hfuel. unfold notify.
    destruct (localEventCallbacks c !! eventType) as [array|] eqn:Harray.
    + destruct (forOf_quiet eventType (arrayId array) args pre [] fuel c)
        as (c' & Hloop & _).
      * rewrite (arrayNow_listeners _ _ _ Harray). exact Hl.
      * exact Hquiet.
      * exact Hfuel.
      * exists c'. exact Hloop.
    + unfold listeners in Hl. rewrite Harray in Hl. subst pre.
      exists c. reflexivity.
  - intros cb post e Hl Hraise Hfuel. unfold notify.
    destruct (localEventCallbacks c !! eventType) as [array|] eqn:Harray.
    + destruct (forOf_raise eventType (arrayId array) args cb post e pre [] fuel c)
        as (c' & Hloop).
      * rewrite (arrayNow_listeners _ _ _ Harray). exact Hl.
      * exact Hquiet.
      * exact Hraise.
      * exact Hfuel.
      * exists c'. exact Hloop.
    + unfold listeners in Hl. rewrite Harray in Hl. destruct pre; discriminate.
Qed.

End Notification.

(** The registered callbacks of the sample connection. *)
Example threeListeners_registered :
  listeners "onStatusChange" threeListeners = [UserFn 0; UserFn 1; UserFn 2].
Proof. reflexivity. Qed.

(** C7, as the specification has it, fails: the second listener throws and
    the third one is never called. *)
Lemma notify_stops_at_throw :
  ¬ notifiesAll sampleUser 5 "onStatusChange" [statusValue CLOSED] threeListeners.
Proof.
  unfold notifiesAll. vm_compute. intros H. discriminate H.
Qed.

Lemma notify_until_raise_witness :
  ∃ c', notify sampleUser 5 "onStatusChange" [statusValue CLOSED] threeListeners
        = (calls "onStatusChange" [statusValue CLOSED] [UserFn 0; UserFn 1],
           Abrupt (Error "boom") c').
Proof.
  refine (proj2 (notify_until_raise sampleUser 5 "onStatusChange" [statusValue CLOSED]
                   threeListeners [UserFn 0] _) (UserFn 1) [UserFn 2] (Error "boom") _ _ _).
  - constructor; [|constructor]. intros c. exists JSUndefined, c. split; reflexivity.
  - reflexivity.
  - intros c. exists c. reflexivity.
  - simpl. lia.
Defined.

(** A listener that takes itself out of the array while the loop runs moves
    the next listener into the slot the loop has passed: the listener 2 is
    not called by this notification. *)
Example once_listener_hides_next :
  (notify sampleUser 5 "onStatusChange" [statusValue CLOSED] onceThenOther).1
  = [ListenerCall "onStatusChange" (OnceCallback 1 "onStatusChange" (UserFn 0))
       [statusValue CLOSED]].
Proof. vm_compute. reflexivity. Qed.

(** ** The statuses that a run notifies *)

Lemma statusNotified_app (t1 t2 : list Effect) :
  statusNotified (t1 ++ t2) = statusNotified t1 ++ statusNotified t2.
Proof. apply flat_map_app. Qed.

Lemma statusNotified_carries (Q : JSValue → Prop) (t : list Effect) :
  Forall (carries Q) t → Forall Q (statusNotified t).
Proof.
  induction 1 as [|ef t Hef _ IH]; [constructor|].
  change (ef :: t) with ([ef] ++ t).
  rewrite statusNotified_app. apply Forall_app. split; assumption.
Qed.

Lemma carries_other_listener (Q : JSValue → Prop) (eventType : string)
    (cb : Callback) (args : list JSValue) :
  eventType ≠ "onStatusChange" → carries Q (ListenerCall eventType cb args).
Proof.
  intros Hne. unfold carries. simpl.
  destruct args as [|v [|]]; simpl; try constructor.
  destruct (String.eqb_spec eventType "onStatusChange"); [contradiction|constructor].
Qed.

Lemma carries_status_listener (Q : JSValue → Prop) (cb : Callback) (v : JSValue) :
  Q v → carries Q (ListenerCall "onStatusChange" cb [v]).
Proof. intros Hv. unfold carries. simpl. constructor; [exact Hv|constructor]. Qed.

Lemma carries_HandlerCall (Q : JSValue → Prop) (identifier : string)
    (cb : Callback) (args : list JSValue) :
  carries Q (HandlerCall identifier cb args).
Proof. constructor. Qed.

Lemma carries_ErrorCall (Q : JSValue → Prop) (cb : Callback) (args : list JSValue) :
  carries Q (ErrorCall cb args).
Proof. constructor. Qed.

Lemma carries_Reply (Q : JSValue → Prop) (text : string) : carries Q (Reply text).
Proof. constructor. Qed.

Lemma andThen_effects (P : Effect → Prop) (m : Run)
    (k : JSValue → ZilaConnection → Run) :
  Forall P m.1 → (∀ v c, Forall P (k v c).1) → Forall P (andThen m k).1.
Proof.
  intros Hm Hk. destruct m as [t [v c| |]]; simpl in *; try exact Hm.
  specialize (Hk v c). destruct (k v c) as [t' r]. simpl in *.
  apply Forall_app. split; assumption.
Qed.

Section Lifecycle.

Variable user : nat → list JSValue → ZilaConnection → Completion.
Variable JSON_parse : string → option JSValue.
Variable JSON_stringify : JSValue → string.
Variable browser : bool.
Variable expiredCookie : JSValue → JSValue.

Lemma notify_carries_other (Q : JSValue → Prop) (fuel : nat) (eventType : string)
    (args : list JSValue) (c : ZilaConnection) :
  eventType ≠ "onStatusChange" →
  Forall (carries Q) (notify user fuel eventType args c).1.
Proof.
  intros Hne. eapply Forall_impl; [apply notify_effects|].
  intros ef [cb ->]. apply carries_other_listener, Hne.
Qed.

Lemma setStatus_carries (fuel : nat) (v : WSStatus) (c : ZilaConnection) :
  Forall (carries (eq (statusValue v))) (setStatus user fuel v c).1.
Proof.
  unfold setStatus. eapply Forall_impl; [apply notify_effects|].
  intros ef [cb ->]. apply carries_status_listener. reflexivity.
Qed.

Lemma routeToHandler_carries (Q : JSValue → Prop) (identifier : string)
    (message callbackId : JSValue) (c : ZilaConnection) :
  Forall (carries Q)
    (routeToHandler user JSON_stringify identifier message callbackId c).1.
Proof.
  unfold routeToHandler.
  destruct (callbacks c !! identifier) as [callback|]; [|constructor].
  destruct (truthy message); [|constructor].
  destruct (spread message) as [args|]; [|constructor].
  destruct (invoke user callback args c) as [val c'| |]; simpl.
  - destruct (truthy callbackId); [destruct callbackId|]; simpl;
      repeat (constructor; try apply carries_HandlerCall; try apply carries_Reply).
  - destruct (isAsync callback); simpl;
      (constructor; [apply carries_HandlerCall|constructor]).
  - constructor; [apply carries_HandlerCall|constructor].
Qed.

Lemma controlPlane_carries (Q : JSValue → Prop) (fuel : nat) (identifier : string)
    (message : JSValue) (c : ZilaConnection) :
  Forall (carries Q) (controlPlane user browser expiredCookie fuel identifier message c).1.
Proof.
  unfold controlPlane.
  destruct (String.eqb identifier "@SetCookie").
  - destruct browser; [|constructor]. apply notify_carries_other. discriminate.
  - destruct (String.eqb identifier "@DelCookie"); [|constructor].
    destruct browser; [|constructor]. apply notify_carries_other. discriminate.
Qed.

Lemma callEventHandler_carries (Q : JSValue → Prop) (fuel : nat) (msg : string)
    (c : ZilaConnection) :
  Forall (carries Q)
    (callEventHandler user JSON_parse JSON_stringify browser expiredCookie fuel msg c).1.
Proof.
  unfold callEventHandler. apply andThen_effects.
  - apply notify_carries_other. discriminate.
  - intros _ c1. destruct (JSON_parse msg) as [msgObj|]; [|constructor].
    destruct (getProperty "identifier" msgObj) as [[| | | |identifier| | |]|];
      try constructor.
    destruct (startsWithAt identifier).
    + apply controlPlane_carries.
    + apply andThen_effects.
      * apply notify_carries_other. discriminate.
      * intros _ c2. apply routeToHandler_carries.
Qed.

Lemma onmessage_carries (Q : JSValue → Prop) (fuel : nat) (data : string)
    (c : ZilaConnection) :
  Forall (carries Q)
    (onmessage user JSON_parse JSON_stringify browser expiredCookie fuel data c).1.
Proof.
  unfold onmessage. pose proof (callEventHandler_carries Q fuel data c) as H.
  destruct (callEventHandler _ _ _ _ _ _ _ _) as [t [v c'|e c'|why]]; exact H.
Qed.

Lemma onerror_carries (Q : JSValue → Prop) (c : ZilaConnection) :
  Forall (carries Q) (onerror user c).1.
Proof.
  unfold onerror. destruct (onerrorCallback (connection c)); simpl.
  - constructor; [apply carries_ErrorCall|constructor].
  - constructor.
Qed.

Lemma onclose_carries (fuel : nat) (code : Z) (reason : string) (c : ZilaConnection) :
  Forall (carries (eq (statusValue CLOSED))) (onclose user fuel code reason c).1.
Proof.
  unfold onclose. apply andThen_effects.
  - apply setStatus_carries.
  - intros _ c1. destruct (errorCallback c1); simpl.
    + constructor; [apply carries_ErrorCall|constructor].
    + constructor.
Qed.

(** What one delivery notifies: [OPEN] for [open], [CLOSED] for [close],
    nothing for an error or a message. *)
Lemma deliver_carries (fuel : nat) (ev : TransportEvent) (c : ZilaConnection) :
  Forall (carries (λ v,
            match ev with
            | EvOpen => v = statusValue OPEN
            | EvClose _ _ => v = statusValue CLOSED
            | _ => False
            end))
    (deliver user JSON_parse JSON_stringify browser expiredCookie fuel ev c).1.
Proof.
  destruct ev as [|code reason| |data]; simpl.
  - eapply Forall_impl; [apply (setStatus_carries fuel OPEN)|].
    intros ef H. eapply Forall_impl; [exact H|]. intros v <-. reflexivity.
  - eapply Forall_impl; [apply onclose_carries|].
    intros ef H. eapply Forall_impl; [exact H|]. intros v <-. reflexivity.
  - apply onerror_carries.
  - apply onmessage_carries.
Qed.

Lemma run_cons_effects (fuel : nat) (ev : TransportEvent)
    (rest : list TransportEvent) (c : ZilaConnection) :
  ∃ t', (run user JSON_parse JSON_stringify browser expiredCookie fuel (ev :: rest) c).1
        = (deliver user JSON_parse JSON_stringify browser expiredCookie fuel ev c).1 ++ t'
      ∧ (t' = [] ∨
         ∃ c', t' = (run user JSON_parse JSON_stringify browser expiredCookie
                       fuel rest c').1).
Proof.
  simpl.
  destruct (deliver _ _ _ _ _ _ _ _) as [t [v c'|e c'|why]]; simpl.
  - destruct (run _ _ _ _ _ _ _ c') as [t' r] eqn:Hrun. simpl.
    exists t'. split; [reflexivity|]. right. exists c'. rewrite Hrun. reflexivity.
  - destruct (run _ _ _ _ _ _ _ c') as [t' r] eqn:Hrun. simpl.
    exists t'. split; [reflexivity|]. right. exists c'. rewrite Hrun. reflexivity.
  - exists []. split; [rewrite app_nil_r; reflexivity|]. left. reflexivity.
Qed.

End Lifecycle.

(** ** The status field *)

Lemma removeEventListener_status (eventType : string) (callback : Callback)
    (c : ZilaConnection) :
  status (removeEventListener eventType callback c) = status c.
Proof.
  unfold removeEventListener.
  destruct (localEventCallbacks c !! eventType); [|reflexivity].
  destruct (Z.eqb _ _); [reflexivity|].
  destruct (Nat.eqb _ _); reflexivity.
Qed.

Lemma resolve_status (uuid : string) (v : JSValue) (c : ZilaConnection) :
  status (resolve uuid v c) = status c.
Proof. unfold resolve. destruct (settled c !! uuid); reflexivity. Qed.

Lemma leavesStatus_same (r : Completion) (s s' : WSStatus) :
  s = s' → leavesStatus r s → leavesStatus r s'.
Proof. intros ->. exact id. Qed.

Lemma andThen_status (m : Run) (k : JSValue → ZilaConnection → Run) (s s' : WSStatus) :
  leavesStatus m.2 s' →
  (s' = s ∨ ∀ e c, m.2 ≠ Abrupt e c) →
  (∀ v c, status c = s' → leavesStatus (k v c).2 s) →
  leavesStatus (andThen m k).2 s.
Proof.
  intros Hm Hs Hk. destruct m as [t [v c|e c|why]]; simpl in *.
  - specialize (Hk v c Hm). destruct (k v c) as [t' r]. exact Hk.
  - destruct Hs as [<-|Hs]; [exact Hm|]. exfalso. exact (Hs e c eq_refl).
  - exact I.
Qed.

Section StatusField.

Variable user : nat → list JSValue → ZilaConnection → Completion.
Variable JSON_parse : string → option JSValue.
Variable JSON_stringify : JSValue → string.
Variable browser : bool.
Variable expiredCookie : JSValue → JSValue.

Hypothesis Hkept : statusKept user.

Lemma invoke_status (callback : Callback) :
  ∀ args c, leavesStatus (invoke user callback args c) (status c).
Proof.
  induction callback as [ref|ref eventType inner IH|identifier inner IH|uuid|];
    intros args c; simpl.
  - exact (Hkept ref args c).
  - specialize (IH args (removeEventListener eventType
                           (OnceCallback ref eventType inner) c)).
    rewrite removeEventListener_status in IH.
    destruct (invoke user inner args _); exact IH.
  - exact (IH args (removeMessageHandler identifier c)).
  - apply resolve_status.
  - reflexivity.
Qed.

Lemma forOf_status (eventType : string) (id : nat) (args : list JSValue) :
  ∀ fuel i c, leavesStatus (forOf user fuel eventType id i args c).2 (status c).
Proof.
  induction fuel as [|fuel IH]; intros i c; simpl.
  - destruct (arrayNow eventType id c !! i); simpl; [exact I|reflexivity].
  - destruct (arrayNow eventType id c !! i) as [cb|]; [|reflexivity].
    pose proof (invoke_status cb args c) as Hcall.
    destruct (invoke user cb args c) as [v c'|e c'|why]; simpl in *;
      [|exact Hcall|exact I].
    specialize (IH (S i) c').
    destruct (forOf user fuel eventType id (S i) args c') as [t r]. simpl in *.
    rewrite <- Hcall. exact IH.
Qed.

Lemma notify_status (fuel : nat) (eventType : string) (args : list JSValue)
    (c : ZilaConnection) :
  leavesStatus (notify user fuel eventType args c).2 (status c).
Proof.
  unfold notify. destruct (localEventCallbacks c !! eventType).
  - apply forOf_status.
  - reflexivity.
Qed.

(** The setter assigns: whatever the listeners do, the status is the
    assigned one when the notification ends. *)
Lemma setStatus_status (fuel : nat) (v : WSStatus) (c : ZilaConnection) :
  leavesStatus (setStatus user fuel v c).2 v.
Proof. unfold setStatus. apply (notify_status fuel _ _ (with_status v c)). Qed.

Lemma routeToHandler_status (identifier : string) (message callbackId : JSValue)
    (c : ZilaConnection) :
  leavesStatus (routeToHandler user JSON_stringify identifier message callbackId c).2
    (status c).
Proof.
  unfold routeToHandler.
  destruct (callbacks c !! identifier) as [callback|]; [|reflexivity].
  destruct (truthy message); [|reflexivity].
  destruct (spread message) as [args|]; [|reflexivity].
  pose proof (invoke_status callback args c) as Hcall.
  destruct (invoke user callback args c) as [val c'|e c'|why]; simpl in *.
  - destruct (truthy callbackId); [|exact Hcall].
    destruct callbackId; try exact I. exact Hcall.
  - destruct (isAsync callback); exact Hcall.
  - exact I.
Qed.

Lemma controlPlane_status (fuel : nat) (identifier : string) (message : JSValue)
    (c : ZilaConnection) :
  leavesStatus (controlPlane user browser expiredCookie fuel identifier message c).2
    (status c).
Proof.
  unfold controlPlane.
  destruct (String.eqb identifier "@SetCookie").
  - destruct browser; [|reflexivity].
    apply (notify_status fuel _ _ (with_documentCookie _ c)).
  - destruct (String.eqb identifier "@DelCookie"); [|reflexivity].
    destruct browser; [|reflexivity].
    apply (notify_status fuel _ _ (with_documentCookie _ c)).
Qed.

Lemma callEventHandler_status (fuel : nat) (msg : string) (c : ZilaConnection) :
  leavesStatus
    (callEventHandler user JSON_parse JSON_stringify browser expiredCookie fuel msg c).2
    (status c).
Proof.
  unfold callEventHandler.
  apply (andThen_status _ _ (status c) (status c)); [apply notify_status|left; reflexivity|].
  intros _ c1 H1. destruct (JSON_parse msg) as [msgObj|]; [|exact H1].
  destruct (getProperty "identifier" msgObj) as [[| | | |identifier| | |]|];
    try exact H1; try exact I.
  destruct (startsWithAt identifier).
  - rewrite <- H1. apply controlPlane_status.
  - apply (andThen_status _ _ (status c) (status c)).
    + rewrite <- H1. apply notify_status.
    + left. reflexivity.
    + intros _ c2 H2. rewrite <- H2. apply routeToHandler_status.
Qed.

(** What each delivery leaves in the field: [OPEN] after an [open],
    [CLOSED] after a [close], and the status as it was after an error or a
    message. *)
Lemma deliver_status (fuel : nat) (ev : TransportEvent) (c : ZilaConnection) :
  leavesStatus
    (deliver user JSON_parse JSON_stringify browser expiredCookie fuel ev c).2
    (statusAfter (status c) [ev]).
Proof.
  destruct ev as [|code reason| |data]; simpl.
  - apply setStatus_status.
  - unfold onclose.
    apply (andThen_status _ _ CLOSED CLOSED);
      [apply setStatus_status|left; reflexivity|].
    intros _ c1 H1. destruct (errorCallback c1) as [cb|]; simpl; [|exact H1].
    rewrite <- H1. apply invoke_status.
  - unfold onerror. destruct (onerrorCallback (connection c)) as [cb|]; simpl.
    + apply invoke_status.
    + reflexivity.
  - unfold onmessage. pose proof (callEventHandler_status fuel data c) as H.
    destruct (callEventHandler _ _ _ _ _ _ _ _) as [t [v c'|e c'|why]]; exact H.
Qed.

Lemma statusAfter_cons (current : WSStatus) (ev : TransportEvent)
    (rest : list TransportEvent) :
  statusAfter current (ev :: rest) = statusAfter (statusAfter current [ev]) rest.
Proof. destruct ev; reflexivity. Qed.

Lemma run_status (fuel : nat) (evs : list TransportEvent) :
  ∀ c, leavesStatus
         (run user JSON_parse JSON_stringify browser expiredCookie fuel evs c).2
         (statusAfter (status c) evs).
Proof.
  induction evs as [|ev rest IH]; intros c; [reflexivity|].
  rewrite statusAfter_cons. cbn [run].
  pose proof (deliver_status fuel ev c) as Hev.
  destruct (deliver _ _ _ _ _ _ _ _) as [t [v c'|e c'|why]]; simpl in Hev.
  - specialize (IH c'). rewrite Hev in IH.
    destruct (run _ _ _ _ _ _ _ c') as [t' r]. exact IH.
  - specialize (IH c'). rewrite Hev in IH.
    destruct (run _ _ _ _ _ _ _ c') as [t' r]. exact IH.
  - exact I.
Qed.

End StatusField.

Lemma statusAfter_app (current : WSStatus) (a b : list TransportEvent) :
  statusAfter current (a ++ b) = statusAfter (statusAfter current a) b.
Proof.
  revert current. induction a as [|ev a IH]; intros current; [reflexivity|].
  destruct ev; simpl; apply IH.
Qed.

Lemma statusAfter_never_error (current : WSStatus) (evs : list TransportEvent) :
  current ≠ ERROR → statusAfter current evs ≠ ERROR.
Proof.
  revert current. induction evs as [|ev evs IH]; intros current Hne; [exact Hne|].
  destruct ev; simpl; apply IH; try exact Hne; discriminate.
Qed.

Lemma statusAfter_closed (evs : list TransportEvent) :
  forallb (λ ev, negb (isOpen ev)) evs = true → statusAfter CLOSED evs = CLOSED.
Proof.
  induction evs as [|ev evs IH]; [reflexivity|]. simpl.
  intros H. apply andb_true_iff in H as [Hev Hrest].
  destruct ev; simpl in *; try discriminate; apply IH, Hrest.
Qed.

Lemma statusAfter_closed_by_close (current : WSStatus) (evs : list TransportEvent) :
  current ≠ CLOSED → statusAfter current evs = CLOSED →
  ∃ pre code reason post, evs = pre ++ EvClose code reason :: post.
Proof.
  revert current. induction evs as [|ev evs IH]; intros current Hne Hclosed.
  - simpl in Hclosed. contradiction.
  - destruct ev as [|code reason| |data]; simpl in Hclosed.
    + destruct (IH OPEN) as (pre & code & reason & post & ->);
        [discriminate|exact Hclosed|].
      exists (EvOpen :: pre), code, reason, post. reflexivity.
    + exists [], code, reason, evs. reflexivity.
    + destruct (IH current Hne Hclosed) as (pre & code & reason & post & ->).
      exists (EvError :: pre), code, reason, post. reflexivity.
    + destruct (IH current Hne Hclosed) as (pre & code & reason & post & ->).
      exists (EvMessage data :: pre), code, reason, post. reflexivity.
Qed.

Lemma noOpenAfterClose_after (pre : list TransportEvent) (code : Z) (reason : string)
    (post : list TransportEvent) :
  noOpenAfterClose (pre ++ EvClose code reason :: post) = true →
  forallb (λ ev, negb (isOpen ev)) post = true.
Proof.
  induction pre as [|ev pre IH]; simpl; intros H;
    apply andb_true_iff in H as [Hev Hrest].
  - exact Hev.
  - apply IH, Hrest.
Qed.

(** Under the order of the transport, [CLOSED] is terminal. *)
Lemma statusAfter_terminal (evs1 evs2 : list TransportEvent) :
  noOpenAfterClose (evs1 ++ evs2) = true →
  statusAfter OPENING evs1 = CLOSED →
  statusAfter OPENING (evs1 ++ evs2) = CLOSED.
Proof.
  intros Hord Hclosed. rewrite statusAfter_app, Hclosed.
  apply statusAfter_closed.
  destruct (statusAfter_closed_by_close OPENING evs1)
    as (pre & code & reason & post & ->); [discriminate|exact Hclosed|].
  rewrite <- app_assoc in Hord. simpl in Hord.
  apply noOpenAfterClose_after in Hord.
  rewrite forallb_app in Hord. apply andb_true_iff in Hord as [_ H]. exact H.
Qed.

(** ** Lifecycle callbacks return *)

Lemma shrunk_refl (m : gmap string ListenerArray) : shrunk m m.
Proof. intros e a H. exists a. split; [exact H|]. split; [reflexivity|lia]. Qed.

Lemma shrunk_trans (m1 m2 m3 : gmap string ListenerArray) :
  shrunk m1 m2 → shrunk m2 m3 → shrunk m1 m3.
Proof.
  intros H12 H23 e a1 H1.
  destruct (H12 e a1 H1) as (a2 & H2 & Hid2 & Hlen2).
  destruct (H23 e a2 H2) as (a3 & H3 & Hid3 & Hlen3).
  exists a3. split; [exact H3|]. split; [congruence|lia].
Qed.

Lemma shrunk_arrayNow (eventType : string) (id : nat) (c' c : ZilaConnection) :
  shrunk (localEventCallbacks c') (localEventCallbacks c) →
  length (arrayNow eventType id c') ≤ length (arrayNow eventType id c).
Proof.
  intros H. unfold arrayNow.
  destruct (localEventCallbacks c' !! eventType) as [a'|] eqn:Ha'; [|simpl; lia].
  destruct (H _ _ Ha') as (a & -> & Hid & Hlen). rewrite Hid.
  destruct (arrayId a =? id); [exact Hlen|simpl; lia].
Qed.

Lemma shrunk_listeners (eventType : string) (c' c : ZilaConnection) :
  shrunk (localEventCallbacks c') (localEventCallbacks c) →
  length (listeners eventType c') ≤ length (listeners eventType c).
Proof.
  intros H. unfold listeners.
  destruct (localEventCallbacks c' !! eventType) as [a'|] eqn:Ha'; [|simpl; lia].
  destruct (H _ _ Ha') as (a & -> & _ & Hlen). exact Hlen.
Qed.

Lemma splice1_length (id : nat) (l : list Callback) :
  length (splice1 id l) ≤ length l.
Proof.
  unfold splice1. rewrite length_app, length_take, length_drop. lia.
Qed.

Lemma removeEventListener_shrunk (eventType : string) (callback : Callback)
    (c : ZilaConnection) :
  shrunk (localEventCallbacks (removeEventListener eventType callback c))
    (localEventCallbacks c).
Proof.
  unfold removeEventListener.
  destruct (localEventCallbacks c !! eventType) as [array|] eqn:Harray;
    [|apply shrunk_refl].
  destruct (Z.eqb _ _); [apply shrunk_refl|].
  destruct (Nat.eqb _ _); simpl; intros e a' Ha'.
  - destruct (decide (eventType = e)) as [->|Hne].
    + rewrite lookup_delete_eq in Ha'. discriminate.
    + rewrite lookup_delete_ne in Ha' by exact Hne.
      exists a'. split; [exact Ha'|]. split; [reflexivity|lia].
  - destruct (decide (eventType = e)) as [->|Hne].
    + rewrite lookup_insert_eq in Ha'. injection Ha' as <-.
      exists array. split; [exact Harray|]. split; [reflexivity|].
      simpl. apply splice1_length.
    + rewrite lookup_insert_ne in Ha' by exact Hne.
      exists a'. split; [exact Ha'|]. split; [reflexivity|lia].
Qed.

Lemma endsShrunk_from (r : Completion) (c0 c : ZilaConnection) :
  shrunk (localEventCallbacks c0) (localEventCallbacks c) →
  endsShrunk r c0 → endsShrunk r c.
Proof.
  intros H0. destruct r as [v c'|e c'|why]; simpl; [| |exact id];
    intros H; exact (shrunk_trans _ _ _ H H0).
Qed.

Section Returns.

Variable user : nat → list JSValue → ZilaConnection → Completion.
Variable JSON_parse : string → option JSValue.
Variable JSON_stringify : JSValue → string.
Variable browser : bool.
Variable expiredCookie : JSValue → JSValue.

Hypothesis Hkept : registryKept user.

Lemma invoke_returns (callback : Callback) :
  ∀ args c, endsShrunk (invoke user callback args c) c.
Proof.
  induction callback as [ref|ref eventType inner IH|identifier inner IH|uuid|];
    intros args c; simpl.
  - pose proof (Hkept ref args c) as H.
    destruct (user ref args c) as [v c'|e c'|why]; simpl;
      [rewrite H; apply shrunk_refl|rewrite H; apply shrunk_refl|exact H].
  - pose proof (IH args (removeEventListener eventType
                           (OnceCallback ref eventType inner) c)) as H.
    apply (endsShrunk_from _ _ c (removeEventListener_shrunk _ _ c)) in H.
    destruct (invoke user inner args _); exact H.
  - exact (IH args (removeMessageHandler identifier c)).
  - unfold resolve. destruct (settled c !! uuid); apply shrunk_refl.
  - apply shrunk_refl.
Qed.

Lemma forOf_returns (eventType : string) (id : nat) (args : list JSValue) :
  ∀ fuel i c, length (arrayNow eventType id c) ≤ i + fuel →
    endsShrunk (forOf user fuel eventType id i args c).2 c.
Proof.
  induction fuel as [|fuel IH]; intros i c Hfuel; simpl.
  - rewrite (proj2 (lookup_ge_None (arrayNow eventType id c) i)) by lia.
    apply shrunk_refl.
  - destruct (arrayNow eventType id c !! i) as [cb|]; [|apply shrunk_refl].
    pose proof (invoke_returns cb args c) as Hcall.
    destruct (invoke user cb args c) as [v c'|e c'|why]; simpl in *;
      [|exact Hcall|exact Hcall].
    assert (Hnext : length (arrayNow eventType id c') ≤ S i + fuel).
    { pose proof (shrunk_arrayNow eventType id c' c Hcall). lia. }
    specialize (IH (S i) c' Hnext).
    destruct (forOf user fuel eventType id (S i) args c') as [t r]. simpl in *.
    exact (endsShrunk_from _ _ _ Hcall IH).
Qed.

Lemma notify_returns (fuel : nat) (eventType : string) (args : list JSValue)
    (c : ZilaConnection) :
  length (listeners eventType c) ≤ fuel →
  endsShrunk (notify user fuel eventType args c).2 c.
Proof.
  intros Hfuel. unfold notify.
  destruct (localEventCallbacks c !! eventType) as [array|] eqn:Harray.
  - apply forOf_returns. rewrite (arrayNow_listeners _ _ _ Harray). simpl. exact Hfuel.
  - apply shrunk_refl.
Qed.

(** An [open], a [close] or an error callback of the transport returns or
    throws, given fuel for the status-change listeners. *)
Lemma deliver_returns (fuel : nat) (ev : TransportEvent) (c : ZilaConnection) :
  isMessage ev = false →
  length (listeners "onStatusChange" c) ≤ fuel →
  endsShrunk
    (deliver user JSON_parse JSON_stringify browser expiredCookie fuel ev c).2 c.
Proof.
  intros Hev Hfuel. destruct ev as [|code reason| |data]; simpl; [| | |discriminate].
  - apply (notify_returns fuel "onStatusChange" _ (with_status OPEN c)). exact Hfuel.
  - unfold onclose, setStatus.
    pose proof (notify_returns fuel "onStatusChange" [statusValue CLOSED]
                  (with_status CLOSED c) Hfuel) as Hnotify.
    destruct (notify user fuel "onStatusChange" [statusValue CLOSED]
                (with_status CLOSED c)) as [t [v c1|e c1|why]]; simpl in *;
      [|exact Hnotify|exact Hnotify].
    destruct (errorCallback c1) as [cb|]; simpl; [|exact Hnotify].
    exact (endsShrunk_from _ _ (with_status CLOSED c) Hnotify (invoke_returns cb _ c1)).
  - unfold onerror. destruct (onerrorCallback (connection c)) as [cb|]; simpl.
    + apply invoke_returns.
    + apply shrunk_refl.
Qed.

(** The transport's lifecycle callbacks all return: a run without messages
    ends with a connection. *)
Lemma run_returns (fuel : nat) (evs : list TransportEvent) :
  ∀ c, forallb (λ ev, negb (isMessage ev)) evs = true →
    length (listeners "onStatusChange" c) ≤ fuel →
    ∃ t c', run user JSON_parse JSON_stringify browser expiredCookie fuel evs c
            = (t, Normal JSUndefined c').
Proof.
  induction evs as [|ev rest IH]; intros c Hall Hfuel; [eexists _, _; reflexivity|].
  simpl in Hall. apply andb_true_iff in Hall as [Hev Hrest].
  apply negb_true_iff in Hev.
  pose proof (deliver_returns fuel ev c Hev Hfuel) as Hdeliver.
  cbn [run].
  destruct (deliver _ _ _ _ _ _ _ _) as [t [v c'|e c'|why]]; simpl in Hdeliver;
    [| |contradiction].
  - destruct (IH c' Hrest) as (t' & c'' & ->).
    + pose proof (shrunk_listeners "onStatusChange" c' c Hdeliver). lia.
    + eexists _, _. reflexivity.
  - destruct (IH c' Hrest) as (t' & c'' & ->).
    + pose proof (shrunk_listeners "onStatusChange" c' c Hdeliver). lia.
    + eexists _, _. reflexivity.
Qed.

End Returns.

(** ** The order of the notified statuses *)

Lemma terminalRespected_without_open (l : list JSValue) :
  statusValue OPEN ∉ l → terminalRespected l.
Proof.
  intros Hout l1 l2 ->. exfalso. apply Hout.
  apply elem_of_app. right. left.
Qed.

Lemma terminalRespected_after_open (a b : list JSValue) :
  Forall (λ v, v = statusValue OPEN) a → terminalRespected b →
  terminalRespected (a ++ b).
Proof.
  intros Ha Hb. induction Ha as [|x a Hx _ IH]; [exact Hb|].
  intros l1 l2 Heq. destruct l1 as [|y l1].
  - split; apply not_elem_of_nil.
  - simpl in Heq. injection Heq as Hy Hrest. subst x y.
    destruct (IH l1 l2 Hrest) as [Hclosed Herror].
    split; apply not_elem_of_cons; (split; [discriminate|assumption]).
Qed.

Lemma terminalRespected_tail (v : JSValue) (l : list JSValue) :
  terminalRespected (v :: l) → terminalRespected l.
Proof.
  intros H l1 l2 Heq. destruct (H (v :: l1) l2) as [Hclosed Herror].
  - rewrite Heq. reflexivity.
  - split; intros Hin; [apply Hclosed|apply Herror]; right; exact Hin.
Qed.

Lemma follows_closed (l : list JSValue) :
  Forall (λ v, v = statusValue CLOSED) l → follows codeTransition CLOSED l = true.
Proof.
  induction 1 as [|v l -> _ IH]; [reflexivity|]. simpl. exact IH.
Qed.

(** Notifications of [OPEN] and [CLOSED] without an [OPEN] after a [CLOSED]
    follow the transitions of the code. *)
Lemma follows_codeTransition (current : WSStatus) (l : list JSValue) :
  current = OPENING ∨ current = OPEN →
  Forall (λ v, v = statusValue OPEN ∨ v = statusValue CLOSED) l →
  terminalRespected l →
  follows codeTransition current l = true.
Proof.
  intros Hcurrent Hall. revert current Hcurrent.
  induction Hall as [|v l Hv Hl IH]; intros current Hcurrent Hterminal; [reflexivity|].
  destruct Hv as [->| ->].
  - simpl. rewrite (IH OPEN).
    + destruct Hcurrent as [->| ->]; reflexivity.
    + right. reflexivity.
    + exact (terminalRespected_tail _ _ Hterminal).
  - simpl. rewrite follows_closed.
    + destruct Hcurrent as [->| ->]; reflexivity.
    + apply Forall_forall. intros v Hin.
      rewrite Forall_forall in Hl. destruct (Hl _ Hin) as [->|Hv]; [|exact Hv].
      exfalso. apply list_elem_of_split in Hin as (l1 & l2 & ->).
      destruct (Hterminal (statusValue CLOSED :: l1) l2) as [Hclosed _];
        [reflexivity|]. apply Hclosed. left.
Qed.

Section StatusOrder.

Variable user : nat → list JSValue → ZilaConnection → Completion.
Variable JSON_parse : string → option JSValue.
Variable JSON_stringify : JSValue → string.
Variable browser : bool.
Variable expiredCookie : JSValue → JSValue.

Local Abbreviation run' := (run user JSON_parse JSON_stringify browser expiredCookie).
Local Abbreviation deliver' := (deliver user JSON_parse JSON_stringify browser expiredCookie).

Lemma run_notifies_open_or_closed (fuel : nat) (evs : list TransportEvent) :
  ∀ c, Forall (λ v, v = statusValue OPEN ∨ v = statusValue CLOSED)
         (statusNotified (run' fuel evs c).1).
Proof.
  induction evs as [|ev rest IH]; intros c; [constructor|].
  destruct (run_cons_effects user JSON_parse JSON_stringify browser expiredCookie
              fuel ev rest c) as (t' & -> & Ht').
  rewrite statusNotified_app. apply Forall_app. split.
  - eapply Forall_impl.
    + apply statusNotified_carries,
        (deliver_carries user JSON_parse JSON_stringify browser expiredCookie fuel ev c).
    + intros v Hv. destruct ev; simpl in Hv; tauto.
  - destruct Ht' as [->|[c' ->]]; [constructor|apply IH].
Qed.

Lemma run_without_open (fuel : nat) (evs : list TransportEvent) :
  forallb (λ ev, negb (isOpen ev)) evs = true →
  ∀ c, Forall (λ v, v = statusValue CLOSED) (statusNotified (run' fuel evs c).1).
Proof.
  induction evs as [|ev rest IH]; intros Hall c; [constructor|].
  simpl in Hall. apply andb_true_iff in Hall as [Hev Hrest].
  destruct (run_cons_effects user JSON_parse JSON_stringify browser expiredCookie
              fuel ev rest c) as (t' & -> & Ht').
  rewrite statusNotified_app. apply Forall_app. split.
  - eapply Forall_impl.
    + apply statusNotified_carries,
        (deliver_carries user JSON_parse JSON_stringify browser expiredCookie fuel ev c).
    + intros v Hv. destruct ev; simpl in Hv, Hev; try tauto. discriminate.
  - destruct Ht' as [->|[c' ->]]; [constructor|apply IH, Hrest].
Qed.

(** Under the order of the transport, no [OPEN] is notified after a
    [CLOSED]. *)
Lemma run_terminalRespected (fuel : nat) (evs : list TransportEvent) :
  noOpenAfterClose evs = true →
  ∀ c, terminalRespected (statusNotified (run' fuel evs c).1).
Proof.
  induction evs as [|ev rest IH]; intros Hord c.
  - intros l1 l2 Heq. destruct l1; discriminate.
  - simpl in Hord. apply andb_true_iff in Hord as [Hev Hrest].
    destruct (run_cons_effects user JSON_parse JSON_stringify browser expiredCookie
                fuel ev rest c) as (t' & -> & Ht').
    rewrite statusNotified_app.
    pose proof (statusNotified_carries _ _
      (deliver_carries user JSON_parse JSON_stringify browser expiredCookie fuel ev c))
      as Hblock.
    destruct ev as [|code reason| |data]; simpl in Hblock, Hev.
    + apply terminalRespected_after_open; [exact Hblock|].
      destruct Ht' as [->|[c' ->]]; [|apply IH, Hrest].
      intros l1 l2 Heq. destruct l1; discriminate.
    + apply terminalRespected_without_open. intros Hin.
      apply elem_of_app in Hin as [Hin|Hin].
      * rewrite Forall_forall in Hblock. specialize (Hblock _ Hin). discriminate.
      * destruct Ht' as [->|[c' ->]]; [apply not_elem_of_nil in Hin; exact Hin|].
        pose proof (run_without_open fuel rest Hev c') as Hclosed.
        rewrite Forall_forall in Hclosed. specialize (Hclosed _ Hin). discriminate.
    + assert (Hnil : statusNotified (deliver' fuel EvError c).1 = []).
      { destruct (statusNotified _); [reflexivity|].
        apply Forall_cons in Hblock as [[] _]. }
      rewrite Hnil. simpl.
      destruct Ht' as [->|[c' ->]]; [|apply IH, Hrest].
      intros l1 l2 Heq. destruct l1; discriminate.
    + assert (Hnil : statusNotified (deliver' fuel (EvMessage data) c).1 = []).
      { destruct (statusNotified _); [reflexivity|].
        apply Forall_cons in Hblock as [[] _]. }
      rewrite Hnil. simpl.
      destruct Ht' as [->|[c' ->]]; [|apply IH, Hrest].
      intros l1 l2 Heq. destruct l1; discriminate.
Qed.

(** C4, as the code has it.  Every status that a status-change listener is
    called with is [OPEN] or [CLOSED].  The accessor: on a connection that
    starts in [OPENING], with an application that leaves the private field
    alone, the status read after the deliveries is the one that the last
    [open] or [close] among them assigned ([OPENING] when there was none),
    and never [ERROR], whatever errors the transport reported.  When the
    transport delivers no [open] after a [close], the notified statuses
    follow OPENING → OPEN → CLOSED or OPENING → CLOSED, no listener is
    called with [OPEN] after a call with [CLOSED], and once the accessor
    gives [CLOSED] it gives [CLOSED] after the remaining deliveries too.
    The lifecycle callbacks return: with an application whose functions
    return or throw and leave the registry alone, and fuel for the
    status-change listeners, a run of [open], [close] and error callbacks
    ends with a connection. *)
Theorem status_terminal_when_ordered (fuel : nat) (evs : list TransportEvent)
    (c : ZilaConnection) :
  Forall (λ v, v = statusValue OPEN ∨ v = statusValue CLOSED)
    (statusNotified (run' fuel evs c).1)
  ∧ (statusKept user → status c = OPENING →
     ∀ t v c1, run' fuel evs c = (t, Normal v c1) →
       status c1 = statusAfter OPENING evs ∧ status c1 ≠ ERROR)
  ∧ (noOpenAfterClose evs = true →
     terminalRespected (statusNotified (run' fuel evs c).1)
     ∧ follows codeTransition OPENING (statusNotified (run' fuel evs c).1) = true
     ∧ (statusKept user → status c = OPENING →
        ∀ evs1 evs2 t v c1,
          evs = evs1 ++ evs2 →
          run' fuel evs1 c = (t, Normal v c1) →
          status c1 = CLOSED →
          ∀ t' v' c2, run' fuel evs c = (t', Normal v' c2) → status c2 = CLOSED))
  ∧ (registryKept user →
     forallb (λ ev, negb (isMessage ev)) evs = true →
     length (listeners "onStatusChange" c) ≤ fuel →
     ∃ t c', run' fuel evs c = (t, Normal JSUndefined c')).
Proof.
  assert (Hafter : statusKept user → status c = OPENING →
            ∀ l t v c1, run' fuel l c = (t, Normal v c1) →
              status c1 = statusAfter OPENING l).
  { intros Hkept Hstart l t v c1 Hrun.
    pose proof (run_status user JSON_parse JSON_stringify browser expiredCookie
                  Hkept fuel l c) as H.
    rewrite Hrun, Hstart in H. exact H. }
  split; [apply run_notifies_open_or_closed|]. split; [|split].
  - intros Hkept Hstart t v c1 Hrun.
    pose proof (Hafter Hkept Hstart _ _ _ _ Hrun) as H1. split; [exact H1|].
    rewrite H1. apply statusAfter_never_error. discriminate.
  - intros Hord.
    pose proof (run_terminalRespected fuel evs Hord c) as Hterminal.
    split; [exact Hterminal|]. split.
    + apply follows_codeTransition.
      * left. reflexivity.
      * apply run_notifies_open_or_closed.
      * exact Hterminal.
    + intros Hkept Hstart evs1 evs2 t v c1 Hsplit Hrun1 Hclosed t' v' c2 Hrun.
      rewrite (Hafter Hkept Hstart _ _ _ _ Hrun), Hsplit.
      apply statusAfter_terminal.
      * rewrite <- Hsplit. exact Hord.
      * rewrite <- (Hafter Hkept Hstart _ _ _ _ Hrun1). exact Hclosed.
  - intros Hregistry Hlifecycle Hfuel.
    exact (run_returns user JSON_parse JSON_stringify browser expiredCookie
             Hregistry fuel evs c Hlifecycle Hfuel).
Qed.

End StatusOrder.

(** C4, as the specification has it, fails: the transport reports an error
    and closes without having opened (a refused connection), each once.  The
    listener that [connectTo] registered is called with [CLOSED]: the
    notified statuses go from OPENING to CLOSED without OPEN.  The accessor
    still gives [OPENING] after the error, not [ERROR], and [CLOSED] after
    the close. *)
Lemma status_closed_without_open :
  atMostOnce [EvError; EvClose 1006 "refused"]
  ∧ statusNotified
      (run sampleUser (sampleParse []) sampleStringify false (λ v, v) 5
         [EvError; EvClose 1006 "refused"] (connectTo None)).1
    = [statusValue CLOSED]
  ∧ follows specifiedTransition OPENING
      (statusNotified
         (run sampleUser (sampleParse []) sampleStringify false (λ v, v) 5
            [EvError; EvClose 1006 "refused"] (connectTo None)).1)
    = false
  ∧ status (connectTo None) = OPENING
  ∧ match (run sampleUser (sampleParse []) sampleStringify false (λ v, v) 5
             [EvError] (connectTo None)).2 with
    | Normal _ c => status c = OPENING
    | _ => False
    end
  ∧ match (run sampleUser (sampleParse []) sampleStringify false (λ v, v) 5
             [EvError; EvClose 1006 "refused"] (connectTo None)).2 with
    | Normal _ c => status c = CLOSED ∧ specifiedTransition OPENING (status c) = false
    | _ => False
    end.
Proof.
  split; [|split; [|split; [|split; [|split]]]].
  - unfold atMostOnce. simpl. lia.
  - vm_compute. reflexivity.
  - vm_compute. reflexivity.
  - reflexivity.
  - vm_compute. reflexivity.
  - vm_compute. split; reflexivity.
Qed.

Lemma sampleUser_statusKept : statusKept sampleUser.
Proof.
  intros ref args c. unfold sampleUser.
  destruct ref as [|[|[|[|ref]]]]; reflexivity.
Qed.

Lemma sampleUser_registryKept : registryKept sampleUser.
Proof.
  intros ref args c. unfold sampleUser.
  destruct ref as [|[|[|[|ref]]]]; reflexivity.
Qed.

Lemma status_terminal_when_ordered_witness :
  statusNotified
    (run sampleUser (sampleParse []) sampleStringify false (λ v, v) 5
       [EvOpen; EvError; EvClose 1000 "bye"] opening).1
  = [statusValue OPEN; statusValue CLOSED]
  ∧ follows codeTransition OPENING
      (statusNotified
         (run sampleUser (sampleParse []) sampleStringify false (λ v, v) 5
            [EvOpen; EvError; EvClose 1000 "bye"] opening).1)
    = true
  ∧ ∃ t c1,
      run sampleUser (sampleParse []) sampleStringify false (λ v, v) 5
        [EvOpen; EvError; EvClose 1000 "bye"] opening
      = (t, Normal JSUndefined c1)
      ∧ status c1 = CLOSED
      ∧ status c1 ≠ ERROR.
Proof.
  destruct (status_terminal_when_ordered sampleUser (sampleParse []) sampleStringify
              false (λ v, v) 5 [EvOpen; EvError; EvClose 1000 "bye"] opening)
    as (_ & Haccessor & Hordered & Hreturns).
  destruct (Hordered eq_refl) as (_ & Hfollows & _).
  split; [vm_compute; reflexivity|]. split; [exact Hfollows|].
  destruct (Hreturns sampleUser_registryKept eq_refl) as (t & c1 & Hrun);
    [vm_compute; lia|].
  exists t, c1. split; [exact Hrun|].
  exact (Haccessor sampleUser_statusKept eq_refl t JSUndefined c1 Hrun).
Defined.

(** What a listener of the application is called with when the transport
    closes, and what the setter does when the transport then opens again:
    it has no guard. *)
Example close_then_open_notifications :
  statusNotified
    (run sampleUser (sampleParse []) sampleStringify false (λ v, v) 5
       [EvClose 1000 "bye"; EvOpen] listening).1
  = [statusValue CLOSED; statusValue OPEN].
Proof. vm_compute. reflexivity. Qed.

(** ** The dispatch loop *)

Lemma forOf_normal_value (user : nat → list JSValue → ZilaConnection → Completion)
    (fuel : nat) (eventType : string) (id : nat) (args : list JSValue) :
  ∀ i c t v c', forOf user fuel eventType id i args c = (t, Normal v c') →
    v = JSUndefined.
Proof.
  induction fuel as [|fuel IH]; intros i c t v c'; simpl.
  - destruct (arrayNow eventType id c !! i); intros [= _ <- _]; reflexivity.
  - destruct (arrayNow eventType id c !! i) as [cb|];
      [|intros [= _ <- _]; reflexivity].
    destruct (invoke user cb args c) as [v1 c1| |]; try discriminate.
    destruct (forOf user fuel eventType id (S i) args c1) as [t1 r1] eqn:Hloop.
    intros [= _ ->]. exact (IH _ _ _ _ _ Hloop).
Qed.

Lemma notify_normal_value (user : nat → list JSValue → ZilaConnection → Completion)
    (fuel : nat) (eventType : string) (args : list JSValue)
    (c : ZilaConnection) (t : list Effect) (v : JSValue) (c' : ZilaConnection) :
  notify user fuel eventType args c = (t, Normal v c') → v = JSUndefined.
Proof.
  unfold notify. destruct (localEventCallbacks c !! eventType).
  - apply forOf_normal_value.
  - intros [= _ <- _]. reflexivity.
Qed.

Section Dispatch.

Variable user : nat → list JSValue → ZilaConnection → Completion.
Variable JSON_parse : string → option JSValue.
Variable JSON_stringify : JSValue → string.
Variable browser : bool.
Variable expiredCookie : JSValue → JSValue.

Local Abbreviation callEventHandler' :=
  (callEventHandler user JSON_parse JSON_stringify browser expiredCookie).
Local Abbreviation onmessage' :=
  (onmessage user JSON_parse JSON_stringify browser expiredCookie).
Local Abbreviation routeToHandler' := (routeToHandler user JSON_stringify).

(** The dispatch of an envelope whose identifier is a string that does not
    start with [@]. *)
Lemma callEventHandler_ordinary (fuel : nat) (msg : string) (c : ZilaConnection)
    (v : JSValue) (identifier : string) :
  JSON_parse msg = Some v →
  getProperty "identifier" v = Some (JSString identifier) →
  startsWithAt identifier = false →
  callEventHandler' fuel msg c
  = andThen (notify user fuel "onRawMessageRecieved" [JSString msg] c) (λ _ c1,
      andThen (notify user fuel "onMessageRecieved" [fieldOf "message" v] c1) (λ _ c2,
        routeToHandler' identifier (fieldOf "message" v) (fieldOf "callbackId" v) c2)).
Proof.
  intros Hparse Hid Hat. unfold callEventHandler.
  rewrite Hparse, Hid, Hat. reflexivity.
Qed.

(** The same when no listener observes the messages. *)
Lemma callEventHandler_unobserved (fuel : nat) (msg : string) (c : ZilaConnection)
    (v : JSValue) (identifier : string) :
  JSON_parse msg = Some v →
  getProperty "identifier" v = Some (JSString identifier) →
  startsWithAt identifier = false →
  localEventCallbacks c !! "onRawMessageRecieved" = None →
  localEventCallbacks c !! "onMessageRecieved" = None →
  callEventHandler' fuel msg c
  = routeToHandler' identifier (fieldOf "message" v) (fieldOf "callbackId" v) c.
Proof.
  intros Hparse Hid Hat Hraw Hmsg.
  rewrite (callEventHandler_ordinary _ _ _ _ _ Hparse Hid Hat).
  rewrite (notify_unregistered _ _ _ _ _ Hraw). simpl.
  rewrite (notify_unregistered _ _ _ _ _ Hmsg). simpl.
  destruct (routeToHandler' _ _ _ _). reflexivity.
Qed.

(** C3, as the code has it.  A text that [JSON.parse] rejects makes the
    promise of [callEventHandler] reject with the SyntaxError, and a text
    whose parsed value has no [identifier] makes it reject with a TypeError,
    in both cases right after the raw-message listeners have run: nothing
    else is called or sent and the connection is as those listeners left it,
    with its status, handlers and transport unchanged when there is no such
    listener; [onmessage], which drops the promise, returns normally. *)
Theorem malformed_envelope_discarded (fuel : nat) (msg : string) (c : ZilaConnection) :
  (JSON_parse msg = None ∨ ∃ v, JSON_parse msg = Some v ∧ lacksIdentifier v) →
  (∀ t v c1,
     notify user fuel "onRawMessageRecieved" [JSString msg] c = (t, Normal v c1) →
     callEventHandler' fuel msg c
     = (t, Abrupt (match JSON_parse msg with
                   | None => SyntaxError
                   | Some _ => TypeError
                   end) c1)
     ∧ onmessage' fuel msg c = (t, Normal JSUndefined c1))
  ∧ (localEventCallbacks c !! "onRawMessageRecieved" = None →
     callEventHandler' fuel msg c
     = ([], Abrupt (match JSON_parse msg with
                    | None => SyntaxError
                    | Some _ => TypeError
                    end) c)
     ∧ onmessage' fuel msg c = ([], Normal JSUndefined c)).
Proof.
  intros Hbad.
  assert (Hafter : ∀ t v c1,
            notify user fuel "onRawMessageRecieved" [JSString msg] c = (t, Normal v c1) →
            callEventHandler' fuel msg c
            = (t, Abrupt (match JSON_parse msg with
                          | None => SyntaxError
                          | Some _ => TypeError
                          end) c1)
            ∧ onmessage' fuel msg c = (t, Normal JSUndefined c1)).
  { intros t v c1 Hraw.
    assert (Hcall : callEventHandler' fuel msg c
                    = (t, Abrupt (match JSON_parse msg with
                                  | None => SyntaxError
                                  | Some _ => TypeError
                                  end) c1)).
    { unfold callEventHandler. rewrite Hraw. simpl.
      destruct Hbad as [Hnone|(v0 & Hsome & [Hnull|Hmissing])].
      - rewrite Hnone. simpl. rewrite app_nil_r. reflexivity.
      - rewrite Hsome, Hnull. simpl. rewrite app_nil_r. reflexivity.
      - rewrite Hsome, Hmissing. simpl. rewrite app_nil_r. reflexivity. }
    split; [exact Hcall|]. unfold onmessage. rewrite Hcall. reflexivity. }
  split; [exact Hafter|].
  intros Hnone. apply (Hafter [] JSUndefined c).
  apply notify_unregistered, Hnone.
Qed.

(** C10. In the dispatch of an ordinary envelope a handler is called only
    if [message] is truthy.  With [message: null] the dispatch is the two
    notification loops and nothing more, whatever the [callbackId]: no
    handler call, no reply.  With [message: []] the registered handler is
    called with no argument. *)
Theorem handler_needs_truthy_message (fuel : nat) (msg : string) (c : ZilaConnection)
    (v : JSValue) (identifier : string) :
  JSON_parse msg = Some v →
  getProperty "identifier" v = Some (JSString identifier) →
  startsWithAt identifier = false →
  (∀ id cb args, HandlerCall id cb args ∈ (callEventHandler' fuel msg c).1 →
     truthy (fieldOf "message" v) = true)
  ∧ (fieldOf "message" v = JSNull →
     callEventHandler' fuel msg c
     = andThen (notify user fuel "onRawMessageRecieved" [JSString msg] c) (λ _ c1,
         notify user fuel "onMessageRecieved" [JSNull] c1))
  ∧ (fieldOf "message" v = JSArray [] →
     localEventCallbacks c !! "onRawMessageRecieved" = None →
     localEventCallbacks c !! "onMessageRecieved" = None →
     ∀ cb, callbacks c !! identifier = Some cb →
       ∃ t r, callEventHandler' fuel msg c = (HandlerCall identifier cb [] :: t, r)).
Proof.
  intros Hparse Hid Hat. split; [|split].
  - intros id cb args Hin.
    rewrite (callEventHandler_ordinary _ _ _ _ _ Hparse Hid Hat) in Hin.
    pose (P := λ ef : Effect,
            (∃ id cb args, ef = HandlerCall id cb args) →
            truthy (fieldOf "message" v) = true).
    assert (Hall : Forall P
              (andThen (notify user fuel "onRawMessageRecieved" [JSString msg] c) (λ _ c1,
                 andThen (notify user fuel "onMessageRecieved" [fieldOf "message" v] c1)
                   (λ _ c2,
                      routeToHandler' identifier (fieldOf "message" v)
                        (fieldOf "callbackId" v) c2))).1).
    { apply andThen_effects.
      - eapply Forall_impl; [apply notify_effects|].
        intros ef [cb0 ->] (? & ? & ? & ?). discriminate.
      - intros _ c1. apply andThen_effects.
        + eapply Forall_impl; [apply notify_effects|].
          intros ef [cb0 ->] (? & ? & ? & ?). discriminate.
        + intros _ c2. unfold routeToHandler.
          destruct (callbacks c2 !! identifier); [|constructor].
          destruct (truthy (fieldOf "message" v)); [|constructor].
          apply Forall_forall. intros ef _ _. reflexivity. }
    rewrite Forall_forall in Hall. apply (Hall _ Hin). eauto.
  - intros Hnull.
    rewrite (callEventHandler_ordinary _ _ _ _ _ Hparse Hid Hat), Hnull.
    destruct (notify user fuel "onRawMessageRecieved" [JSString msg] c)
      as [t [v1 c1| |]]; simpl; try reflexivity.
    destruct (notify user fuel "onMessageRecieved" [JSNull] c1)
      as [t2 [v2 c2| |]] eqn:Hmsg; simpl; try reflexivity.
    rewrite (notify_normal_value _ _ _ _ _ _ _ _ Hmsg).
    unfold routeToHandler. destruct (callbacks c2 !! identifier); simpl;
      rewrite app_nil_r; reflexivity.
  - intros Hempty Hraw Hmsg cb Hcb.
    rewrite (callEventHandler_unobserved _ _ _ _ _ Hparse Hid Hat Hraw Hmsg), Hempty.
    unfold routeToHandler. rewrite Hcb. simpl.
    destruct (invoke user cb [] c) as [val c'| |];
      [|destruct (isAsync cb); eauto|eauto].
    destruct (truthy (fieldOf "callbackId" v)); [|eauto].
    destruct (fieldOf "callbackId" v); eauto.
Qed.

End Dispatch.

(** ** Waiters and one-shot handlers *)

Section Correlation.

Variable user : nat → list JSValue → ZilaConnection → Completion.
Variable JSON_parse : string → option JSValue.
Variable JSON_stringify : JSValue → string.
Variable browser : bool.
Variable expiredCookie : JSValue → JSValue.

Local Abbreviation callEventHandler' :=
  (callEventHandler user JSON_parse JSON_stringify browser expiredCookie).
Local Abbreviation routeToHandler' := (routeToHandler user JSON_stringify).

(** C5, as the code has it.  [waiter] stores the one-shot handler under the
    correlation id and then hands the envelope to the transport; when the
    reply with that identifier and the arguments [args] is dispatched, the
    handler is called once, leaves the table, and the promise is resolved
    with the first argument, [undefined] when there is none. *)
Theorem waiter_resolves_with_first_argument (fuel : nat) (uuid identifier : string)
    (data : list JSValue) (msg : string) (v : JSValue) (args : list JSValue)
    (c : ZilaConnection) :
  JSON_parse msg = Some v →
  getProperty "identifier" v = Some (JSString uuid) →
  startsWithAt uuid = false →
  fieldOf "message" v = JSArray args →
  truthy (fieldOf "callbackId" v) = false →
  localEventCallbacks c !! "onRawMessageRecieved" = None →
  localEventCallbacks c !! "onMessageRecieved" = None →
  settled c !! uuid = None →
  waiter JSON_stringify uuid identifier data c
  = transportSend (getMessageJSON JSON_stringify identifier (Some data) (Some uuid) false)
      (onceMessageHandler uuid (Resolver uuid) c)
  ∧ callbacks (waiter JSON_stringify uuid identifier data c) !! uuid
    = Some (OnceHandler uuid (Resolver uuid))
  ∧ ∃ c2,
      callEventHandler' fuel msg (waiter JSON_stringify uuid identifier data c)
      = ([HandlerCall uuid (OnceHandler uuid (Resolver uuid)) args],
         Normal JSUndefined c2)
      ∧ settled c2 !! uuid = Some (nth 0 args JSUndefined)
      ∧ callbacks c2 !! uuid = None.
Proof.
  intros Hparse Hid Hat Hmessage Hcallback Hraw Hmsg Hpending.
  split; [reflexivity|]. split; [simpl; apply lookup_insert_eq|].
  rewrite (callEventHandler_unobserved user JSON_parse JSON_stringify browser
             expiredCookie fuel msg (waiter JSON_stringify uuid identifier data c)
             v uuid Hparse Hid Hat Hraw Hmsg).
  rewrite Hmessage. unfold routeToHandler. simpl.
  rewrite lookup_insert_eq. simpl. unfold resolve. simpl.
  rewrite Hpending, Hcallback. simpl.
  eexists. split; [reflexivity|]. simpl.
  split; [apply lookup_insert_eq|apply lookup_delete_eq].
Qed.

(** C6, as the code has it.  The function stored by [onceMessageHandler]
    takes its entry out of the table and only then calls the wrapped
    callback, which therefore runs on a table without the entry.  When the
    callback returns, the dispatch sends one reply if the envelope carries a
    non-empty [callbackId] and none otherwise, and what the callback leaves
    in the table is what the dispatch leaves there.  When the callback
    throws, the stored function being [async], the dispatch completes and
    sends no reply.  In both cases, if the callback leaves no handler under
    the identifier, the next envelope with that identifier calls nothing and
    sends nothing.  The identifier names no member of [Object.prototype]. *)
Theorem onceMessageHandler_answers_once (fuel : nat) (msg : string) (v : JSValue)
    (identifier : string) (args : list JSValue) (callback : Callback)
    (c : ZilaConnection) :
  JSON_parse msg = Some v →
  getProperty "identifier" v = Some (JSString identifier) →
  startsWithAt identifier = false →
  prototypeMember identifier = false →
  fieldOf "message" v = JSArray args →
  (fieldOf "callbackId" v = JSNull ∨ ∃ id, fieldOf "callbackId" v = JSString id) →
  localEventCallbacks c !! "onRawMessageRecieved" = None →
  localEventCallbacks c !! "onMessageRecieved" = None →
  callbacks (removeMessageHandler identifier (onceMessageHandler identifier callback c))
    !! identifier = None
  ∧ (∀ val c2,
       invoke user callback args
         (removeMessageHandler identifier (onceMessageHandler identifier callback c))
       = Normal val c2 →
       ∃ c3,
         callEventHandler' fuel msg (onceMessageHandler identifier callback c)
         = (HandlerCall identifier (OnceHandler identifier callback) args
              :: match fieldOf "callbackId" v with
                 | JSString (String a id) =>
                     [Reply (getMessageJSON JSON_stringify (String a id)
                               (Some [val]) None false)]
                 | _ => []
                 end,
            Normal JSUndefined c3)
         ∧ callbacks c3 = callbacks c2
         ∧ localEventCallbacks c3 = localEventCallbacks c2
         ∧ (callbacks c2 !! identifier = None →
            localEventCallbacks c2 !! "onRawMessageRecieved" = None →
            localEventCallbacks c2 !! "onMessageRecieved" = None →
            callEventHandler' fuel msg c3 = ([], Normal JSUndefined c3)))
  ∧ (∀ e c2,
       invoke user callback args
         (removeMessageHandler identifier (onceMessageHandler identifier callback c))
       = Abrupt e c2 →
       callEventHandler' fuel msg (onceMessageHandler identifier callback c)
       = ([HandlerCall identifier (OnceHandler identifier callback) args],
          Normal JSUndefined c2)
       ∧ (callbacks c2 !! identifier = None →
          localEventCallbacks c2 !! "onRawMessageRecieved" = None →
          localEventCallbacks c2 !! "onMessageRecieved" = None →
          callEventHandler' fuel msg c2 = ([], Normal JSUndefined c2))).
Proof.
  intros Hparse Hid Hat _ Hmessage Hcallback Hraw Hmsg.
  split; [simpl; apply lookup_delete_eq|].
  rewrite (callEventHandler_unobserved user JSON_parse JSON_stringify browser
             expiredCookie fuel msg (onceMessageHandler identifier callback c)
             v identifier Hparse Hid Hat Hraw Hmsg).
  rewrite Hmessage. unfold routeToHandler at 1 2.
  assert (Hstored : callbacks (onceMessageHandler identifier callback c) !! identifier
                    = Some (OnceHandler identifier callback))
    by (simpl; apply lookup_insert_eq).
  rewrite Hstored. cbn [truthy spread invoke isAsync].
  assert (Hdropped : ∀ c2 c3, callbacks c3 = callbacks c2 →
            localEventCallbacks c3 = localEventCallbacks c2 →
            callbacks c2 !! identifier = None →
            localEventCallbacks c2 !! "onRawMessageRecieved" = None →
            localEventCallbacks c2 !! "onMessageRecieved" = None →
            callEventHandler' fuel msg c3 = ([], Normal JSUndefined c3)).
  { intros c2 c3 Htable Hreg Hgone Hraw2 Hmsg2.
    rewrite (callEventHandler_unobserved user JSON_parse JSON_stringify browser
               expiredCookie fuel msg c3 v identifier Hparse Hid Hat).
    - unfold routeToHandler. rewrite Htable, Hgone. reflexivity.
    - rewrite Hreg. exact Hraw2.
    - rewrite Hreg. exact Hmsg2. }
  split.
  - intros val c2 Hcall. rewrite Hcall.
    destruct Hcallback as [Hnull|[id Hstring]].
    + rewrite Hnull. simpl. exists c2.
      split; [reflexivity|]. split; [reflexivity|]. split; [reflexivity|].
      apply Hdropped; reflexivity.
    + rewrite Hstring. destruct id as [|a id]; simpl.
      * exists c2. split; [reflexivity|]. split; [reflexivity|].
        split; [reflexivity|]. apply Hdropped; reflexivity.
      * eexists. split; [reflexivity|]. split; [reflexivity|].
        split; [reflexivity|]. apply (Hdropped c2); reflexivity.
  - intros e c2 Hcall. rewrite Hcall. split; [reflexivity|].
    apply Hdropped; reflexivity.
Qed.

End Correlation.

(** ** Examples of the dispatch *)

Lemma malformed_envelope_discarded_witness :
  (callEventHandler sampleUser (sampleParse [noIdentifier]) sampleStringify false
     (λ v, v) 5 "{identifier:" connected
   = ([], Abrupt SyntaxError connected)
   ∧ onmessage sampleUser (sampleParse [noIdentifier]) sampleStringify false (λ v, v)
       5 "{identifier:" connected
     = ([], Normal JSUndefined connected))
  ∧ (callEventHandler sampleUser (sampleParse [noIdentifier]) sampleStringify false
       (λ v, v) 5 (sampleStringify noIdentifier) connected
     = ([], Abrupt TypeError connected)
     ∧ onmessage sampleUser (sampleParse [noIdentifier]) sampleStringify false (λ v, v)
         5 (sampleStringify noIdentifier) connected
       = ([], Normal JSUndefined connected)).
Proof.
  split.
  - refine (proj2 (malformed_envelope_discarded sampleUser (sampleParse [noIdentifier])
                     sampleStringify false (λ v, v) 5 "{identifier:" connected _) _).
    + left. vm_compute. reflexivity.
    + reflexivity.
  - refine (proj2 (malformed_envelope_discarded sampleUser (sampleParse [noIdentifier])
                     sampleStringify false (λ v, v) 5 (sampleStringify noIdentifier)
                     connected _) _).
    + right. exists noIdentifier. split; [vm_compute; reflexivity|].
      right. reflexivity.
    + reflexivity.
Defined.

(** C3, as the specification has it, fails: the dispatch of a text that is
    not JSON does not return, it completes with the SyntaxError of
    [JSON.parse]. *)
Lemma malformed_envelope_raises :
  callEventHandler sampleUser (sampleParse [emptyCall]) sampleStringify false (λ v, v)
    5 "{identifier:" connected
  = ([], Abrupt SyntaxError connected)
  ∧ ¬ returnsNormally
        (callEventHandler sampleUser (sampleParse [emptyCall]) sampleStringify false
           (λ v, v) 5 "{identifier:" connected).
Proof.
  assert (H : callEventHandler sampleUser (sampleParse [emptyCall]) sampleStringify
                false (λ v, v) 5 "{identifier:" connected
              = ([], Abrupt SyntaxError connected)) by (vm_compute; reflexivity).
  split; [exact H|]. intros (v & c & Hn). rewrite H in Hn. discriminate Hn.
Qed.

(** The same for a text that parses to a value without identifier. *)
Example missing_identifier_rejects :
  callEventHandler sampleUser (sampleParse [noIdentifier]) sampleStringify false (λ v, v)
    5 (sampleStringify noIdentifier) (setMessageHandler "job" (UserFn 2) connected)
  = ([], Abrupt TypeError (setMessageHandler "job" (UserFn 2) connected)).
Proof. vm_compute. reflexivity. Qed.

Lemma handler_needs_truthy_message_witness :
  ∃ t r,
    callEventHandler sampleUser (sampleParse [emptyCall]) sampleStringify false (λ v, v)
      5 (sampleStringify emptyCall) (setMessageHandler "job" (UserFn 2) connected)
    = (HandlerCall "job" (UserFn 2) [] :: t, r).
Proof.
  refine (proj2 (proj2 (handler_needs_truthy_message sampleUser (sampleParse [emptyCall])
            sampleStringify false (λ v, v) 5 (sampleStringify emptyCall)
            (setMessageHandler "job" (UserFn 2) connected)
            emptyCall "job" _ _ _)) _ _ _ (UserFn 2) _).
  - vm_compute. reflexivity.
  - reflexivity.
  - reflexivity.
  - reflexivity.
  - reflexivity.
  - reflexivity.
  - reflexivity.
Defined.

(** An envelope with [message: null] and a correlation id: the registered
    handler is not called and the peer gets no reply. *)
Example null_message_is_dropped :
  callEventHandler sampleUser (sampleParse [inbound "job" JSNull (JSString "cb-9")])
    sampleStringify false (λ v, v) 5
    (sampleStringify (inbound "job" JSNull (JSString "cb-9")))
    (setMessageHandler "job" (UserFn 2) connected)
  = ([], Normal JSUndefined (setMessageHandler "job" (UserFn 2) connected)).
Proof. vm_compute. reflexivity. Qed.

(** C5, as the specification has it, fails: the reply carries two
    arguments and the promise is resolved with the first of them, not with
    the sequence. *)
Lemma waiter_reply_with_two_arguments :
  match afterTwoArgumentReply.2 with
  | Normal _ c =>
      settled c !! "u-1" = Some (JSNumber 1)
      ∧ settled c !! "u-1" ≠ Some (specifiedResolution [JSNumber 1; JSNumber 2])
  | _ => False
  end.
Proof.
  vm_compute. split; [reflexivity|]. intros H. discriminate H.
Qed.

Lemma waiter_resolves_with_first_argument_witness :
  ∃ c2,
    callEventHandler sampleUser (sampleParse [oneArgumentReply]) sampleStringify
      false (λ v, v) 5 (sampleStringify oneArgumentReply)
      (waiter sampleStringify "u-1" "sample" [JSString "sampleData"] connected)
    = ([HandlerCall "u-1" (OnceHandler "u-1" (Resolver "u-1"))
          [JSString "sampleData success"]], Normal JSUndefined c2)
    ∧ settled c2 !! "u-1" = Some (JSString "sampleData success")
    ∧ callbacks c2 !! "u-1" = None.
Proof.
  refine (proj2 (proj2 (waiter_resolves_with_first_argument sampleUser
            (sampleParse [oneArgumentReply]) sampleStringify false (λ v, v) 5
            "u-1" "sample" [JSString "sampleData"] (sampleStringify oneArgumentReply)
            oneArgumentReply [JSString "sampleData success"] connected
            _ _ _ _ _ _ _ _))).
  - vm_compute. reflexivity.
  - reflexivity.
  - reflexivity.
  - reflexivity.
  - reflexivity.
  - reflexivity.
  - reflexivity.
  - reflexivity.
Defined.

Lemma onceMessageHandler_answers_once_witness :
  ∃ c3,
    callEventHandler sampleUser (sampleParse [jobCall]) sampleStringify false (λ v, v)
      5 (sampleStringify jobCall)
      (onceMessageHandler "job" (UserFn 3) connected)
    = ([HandlerCall "job" (OnceHandler "job" (UserFn 3)) [JSNumber 7]],
       Normal JSUndefined c3)
    ∧ callbacks c3 !! "job" = Some (UserFn 0).
Proof.
  destruct (onceMessageHandler_answers_once sampleUser (sampleParse [jobCall])
              sampleStringify false (λ v, v) 5 (sampleStringify jobCall) jobCall
              "job" [JSNumber 7] (UserFn 3) connected)
    as (_ & Hreturns & _).
  - vm_compute. reflexivity.
  - reflexivity.
  - reflexivity.
  - vm_compute. reflexivity.
  - reflexivity.
  - left. reflexivity.
  - reflexivity.
  - reflexivity.
  - destruct (Hreturns (JSBoolean true)
                (setMessageHandler "job" (UserFn 0)
                   (removeMessageHandler "job"
                      (onceMessageHandler "job" (UserFn 3) connected))) eq_refl)
      as (c3 & Hcall & Htable & _).
    exists c3. split; [exact Hcall|]. rewrite Htable. reflexivity.
Defined.

(** C6, as the specification has it, fails: a one-shot handler whose
    callback throws answers no call.  The peer calls [job] twice, each time
    from a waiter: the first call reaches the handler, which leaves the
    table, and gets no reply; the second finds no handler; nothing has been
    handed to the transport. *)
Lemma once_handler_that_throws_answers_none :
  match callEventHandler sampleUser (sampleParse [echoCall]) sampleStringify false
          (λ v, v) 5 (sampleStringify echoCall)
          (onceMessageHandler "job" (UserFn 1) connected) with
  | (t1, Normal _ c1) =>
      t1 = [HandlerCall "job" (OnceHandler "job" (UserFn 1)) [JSString "hi"]]
      ∧ match callEventHandler sampleUser (sampleParse [echoCall]) sampleStringify
                false (λ v, v) 5 (sampleStringify echoCall) c1 with
        | (t2, Normal _ c2) =>
            t2 = []
            ∧ answers (t1 ++ t2) = 0
            ∧ sent (connection c2) = sent (connection connected)
        | _ => False
        end
  | _ => False
  end.
Proof. vm_compute. repeat split; reflexivity. Qed.

(** A one-shot handler that does not register anything: the second call of
    [job] finds no handler. *)
Example second_call_is_dropped :
  match callEventHandler sampleUser (sampleParse [jobCall]) sampleStringify false (λ v, v)
          5 (sampleStringify jobCall)
          (onceMessageHandler "job" (UserFn 2) connected) with
  | (t, Normal _ c) =>
      t = [HandlerCall "job" (OnceHandler "job" (UserFn 2)) [JSNumber 7]]
      ∧ callEventHandler sampleUser (sampleParse [jobCall]) sampleStringify false (λ v, v)
          5 (sampleStringify jobCall) c
        = ([], Normal JSUndefined c)
  | _ => False
  end.
Proof. vm_compute. split; reflexivity. Qed.

(** ** The envelope that [send] and [waiter] write *)

Section Envelope.

Variable user : nat → list JSValue → ZilaConnection → Completion.
Variable JSON_parse : string → option JSValue.
Variable JSON_stringify : JSValue → string.
Variable browser : bool.
Variable expiredCookie : JSValue → JSValue.

Lemma at_prefix_differs (identifier : string) : "@" +:+ identifier ≠ identifier.
Proof.
  intros H. change (String "@"%char identifier = identifier) in H.
  apply (f_equal String.length) in H. simpl in H. lia.
Qed.

(** C1 against the code.  The envelope that [send], [waiter] and the reply
    of the dispatch loop hand to the transport has the identifier
    ["@" + identifier], not the identifier of the caller. *)
Theorem send_prepends_at (identifier uuid : string) (data : list JSValue)
    (c : ZilaConnection) :
  sent (connection (send JSON_stringify identifier data c))
  = sent (connection c)
    ++ [JSON_stringify (envelope ("@" +:+ identifier) (JSArray data) JSNull)]
  ∧ sent (connection (waiter JSON_stringify uuid identifier data c))
    = sent (connection c)
      ++ [JSON_stringify (envelope ("@" +:+ identifier) (JSArray data) (JSString uuid))]
  ∧ (∀ cb args val c' id,
       callbacks c !! identifier = Some cb →
       invoke user cb args c = Normal val c' →
       (routeToHandler user JSON_stringify identifier (JSArray args)
          (JSString (String "c" id)) c).1
       = [HandlerCall identifier cb args;
          Reply (JSON_stringify
                   (envelope ("@" +:+ String "c" id) (JSArray [val]) JSNull))])
  ∧ envelope ("@" +:+ identifier) (JSArray data) JSNull
    ≠ envelope identifier (JSArray data) JSNull.
Proof.
  split; [reflexivity|]. split; [reflexivity|]. split.
  - intros cb args val c' id Hcb Hcall. unfold routeToHandler.
    rewrite Hcb. simpl. rewrite Hcall. reflexivity.
  - intros H. injection H as H. exact (at_prefix_differs identifier H).
Qed.

(** The dispatch loop of the class itself takes such an envelope for a
    control directive: whatever handler is registered, none is called. *)
Lemma own_envelope_reaches_no_handler (fuel : nat) (identifier : string)
    (data : list JSValue) (callbackId : option string) (c : ZilaConnection) :
  JSON_parse (getMessageJSON JSON_stringify identifier (Some data) callbackId false)
  = Some (messageObject identifier (Some data) callbackId false) →
  ∀ id cb args,
    HandlerCall id cb args ∉
      (callEventHandler user JSON_parse JSON_stringify browser expiredCookie fuel
         (getMessageJSON JSON_stringify identifier (Some data) callbackId false) c).1.
Proof.
  intros Hparse id cb args Hin.
  pose (P := λ ef : Effect, ∃ eventType cb0 args0, ef = ListenerCall eventType cb0 args0).
  assert (Hall : Forall P
            (callEventHandler user JSON_parse JSON_stringify browser expiredCookie fuel
               (getMessageJSON JSON_stringify identifier (Some data) callbackId false) c).1).
  { unfold callEventHandler. apply andThen_effects.
    - eapply Forall_impl; [apply notify_effects|]. intros ef [cb0 ->]. red. eauto.
    - intros _ c1. rewrite Hparse. simpl. unfold controlPlane.
      destruct (String.eqb _ "@SetCookie").
      + destruct browser; [|constructor].
        eapply Forall_impl; [apply notify_effects|]. intros ef [cb0 ->]. red. eauto.
      + destruct (String.eqb _ "@DelCookie"); [|constructor].
        destruct browser; [|constructor].
        eapply Forall_impl; [apply notify_effects|]. intros ef [cb0 ->]. red. eauto. }
  rewrite Forall_forall in Hall. destruct (Hall _ Hin) as (? & ? & ? & ?). discriminate.
Qed.

(** C2 against the code.  [send] and [waiter] take a function among the
    arguments like any other value: the call completes and the transport has
    been handed one more text. *)
Theorem send_accepts_function (identifier uuid : string) (ref : nat)
    (data : list JSValue) (c : ZilaConnection) :
  sent (connection (send JSON_stringify identifier (JSFunction ref :: data) c))
  = sent (connection c)
    ++ [getMessageJSON JSON_stringify identifier (Some (JSFunction ref :: data)) None false]
  ∧ sent (connection (waiter JSON_stringify uuid identifier (JSFunction ref :: data) c))
    = sent (connection c)
      ++ [getMessageJSON JSON_stringify identifier (Some (JSFunction ref :: data))
            (Some uuid) false].
Proof. split; reflexivity. Qed.

(** The snapshot of the class in [unnamed/part_000] does refuse it, before
    anything reaches the transport. *)
Lemma snapshot_send_refuses_function (identifier uuid : string) (data : list JSValue)
    (c : ZilaConnection) :
  Snapshot.hasFunction data = true →
  Snapshot.send JSON_stringify identifier data c
  = Abrupt (Error "Passing functions to the server is prohibited.") c
  ∧ Snapshot.waiter JSON_stringify uuid identifier data c
    = Abrupt (Error "Passing functions to the server is prohibited.") c.
Proof.
  intros H. unfold Snapshot.send, Snapshot.waiter. rewrite H. split; reflexivity.
Qed.

Lemma snapshot_hasFunction (ref : nat) (data : list JSValue) :
  Snapshot.hasFunction (JSFunction ref :: data) = true.
Proof. reflexivity. Qed.

End Envelope.

(** The call of the test [Client Async Waiter], as [src/index.ts] writes it
    to the transport. *)
Example waiter_sample_on_the_wire :
  sent (connection
          (waiter sampleStringify "u-1" "sample" [JSString "sampleData"]
             connected))
  = [ "{" +:+ quote +:+ "identifier" +:+ quote +:+ ":" +:+ quote +:+ "@sample" +:+ quote
      +:+ "," +:+ quote +:+ "message" +:+ quote +:+ ":[" +:+ quote +:+ "sampleData"
      +:+ quote +:+ "]," +:+ quote +:+ "callbackId" +:+ quote +:+ ":" +:+ quote
      +:+ "u-1" +:+ quote +:+ "}" ].
Proof. vm_compute. reflexivity. Qed.

(** ** The listener registry of the second class

    The older class takes the index that [findIndex] returns for a
    condition: a callback that is first in the array is added again, and a
    callback that is not in a registered array is refused.  Its
    [removeEventListener] throws for a callback that is not in a registered
    array. *)

Lemma legacy_addEventListener_first_again (eventType : string) (callback : Callback)
    (c : ZilaConnection) (array : ListenerArray) (rest : list Callback) :
  localEventCallbacks c !! eventType = Some array →
  elems array = callback :: rest →
  ∃ c', Legacy.addEventListener eventType callback c = Normal JSUndefined c'
        ∧ listeners eventType c' = callback :: rest ++ [callback].
Proof.
  intros Harray Helems. unfold Legacy.addEventListener.
  rewrite Harray, Helems. unfold findIndex. simpl.
  rewrite bool_decide_eq_true_2 by reflexivity. simpl.
  eexists. split; [reflexivity|]. unfold listeners. simpl.
  rewrite lookup_insert_eq. reflexivity.
Qed.

Lemma legacy_addEventListener_refuses_new (eventType : string) (callback : Callback)
    (c : ZilaConnection) (array : ListenerArray) :
  localEventCallbacks c !! eventType = Some array →
  callback ∉ elems array →
  Legacy.addEventListener eventType callback c
  = Abrupt (Error (eventType +:+ " listener already has this callback added to it.")) c.
Proof.
  intros Harray Hout. unfold Legacy.addEventListener. rewrite Harray.
  fold (indexOf callback (elems array)). rewrite (indexOf_absent _ _ Hout).
  reflexivity.
Qed.

Lemma legacy_removeEventListener_throws (eventType : string) (callback : Callback)
    (c : ZilaConnection) (array : ListenerArray) :
  localEventCallbacks c !! eventType = Some array →
  callback ∉ elems array →
  Legacy.removeEventListener eventType callback c
  = Abrupt (ReferenceError
              "EventListener doesn't exist with the given eventName and callback!") c.
Proof.
  intros Harray Hout. unfold Legacy.removeEventListener. rewrite Harray.
  rewrite (indexOf_absent _ _ Hout). reflexivity.
Qed.

Example listening_registered : listeners "onStatusChange" listening = [UserFn 0].
Proof. reflexivity. Qed.

(** The second class at work.  With the function 0 registered, adding
    the function 2, which is not registered, throws, and adding the function
    0 again succeeds and leaves it in the array twice. *)
Lemma legacy_addEventListener_slips :
  (UserFn 2 ∉ listeners "onStatusChange" listening)
  ∧ Legacy.addEventListener "onStatusChange" (UserFn 2) listening
    = Abrupt (Error "onStatusChange listener already has this callback added to it.")
        listening
  ∧ ∃ c', Legacy.addEventListener "onStatusChange" (UserFn 0) listening
          = Normal JSUndefined c'
        ∧ listeners "onStatusChange" c' = [UserFn 0; UserFn 0].
Proof.
  split; [|split].
  - rewrite listening_registered. intros H.
    apply list_elem_of_singleton in H. discriminate H.
  - apply legacy_addEventListener_refuses_new
      with (array := {| arrayId := 1; elems := [UserFn 0] |}).
    + reflexivity.
    + simpl. intros H. apply list_elem_of_singleton in H. discriminate H.
  - destruct (legacy_addEventListener_first_again "onStatusChange" (UserFn 0) listening
                {| arrayId := 1; elems := [UserFn 0] |} [])
      as (c' & Hadd & Hl); [reflexivity|reflexivity|].
    exists c'. split; assumption.
Qed.

(** The second class at work.  With the function 0 registered, removing
    the function 2, which is not registered, throws a ReferenceError, where
    the first class returns and leaves the connection as it is. *)
Lemma legacy_removeEventListener_raises :
  Legacy.removeEventListener "onStatusChange" (UserFn 2) listening
  = Abrupt (ReferenceError
              "EventListener doesn't exist with the given eventName and callback!")
      listening
  ∧ removeEventListener "onStatusChange" (UserFn 2) listening = listening.
Proof.
  split.
  - apply legacy_removeEventListener_throws
      with (array := {| arrayId := 1; elems := [UserFn 0] |}).
    + reflexivity.
    + simpl. intros H. apply list_elem_of_singleton in H. discriminate H.
  - apply removeEventListener_absent. rewrite listening_registered.
    intros H. apply list_elem_of_singleton in H. discriminate H.
Qed.

(** * Further properties of the code *)

(** ** The registry of listeners, continued *)

Lemma filter_other_absent (callback : Callback) (l : list Callback) :
  callback ∉ l → filter (λ el, el ≠ callback) l = l.
Proof.
  induction l as [|x l IH]; intros Hout; [reflexivity|].
  apply not_elem_of_cons in Hout as [Hne Hout].
  rewrite filter_cons_True by congruence. rewrite IH by exact Hout. reflexivity.
Qed.

Lemma indexOf_negative_absent (callback : Callback) (l : list Callback) :
  (0 <=? indexOf callback l)%Z = false → callback ∉ l.
Proof.
  intros Hneg Hin. apply list_elem_of_split_l in Hin as (l1 & l2 & -> & Hfirst).
  rewrite (indexOf_first _ _ _ Hfirst) in Hneg.
  apply Z.leb_gt in Hneg. lia.
Qed.

(** X1. On an array without duplicates, [removeEventListener] takes out the
    callback and nothing else: the other callbacks of the event type stay, in
    their order, and the other event types are not touched. *)
Theorem removeEventListener_keeps_the_others (eventType : string)
    (callback : Callback) (c : ZilaConnection) :
  NoDup (listeners eventType c) →
  listeners eventType (removeEventListener eventType callback c)
  = filter (λ el, el ≠ callback) (listeners eventType c)
  ∧ ∀ other, other ≠ eventType →
      localEventCallbacks (removeEventListener eventType callback c) !! other
      = localEventCallbacks c !! other.
Proof.
  intros Hnd. split; [|intros other Hne; apply listeners_removeEventListener_other, Hne].
  destruct (decide (callback ∈ listeners eventType c)) as [Hin|Hout].
  - apply list_elem_of_split_l in Hin as (l1 & l2 & Hsplit & Hfirst).
    rewrite (listeners_removeEventListener_first _ _ _ _ _ Hsplit Hfirst), Hsplit.
    rewrite Hsplit in Hnd.
    apply NoDup_app in Hnd as (_ & _ & Hnd2).
    apply NoDup_cons in Hnd2 as [Hl2 _].
    rewrite filter_app, filter_cons_False by (intros H; apply H; reflexivity).
    rewrite !filter_other_absent by assumption. reflexivity.
  - rewrite (removeEventListener_absent _ _ _ Hout).
    symmetry. apply filter_other_absent, Hout.
Qed.

Lemma removeEventListener_keeps_the_others_witness :
  listeners "onStatusChange" (removeEventListener "onStatusChange" (UserFn 1) threeListeners)
  = [UserFn 0; UserFn 2].
Proof.
  refine (eq_trans (proj1 (removeEventListener_keeps_the_others "onStatusChange"
                             (UserFn 1) threeListeners _)) _).
  - rewrite threeListeners_registered.
    repeat (apply NoDup_cons; split;
            [intros H; repeat (apply elem_of_cons in H as [H|H]; [discriminate H|]);
             apply not_elem_of_nil in H; exact H|]).
    apply NoDup_nil_2.
  - vm_compute. reflexivity.
Defined.

(** X2. Adding a callback and removing it again gives the registry back as
    it was, the entry of an event type that had no listener included. *)
Theorem addEventListener_then_remove (eventType : string) (callback : Callback)
    (c c1 : ZilaConnection) (v : JSValue) :
  registryOk c →
  addEventListener eventType callback c = Normal v c1 →
  localEventCallbacks (removeEventListener eventType callback c1)
  = localEventCallbacks c.
Proof.
  intros Hok Hadd. unfold addEventListener in Hadd.
  destruct (localEventCallbacks c !! eventType) as [array|] eqn:Harray.
  - fold (indexOf callback (elems array)) in Hadd.
    destruct (0 <=? indexOf callback (elems array))%Z eqn:Hfound; [discriminate|].
    injection Hadd as _ <-.
    pose proof (indexOf_negative_absent _ _ Hfound) as Hout.
    erewrite removeEventListener_first with (l1 := elems array) (l2 := []);
      [|simpl; apply lookup_insert_eq|reflexivity|exact Hout].
    rewrite app_nil_r.
    destruct (Hok _ _ Harray) as [Hne _].
    destruct (Nat.eqb_spec (length (elems array)) 0) as [Hz|_].
    + apply nil_length_inv in Hz. contradiction.
    + simpl. rewrite insert_insert_eq. apply insert_id.
      rewrite Harray. destruct array. reflexivity.
  - injection Hadd as _ <-.
    erewrite removeEventListener_first with (l1 := []) (l2 := []);
      [|simpl; apply lookup_insert_eq|reflexivity|apply not_elem_of_nil].
    simpl. rewrite delete_insert_eq. apply delete_id, Harray.
Qed.

Lemma connected_registry : localEventCallbacks connected = ∅.
Proof. vm_compute. reflexivity. Qed.

Lemma addEventListener_then_remove_witness :
  ∃ c1, addEventListener "onMessageRecieved" (UserFn 2) connected
        = Normal JSUndefined c1
      ∧ localEventCallbacks (removeEventListener "onMessageRecieved" (UserFn 2) c1)
        = localEventCallbacks connected.
Proof.
  eexists. split; [reflexivity|].
  refine (addEventListener_then_remove "onMessageRecieved" (UserFn 2) connected
            _ JSUndefined _ _).
  - intros eventType array H. rewrite connected_registry, lookup_empty in H.
    discriminate H.
  - reflexivity.
Defined.

(** X3. The registry keeps its resting state through the three operations
    on it: after [addEventListener], [onceEventListener] or
    [removeEventListener] no event type is registered with an empty array
    and no array holds a callback twice. *)
Theorem registry_stays_ok (eventType : string) (callback : Callback)
    (c : ZilaConnection) :
  registryOk c →
  (∀ v c', addEventListener eventType callback c = Normal v c' → registryOk c')
  ∧ (∀ v c', onceEventListener eventType callback c = Normal v c' → registryOk c')
  ∧ registryOk (removeEventListener eventType callback c).
Proof.
  intros Hok. split; [|split].
  - intros v c' Hadd. exact (registryOk_addEventListener _ _ _ _ _ Hok Hadd).
  - intros v c' Honce. unfold onceEventListener in Honce.
    refine (registryOk_addEventListener _ _ _ _ _ _ Honce). exact Hok.
  - apply registryOk_removeEventListener, Hok.
Qed.

Lemma registry_stays_ok_witness :
  ∃ c', onceEventListener "onStatusChange" (UserFn 0) connected = Normal JSUndefined c'
        ∧ registryOk c'.
Proof.
  eexists. split; [reflexivity|].
  refine (proj1 (proj2 (registry_stays_ok "onStatusChange" (UserFn 0) connected _))
            JSUndefined _ _).
  - intros eventType array H. rewrite connected_registry, lookup_empty in H.
    discriminate H.
  - reflexivity.
Defined.

(** ** The dispatch loop, continued *)

Section DispatchEdges.

Variable user : nat → list JSValue → ZilaConnection → Completion.
Variable JSON_parse : string → option JSValue.
Variable JSON_stringify : JSValue → string.
Variable browser : bool.
Variable expiredCookie : JSValue → JSValue.

Local Abbreviation callEventHandler' :=
  (callEventHandler user JSON_parse JSON_stringify browser expiredCookie).
Local Abbreviation routeToHandler' := (routeToHandler user JSON_stringify).

(** Observers are all reached and leave the handler table alone. *)
Lemma forOf_observers (eventType : string) (id : nat) (args : list JSValue)
    (rest : list Callback) :
  ∀ (done : list Callback) (fuel : nat) (c : ZilaConnection),
    arrayNow eventType id c = done ++ rest →
    Forall (observer user args) rest →
    length rest ≤ fuel →
    ∃ c', forOf user fuel eventType id (length done) args c
            = (calls eventType args rest, Normal JSUndefined c')
          ∧ localEventCallbacks c' = localEventCallbacks c
          ∧ callbacks c' = callbacks c.
Proof.
  induction rest as [|cb rest IH]; intros done fuel c Harr Hobs Hfuel.
  - exists c. split; [|split; reflexivity].
    assert (Hnone : arrayNow eventType id c !! length done = None).
    { rewrite Harr, app_nil_r. apply lookup_ge_None. lia. }
    destruct fuel; simpl; rewrite Hnone; reflexivity.
  - destruct fuel as [|fuel]; [simpl in Hfuel; lia|].
    apply Forall_cons in Hobs as [Hcb Hrest].
    assert (Hsome : arrayNow eventType id c !! length done = Some cb).
    { rewrite Harr. apply list_lookup_middle. reflexivity. }
    destruct (Hcb c) as (v & c1 & Hcall & Hreg & Htable).
    destruct (IH (done ++ [cb]) fuel c1) as (c' & Hloop & Hreg' & Htable').
    + rewrite (arrayNow_registry _ _ _ _ Hreg), Harr, <- app_assoc. reflexivity.
    + exact Hrest.
    + simpl in Hfuel. lia.
    + exists c'. split; [|split; congruence].
      simpl. rewrite Hsome, Hcall.
      rewrite length_app in Hloop. simpl in Hloop.
      rewrite Nat.add_1_r in Hloop. rewrite Hloop. reflexivity.
Qed.

(** X4. The later registration under an identifier is the one that
    answers, and a one-shot registration does not give the identifier back
    to the handler it replaced.  With a permanent handler registered,
    [onceMessageHandler] on the same identifier makes the next envelope call
    the one-shot handler only, after which the identifier has no handler at
    all: the following envelope calls nothing.  The other way round,
    [setMessageHandler] over a one-shot handler answers every envelope and
    stays.  After [removeMessageHandler] nothing is called.  The handlers
    return and leave the table and the listeners alone; the identifier names
    no member of [Object.prototype]. *)
Theorem later_registration_wins (fuel : nat) (msg : string) (v : JSValue)
    (identifier : string) (args : list JSValue) (first second : Callback)
    (c : ZilaConnection) :
  JSON_parse msg = Some v →
  getProperty "identifier" v = Some (JSString identifier) →
  startsWithAt identifier = false →
  prototypeMember identifier = false →
  fieldOf "message" v = JSArray args →
  truthy (fieldOf "callbackId" v) = false →
  localEventCallbacks c !! "onRawMessageRecieved" = None →
  localEventCallbacks c !! "onMessageRecieved" = None →
  observer user args first →
  observer user args second →
  (∃ c1,
     callEventHandler' fuel msg
       (onceMessageHandler identifier first (setMessageHandler identifier second c))
     = ([HandlerCall identifier (OnceHandler identifier first) args],
        Normal JSUndefined c1)
     ∧ callbacks c1 !! identifier = None
     ∧ callEventHandler' fuel msg c1 = ([], Normal JSUndefined c1))
  ∧ (∃ c1 c2,
       callEventHandler' fuel msg
         (setMessageHandler identifier second (onceMessageHandler identifier first c))
       = ([HandlerCall identifier second args], Normal JSUndefined c1)
       ∧ callEventHandler' fuel msg c1
         = ([HandlerCall identifier second args], Normal JSUndefined c2)
       ∧ callbacks c2 !! identifier = Some second)
  ∧ callEventHandler' fuel msg
      (removeMessageHandler identifier (setMessageHandler identifier second c))
    = ([], Normal JSUndefined
             (removeMessageHandler identifier (setMessageHandler identifier second c))).
Proof.
  intros Hparse Hid Hat _ Hmessage Hcallback Hraw Hmsg Hfirst Hsecond.
  assert (Hroute : ∀ c0,
            localEventCallbacks c0 !! "onRawMessageRecieved" = None →
            localEventCallbacks c0 !! "onMessageRecieved" = None →
            callEventHandler' fuel msg c0
            = routeToHandler' identifier (JSArray args) (fieldOf "callbackId" v) c0).
  { intros c0 Hraw0 Hmsg0. rewrite <- Hmessage.
    apply callEventHandler_unobserved; assumption. }
  split; [|split].
  - destruct (Hfirst (removeMessageHandler identifier
                        (onceMessageHandler identifier first
                           (setMessageHandler identifier second c))))
      as (val & c1 & Hcall & Hreg & Htable).
    exists c1.
    assert (Hgone : callbacks c1 !! identifier = None).
    { rewrite Htable. simpl. apply lookup_delete_eq. }
    split; [|split; [exact Hgone|]].
    + rewrite Hroute by assumption. unfold routeToHandler. simpl.
      rewrite lookup_insert_eq. cbn [invoke]. rewrite Hcall, Hcallback. reflexivity.
    + rewrite Hroute by (rewrite Hreg; assumption).
      unfold routeToHandler. rewrite Hgone. reflexivity.
  - destruct (Hsecond (setMessageHandler identifier second
                         (onceMessageHandler identifier first c)))
      as (val & c1 & Hcall & Hreg & Htable).
    destruct (Hsecond c1) as (val' & c2 & Hcall' & Hreg' & Htable').
    assert (Hstays : callbacks c1 !! identifier = Some second).
    { rewrite Htable. simpl. apply lookup_insert_eq. }
    exists c1, c2. split; [|split].
    + rewrite Hroute by assumption. unfold routeToHandler. simpl.
      rewrite lookup_insert_eq. rewrite Hcall, Hcallback. reflexivity.
    + rewrite Hroute by (rewrite Hreg; assumption).
      unfold routeToHandler. rewrite Hstays. simpl.
      rewrite Hcall', Hcallback. reflexivity.
    + rewrite Htable'. exact Hstays.
  - rewrite Hroute by assumption. unfold routeToHandler. simpl.
    rewrite lookup_delete_eq. reflexivity.
Qed.

(** X5. An ordinary envelope whose identifier has no handler and names no
    member of [Object.prototype] is dropped without an answer, whatever its
    message and its [callbackId]; the message-received listeners are called
    with the message all the same. *)
Theorem unknown_identifier_dropped (fuel : nat) (msg : string) (c : ZilaConnection)
    (v : JSValue) (identifier : string) (observers : list Callback) :
  JSON_parse msg = Some v →
  getProperty "identifier" v = Some (JSString identifier) →
  startsWithAt identifier = false →
  localEventCallbacks c !! "onRawMessageRecieved" = None →
  listeners "onMessageRecieved" c = observers →
  Forall (observer user [fieldOf "message" v]) observers →
  length observers ≤ fuel →
  callbacks c !! identifier = None →
  prototypeMember identifier = false →
  ∃ c', callEventHandler' fuel msg c
        = (calls "onMessageRecieved" [fieldOf "message" v] observers,
           Normal JSUndefined c')
      ∧ callbacks c' = callbacks c
      ∧ localEventCallbacks c' = localEventCallbacks c.
Proof.
  intros Hparse Hid Hat Hraw Hl Hobs Hfuel Hnone _.
  rewrite (callEventHandler_ordinary user JSON_parse JSON_stringify browser
             expiredCookie fuel msg c v identifier Hparse Hid Hat).
  rewrite (notify_unregistered _ _ _ _ _ Hraw). simpl.
  assert (Hnotify : ∃ c', notify user fuel "onMessageRecieved" [fieldOf "message" v] c
                          = (calls "onMessageRecieved" [fieldOf "message" v] observers,
                             Normal JSUndefined c')
                        ∧ localEventCallbacks c' = localEventCallbacks c
                        ∧ callbacks c' = callbacks c).
  { unfold notify.
    destruct (localEventCallbacks c !! "onMessageRecieved") as [array|] eqn:Harray.
    - apply (forOf_observers "onMessageRecieved" (arrayId array)
               [fieldOf "message" v] observers [] fuel c).
      + rewrite (arrayNow_listeners _ _ _ Harray). exact Hl.
      + exact Hobs.
      + exact Hfuel.
    - unfold listeners in Hl. rewrite Harray in Hl. subst observers.
      exists c. split; [reflexivity|]. split; reflexivity. }
  destruct Hnotify as (c' & Hnotify & Hreg & Htable).
  rewrite Hnotify. simpl. unfold routeToHandler. rewrite Htable, Hnone.
  rewrite !app_nil_r. exists c'. split; [reflexivity|]. split; assumption.
Qed.

(** X6. An envelope whose identifier starts with [@] reaches no message
    handler and no message-received listener: the dispatch calls raw-message
    and cookie listeners only.  Outside a browser, and for every directive
    other than [@SetCookie] and [@DelCookie], it is the raw-message
    notification and nothing more. *)
Theorem control_envelope_bypasses_handlers (fuel : nat) (msg : string)
    (c : ZilaConnection) (v : JSValue) (identifier : string) :
  JSON_parse msg = Some v →
  getProperty "identifier" v = Some (JSString identifier) →
  startsWithAt identifier = true →
  Forall (λ ef, ∃ eventType cb args,
            ef = ListenerCall eventType cb args
            ∧ (eventType = "onRawMessageRecieved" ∨ eventType = "onCookieSet"
               ∨ eventType = "onCookieDelete"))
    (callEventHandler' fuel msg c).1
  ∧ (browser = false ∨ (identifier ≠ "@SetCookie" ∧ identifier ≠ "@DelCookie") →
     callEventHandler' fuel msg c
     = notify user fuel "onRawMessageRecieved" [JSString msg] c).
Proof.
  intros Hparse Hid Hat. split.
  - unfold callEventHandler. apply andThen_effects.
    + eapply Forall_impl; [apply notify_effects|]. intros ef [cb ->]. eauto 10.
    + intros _ c1. rewrite Hparse, Hid, Hat. unfold controlPlane.
      destruct (String.eqb identifier "@SetCookie").
      * destruct browser; [|constructor].
        eapply Forall_impl; [apply notify_effects|]. intros ef [cb ->]. eauto 10.
      * destruct (String.eqb identifier "@DelCookie"); [|constructor].
        destruct browser; [|constructor].
        eapply Forall_impl; [apply notify_effects|]. intros ef [cb ->]. eauto 10.
  - intros Hquiet. unfold callEventHandler.
    destruct (notify user fuel "onRawMessageRecieved" [JSString msg] c)
      as [t [v1 c1| |]] eqn:Hn; try reflexivity.
    simpl. rewrite Hparse, Hid, Hat.
    assert (Hdone : controlPlane user browser expiredCookie fuel identifier
                      (fieldOf "message" v) c1 = ([], Normal JSUndefined c1)).
    { unfold controlPlane. destruct Hquiet as [->|[Hset Hdel]].
      - destruct (String.eqb identifier "@SetCookie"); [reflexivity|].
        destruct (String.eqb identifier "@DelCookie"); reflexivity.
      - apply String.eqb_neq in Hset, Hdel. rewrite Hset, Hdel. reflexivity. }
    rewrite Hdone, app_nil_r, (notify_normal_value _ _ _ _ _ _ _ _ Hn). reflexivity.
Qed.

(** X7. A truthy message that cannot be spread (a number, [true], an
    object) makes the dispatch fail with a TypeError before the registered
    handler is called, and nothing is sent; a string message is spread into
    its code points, which become the arguments of the handler, one string
    each. *)
Theorem message_that_is_no_array (fuel : nat) (msg : string) (c : ZilaConnection)
    (v : JSValue) (identifier : string) (cb : Callback) :
  JSON_parse msg = Some v →
  getProperty "identifier" v = Some (JSString identifier) →
  startsWithAt identifier = false →
  localEventCallbacks c !! "onRawMessageRecieved" = None →
  localEventCallbacks c !! "onMessageRecieved" = None →
  callbacks c !! identifier = Some cb →
  (truthy (fieldOf "message" v) = true → spread (fieldOf "message" v) = None →
   callEventHandler' fuel msg c = ([], Abrupt TypeError c))
  ∧ (∀ a s, fieldOf "message" v = JSString (String a s) →
     ∃ t r, callEventHandler' fuel msg c
            = (HandlerCall identifier cb (characters (String a s)) :: t, r)).
Proof.
  intros Hparse Hid Hat Hraw Hmsg Hcb.
  rewrite (callEventHandler_unobserved user JSON_parse JSON_stringify browser
             expiredCookie fuel msg c v identifier Hparse Hid Hat Hraw Hmsg).
  unfold routeToHandler. rewrite Hcb. split.
  - intros Htruthy Hspread. rewrite Htruthy, Hspread. reflexivity.
  - intros a s ->. cbn [truthy spread String.eqb negb].
    destruct (invoke user cb (characters (String a s)) c) as [val c'| |];
      [|destruct (isAsync cb); eauto|eauto].
    destruct (truthy (fieldOf "callbackId" v)); [|eauto].
    destruct (fieldOf "callbackId" v); eauto.
Qed.

(** X8. When the handler of an ordinary envelope returns, the dispatch sends
    one reply if the [callbackId] is a non-empty string and none if it is
    [null], [undefined] or empty.  When the handler throws, no reply is
    sent: the exception of a handler that is not [async] is the completion
    of the dispatch, and the rejection of an [async] one, the function that
    [onceMessageHandler] stored, is dropped and the dispatch completes. *)
Theorem reply_follows_callbackId (fuel : nat) (msg : string) (c : ZilaConnection)
    (v : JSValue) (identifier : string) (cb : Callback) (args : list JSValue) :
  JSON_parse msg = Some v →
  getProperty "identifier" v = Some (JSString identifier) →
  startsWithAt identifier = false →
  localEventCallbacks c !! "onRawMessageRecieved" = None →
  localEventCallbacks c !! "onMessageRecieved" = None →
  callbacks c !! identifier = Some cb →
  fieldOf "message" v = JSArray args →
  (∀ val c', invoke user cb args c = Normal val c' →
     (∀ a id, fieldOf "callbackId" v = JSString (String a id) →
        callEventHandler' fuel msg c
        = ([HandlerCall identifier cb args;
            Reply (getMessageJSON JSON_stringify (String a id) (Some [val]) None false)],
           Normal JSUndefined
             (transportSend
                (getMessageJSON JSON_stringify (String a id) (Some [val]) None false) c')))
     ∧ (truthy (fieldOf "callbackId" v) = false →
        callEventHandler' fuel msg c
        = ([HandlerCall identifier cb args], Normal JSUndefined c')))
  ∧ (∀ e c', invoke user cb args c = Abrupt e c' →
     (isAsync cb = false →
      callEventHandler' fuel msg c = ([HandlerCall identifier cb args], Abrupt e c'))
     ∧ (isAsync cb = true →
        callEventHandler' fuel msg c
        = ([HandlerCall identifier cb args], Normal JSUndefined c'))).
Proof.
  intros Hparse Hid Hat Hraw Hmsg Hcb Hmessage.
  rewrite (callEventHandler_unobserved user JSON_parse JSON_stringify browser
             expiredCookie fuel msg c v identifier Hparse Hid Hat Hraw Hmsg).
  unfold routeToHandler. rewrite Hcb, Hmessage. cbn [truthy spread]. split.
  - intros val c' Hcall. rewrite Hcall. split.
    + intros a id ->. reflexivity.
    + intros ->. reflexivity.
  - intros e c' Hcall. rewrite Hcall. split; intros ->; reflexivity.
Qed.

End DispatchEdges.

Lemma later_registration_wins_witness :
  (∃ c1,
     callEventHandler sampleUser (sampleParse [jobCall]) sampleStringify false
       (λ v, v) 5 (sampleStringify jobCall)
       (onceMessageHandler "job" (UserFn 0)
          (setMessageHandler "job" (UserFn 2) connected))
     = ([HandlerCall "job" (OnceHandler "job" (UserFn 0)) [JSNumber 7]],
        Normal JSUndefined c1)
     ∧ callbacks c1 !! "job" = None
     ∧ callEventHandler sampleUser (sampleParse [jobCall]) sampleStringify false
         (λ v, v) 5 (sampleStringify jobCall) c1
       = ([], Normal JSUndefined c1))
  ∧ (∃ c1 c2,
       callEventHandler sampleUser (sampleParse [jobCall]) sampleStringify false
         (λ v, v) 5 (sampleStringify jobCall)
         (setMessageHandler "job" (UserFn 2)
            (onceMessageHandler "job" (UserFn 0) connected))
       = ([HandlerCall "job" (UserFn 2) [JSNumber 7]], Normal JSUndefined c1)
       ∧ callEventHandler sampleUser (sampleParse [jobCall]) sampleStringify false
           (λ v, v) 5 (sampleStringify jobCall) c1
         = ([HandlerCall "job" (UserFn 2) [JSNumber 7]], Normal JSUndefined c2)
       ∧ callbacks c2 !! "job" = Some (UserFn 2))
  ∧ callEventHandler sampleUser (sampleParse [jobCall]) sampleStringify false
      (λ v, v) 5 (sampleStringify jobCall)
      (removeMessageHandler "job" (setMessageHandler "job" (UserFn 2) connected))
    = ([], Normal JSUndefined
             (removeMessageHandler "job"
                (setMessageHandler "job" (UserFn 2) connected))).
Proof.
  apply (later_registration_wins sampleUser (sampleParse [jobCall]) sampleStringify
           false (λ v, v) 5 (sampleStringify jobCall) jobCall "job" [JSNumber 7]
           (UserFn 0) (UserFn 2) connected).
  - vm_compute. reflexivity.
  - reflexivity.
  - reflexivity.
  - vm_compute. reflexivity.
  - reflexivity.
  - reflexivity.
  - reflexivity.
  - reflexivity.
  - intros c. exists JSUndefined, c. split; [reflexivity|]. split; reflexivity.
  - intros c. exists (JSNumber 7), c. split; [reflexivity|]. split; reflexivity.
Defined.

Lemma unknown_identifier_dropped_witness :
  ∃ c', callEventHandler sampleUser (sampleParse [unknownCall]) sampleStringify false
          (λ v, v) 5 (sampleStringify unknownCall) observing
        = ([ListenerCall "onMessageRecieved" (UserFn 0) [JSArray [JSString "SMTH"]]],
           Normal JSUndefined c')
      ∧ callbacks c' = callbacks observing
      ∧ localEventCallbacks c' = localEventCallbacks observing.
Proof.
  refine (unknown_identifier_dropped sampleUser (sampleParse [unknownCall])
            sampleStringify false (λ v, v) 5 (sampleStringify unknownCall) observing
            unknownCall "THISSHOULDNOTEXIST" [UserFn 0] _ _ _ _ _ _ _ _ _).
  - vm_compute. reflexivity.
  - reflexivity.
  - reflexivity.
  - reflexivity.
  - reflexivity.
  - constructor; [|constructor]. intros c. exists JSUndefined, c.
    split; [reflexivity|]. split; reflexivity.
  - simpl. lia.
  - reflexivity.
  - vm_compute. reflexivity.
Defined.

Lemma control_envelope_bypasses_handlers_witness :
  callEventHandler sampleUser (sampleParse [controlCall]) sampleStringify false
    (λ v, v) 5 (sampleStringify controlCall)
    (setMessageHandler "@hello" (UserFn 2) observing)
  = notify sampleUser 5 "onRawMessageRecieved" [JSString (sampleStringify controlCall)]
      (setMessageHandler "@hello" (UserFn 2) observing).
Proof.
  refine (proj2 (control_envelope_bypasses_handlers sampleUser
            (sampleParse [controlCall]) sampleStringify false (λ v, v) 5
            (sampleStringify controlCall)
            (setMessageHandler "@hello" (UserFn 2) observing)
            controlCall "@hello" _ _ _) _).
  - vm_compute. reflexivity.
  - reflexivity.
  - reflexivity.
  - left. reflexivity.
Defined.

Lemma message_that_is_no_array_witness :
  callEventHandler sampleUser (sampleParse [numberCall]) sampleStringify false
    (λ v, v) 5 (sampleStringify numberCall)
    (setMessageHandler "job" (UserFn 2) connected)
  = ([], Abrupt TypeError (setMessageHandler "job" (UserFn 2) connected))
  ∧ ∃ t r,
      callEventHandler sampleUser (sampleParse [stringCall]) sampleStringify false
        (λ v, v) 5 (sampleStringify stringCall)
        (setMessageHandler "job" (UserFn 2) connected)
      = (HandlerCall "job" (UserFn 2) [JSString eAcute; JSString "!"] :: t, r).
Proof.
  split.
  - refine (proj1 (message_that_is_no_array sampleUser (sampleParse [numberCall])
              sampleStringify false (λ v, v) 5 (sampleStringify numberCall)
              (setMessageHandler "job" (UserFn 2) connected)
              numberCall "job" (UserFn 2) _ _ _ _ _ _) _ _).
    + vm_compute. reflexivity.
    + reflexivity.
    + reflexivity.
    + reflexivity.
    + reflexivity.
    + reflexivity.
    + reflexivity.
    + reflexivity.
  - refine (proj2 (message_that_is_no_array sampleUser (sampleParse [stringCall])
              sampleStringify false (λ v, v) 5 (sampleStringify stringCall)
              (setMessageHandler "job" (UserFn 2) connected)
              stringCall "job" (UserFn 2) _ _ _ _ _ _)
              (ascii_of_nat 195) (String (ascii_of_nat 169) "!") _).
    + vm_compute. reflexivity.
    + reflexivity.
    + reflexivity.
    + reflexivity.
    + reflexivity.
    + reflexivity.
    + reflexivity.
Defined.

Lemma reply_follows_callbackId_witness :
  callEventHandler sampleUser (sampleParse [echoCall]) sampleStringify false
    (λ v, v) 5 (sampleStringify echoCall)
    (setMessageHandler "job" (UserFn 2) connected)
  = ([HandlerCall "job" (UserFn 2) [JSString "hi"];
      Reply (getMessageJSON sampleStringify "cb-9" (Some [JSString "hi"]) None false)],
     Normal JSUndefined
       (transportSend
          (getMessageJSON sampleStringify "cb-9" (Some [JSString "hi"]) None false)
          (setMessageHandler "job" (UserFn 2) connected)))
  ∧ callEventHandler sampleUser (sampleParse [echoCall]) sampleStringify false
      (λ v, v) 5 (sampleStringify echoCall)
      (setMessageHandler "job" (UserFn 1) connected)
    = ([HandlerCall "job" (UserFn 1) [JSString "hi"]],
       Abrupt (Error "boom") (setMessageHandler "job" (UserFn 1) connected))
  ∧ callEventHandler sampleUser (sampleParse [echoCall]) sampleStringify false
      (λ v, v) 5 (sampleStringify echoCall)
      (onceMessageHandler "job" (UserFn 1) connected)
    = ([HandlerCall "job" (OnceHandler "job" (UserFn 1)) [JSString "hi"]],
       Normal JSUndefined
         (removeMessageHandler "job" (onceMessageHandler "job" (UserFn 1) connected))).
Proof.
  split; [|split].
  - refine (proj1 (proj1 (reply_follows_callbackId sampleUser (sampleParse [echoCall])
              sampleStringify false (λ v, v) 5 (sampleStringify echoCall)
              (setMessageHandler "job" (UserFn 2) connected)
              echoCall "job" (UserFn 2) [JSString "hi"] _ _ _ _ _ _ _)
              (JSString "hi") (setMessageHandler "job" (UserFn 2) connected) _)
              "c"%char "b-9" _).
    + vm_compute. reflexivity.
    + reflexivity.
    + reflexivity.
    + reflexivity.
    + reflexivity.
    + reflexivity.
    + reflexivity.
    + reflexivity.
    + reflexivity.
  - refine (proj1 (proj2 (reply_follows_callbackId sampleUser (sampleParse [echoCall])
              sampleStringify false (λ v, v) 5 (sampleStringify echoCall)
              (setMessageHandler "job" (UserFn 1) connected)
              echoCall "job" (UserFn 1) [JSString "hi"] _ _ _ _ _ _ _)
              (Error "boom") (setMessageHandler "job" (UserFn 1) connected) _) _).
    + vm_compute. reflexivity.
    + reflexivity.
    + reflexivity.
    + reflexivity.
    + reflexivity.
    + reflexivity.
    + reflexivity.
    + reflexivity.
    + reflexivity.
  - refine (proj2 (proj2 (reply_follows_callbackId sampleUser (sampleParse [echoCall])
              sampleStringify false (λ v, v) 5 (sampleStringify echoCall)
              (onceMessageHandler "job" (UserFn 1) connected)
              echoCall "job" (OnceHandler "job" (UserFn 1)) [JSString "hi"]
              _ _ _ _ _ _ _)
              (Error "boom")
              (removeMessageHandler "job" (onceMessageHandler "job" (UserFn 1) connected))
              _) _).
    + vm_compute. reflexivity.
    + reflexivity.
    + reflexivity.
    + reflexivity.
    + reflexivity.
    + reflexivity.
    + reflexivity.
    + reflexivity.
    + reflexivity.
Defined.

(** ** Waiters, continued *)

Lemma resolve_pending (uuid : string) (v : JSValue) (c : ZilaConnection) :
  settled c !! uuid = None →
  resolve uuid v c = with_settled (<[uuid := v]> (settled c)) c.
Proof. intros H. unfold resolve. rewrite H. reflexivity. Qed.

Section Waiters.

Variable user : nat → list JSValue → ZilaConnection → Completion.
Variable JSON_parse : string → option JSValue.
Variable JSON_stringify : JSValue → string.
Variable browser : bool.
Variable expiredCookie : JSValue → JSValue.

Local Abbreviation callEventHandler' :=
  (callEventHandler user JSON_parse JSON_stringify browser expiredCookie).

(** The dispatch of the reply to a waiter whose handler is in the table. *)
Lemma reply_reaches_resolver (fuel : nat) (msg : string) (v : JSValue)
    (uuid : string) (args : list JSValue) (c : ZilaConnection) :
  JSON_parse msg = Some v →
  getProperty "identifier" v = Some (JSString uuid) →
  startsWithAt uuid = false →
  fieldOf "message" v = JSArray args →
  truthy (fieldOf "callbackId" v) = false →
  localEventCallbacks c !! "onRawMessageRecieved" = None →
  localEventCallbacks c !! "onMessageRecieved" = None →
  callbacks c !! uuid = Some (OnceHandler uuid (Resolver uuid)) →
  callEventHandler' fuel msg c
  = ([HandlerCall uuid (OnceHandler uuid (Resolver uuid)) args],
     Normal JSUndefined
       (resolve uuid (nth 0 args JSUndefined) (removeMessageHandler uuid c))).
Proof.
  intros Hparse Hid Hat Hmessage Hcallback Hraw Hmsg Hstored.
  rewrite (callEventHandler_unobserved user JSON_parse JSON_stringify browser
             expiredCookie fuel msg c v uuid Hparse Hid Hat Hraw Hmsg).
  unfold routeToHandler. rewrite Hstored, Hmessage. cbn [truthy spread invoke].
  rewrite Hcallback. reflexivity.
Qed.

(** X9. Two waiters that are outstanding at the same time are answered
    independently: when the replies arrive in the other order, each promise
    is resolved with the first argument of the reply that carries its own
    correlation id, both handlers leave the table, and a second copy of a
    reply is dropped without changing anything. *)
Theorem waiters_resolve_independently (fuel : nat) (u1 u2 id1 id2 : string)
    (d1 d2 : list JSValue) (msg1 msg2 : string) (v1 v2 : JSValue)
    (a1 a2 : list JSValue) (c : ZilaConnection) :
  u1 ≠ u2 →
  JSON_parse msg1 = Some v1 →
  getProperty "identifier" v1 = Some (JSString u1) →
  startsWithAt u1 = false →
  fieldOf "message" v1 = JSArray a1 →
  truthy (fieldOf "callbackId" v1) = false →
  JSON_parse msg2 = Some v2 →
  getProperty "identifier" v2 = Some (JSString u2) →
  startsWithAt u2 = false →
  fieldOf "message" v2 = JSArray a2 →
  truthy (fieldOf "callbackId" v2) = false →
  localEventCallbacks c !! "onRawMessageRecieved" = None →
  localEventCallbacks c !! "onMessageRecieved" = None →
  settled c !! u1 = None →
  settled c !! u2 = None →
  ∃ c3 c4,
    callEventHandler' fuel msg2
      (waiter JSON_stringify u2 id2 d2 (waiter JSON_stringify u1 id1 d1 c))
    = ([HandlerCall u2 (OnceHandler u2 (Resolver u2)) a2], Normal JSUndefined c3)
    ∧ callEventHandler' fuel msg1 c3
      = ([HandlerCall u1 (OnceHandler u1 (Resolver u1)) a1], Normal JSUndefined c4)
    ∧ settled c4 !! u1 = Some (nth 0 a1 JSUndefined)
    ∧ settled c4 !! u2 = Some (nth 0 a2 JSUndefined)
    ∧ callbacks c4 !! u1 = None
    ∧ callbacks c4 !! u2 = None
    ∧ callEventHandler' fuel msg1 c4 = ([], Normal JSUndefined c4)
    ∧ callEventHandler' fuel msg2 c4 = ([], Normal JSUndefined c4).
Proof.
  intros Hne Hp1 Hi1 Hat1 Hm1 Hc1 Hp2 Hi2 Hat2 Hm2 Hc2 Hraw Hmsg Hs1 Hs2.
  set (c2 := waiter JSON_stringify u2 id2 d2 (waiter JSON_stringify u1 id1 d1 c)).
  set (c3 := resolve u2 (nth 0 a2 JSUndefined) (removeMessageHandler u2 c2)).
  set (c4 := resolve u1 (nth 0 a1 JSUndefined) (removeMessageHandler u1 c3)).
  assert (Hc3 : c3 = with_settled (<[u2 := nth 0 a2 JSUndefined]> (settled c))
                       (removeMessageHandler u2 c2))
    by exact (resolve_pending u2 _ (removeMessageHandler u2 c2) Hs2).
  assert (Hc4 : c4 = with_settled (<[u1 := nth 0 a1 JSUndefined]> (settled c3))
                       (removeMessageHandler u1 c3)).
  { refine (resolve_pending u1 _ (removeMessageHandler u1 c3) _).
    change (settled c3 !! u1 = None). rewrite Hc3. simpl.
    rewrite lookup_insert_ne by congruence. exact Hs1. }
  assert (Htable3 : callbacks c3 = delete u2 (callbacks c2))
    by (rewrite Hc3; reflexivity).
  assert (Htable4 : callbacks c4 = delete u1 (callbacks c3))
    by (rewrite Hc4; reflexivity).
  assert (Hreg3 : localEventCallbacks c3 = localEventCallbacks c)
    by (rewrite Hc3; reflexivity).
  assert (Hreg4 : localEventCallbacks c4 = localEventCallbacks c)
    by (rewrite Hc4; simpl; exact Hreg3).
  assert (Hgone1 : callbacks c4 !! u1 = None)
    by (rewrite Htable4; apply lookup_delete_eq).
  assert (Hgone2 : callbacks c4 !! u2 = None).
  { rewrite Htable4, lookup_delete_ne by congruence.
    rewrite Htable3. apply lookup_delete_eq. }
  exists c3, c4. split; [|split; [|split; [|split; [|split; [|split; [|split]]]]]].
  - refine (reply_reaches_resolver fuel msg2 v2 u2 a2 c2 Hp2 Hi2 Hat2 Hm2 Hc2
              Hraw Hmsg _).
    simpl. apply lookup_insert_eq.
  - refine (reply_reaches_resolver fuel msg1 v1 u1 a1 c3 Hp1 Hi1 Hat1 Hm1 Hc1 _ _ _).
    + rewrite Hreg3. exact Hraw.
    + rewrite Hreg3. exact Hmsg.
    + rewrite Htable3, lookup_delete_ne by congruence. simpl.
      rewrite lookup_insert_ne by congruence. apply lookup_insert_eq.
  - rewrite Hc4. simpl. apply lookup_insert_eq.
  - rewrite Hc4. simpl. rewrite lookup_insert_ne by congruence.
    rewrite Hc3. simpl. apply lookup_insert_eq.
  - exact Hgone1.
  - exact Hgone2.
  - rewrite (callEventHandler_unobserved user JSON_parse JSON_stringify browser
               expiredCookie fuel msg1 c4 v1 u1 Hp1 Hi1 Hat1).
    + unfold routeToHandler. rewrite Hgone1. reflexivity.
    + rewrite Hreg4. exact Hraw.
    + rewrite Hreg4. exact Hmsg.
  - rewrite (callEventHandler_unobserved user JSON_parse JSON_stringify browser
               expiredCookie fuel msg2 c4 v2 u2 Hp2 Hi2 Hat2).
    + unfold routeToHandler. rewrite Hgone2. reflexivity.
    + rewrite Hreg4. exact Hraw.
    + rewrite Hreg4. exact Hmsg.
Qed.

(** ** The error callback *)

(** X10. When the transport closes, the status is [CLOSED] before the error
    callback runs, and the callback that runs is the one set last by
    [setErrorHandler], called with the reason of the close, whatever the
    close code; the [onerror] that [connectTo] installed keeps calling the
    callback that was given to [connectTo], without argument. *)
Theorem close_calls_the_current_error_handler (fuel : nat) (code : Z)
    (reason : string) (handler : Callback) (c : ZilaConnection) :
  localEventCallbacks c !! "onStatusChange" = None →
  onclose user fuel code reason (setErrorHandler handler c)
  = ([ErrorCall handler [JSString reason]],
     invoke user handler [JSString reason]
       (with_status CLOSED (setErrorHandler handler c)))
  ∧ status (with_status CLOSED (setErrorHandler handler c)) = CLOSED
  ∧ onerror user (setErrorHandler handler c)
    = match onerrorCallback (connection c) with
      | Some given => ([ErrorCall given []],
                       invoke user given [] (setErrorHandler handler c))
      | None => ([], Normal JSUndefined (setErrorHandler handler c))
      end.
Proof.
  intros Hnone. split; [|split; reflexivity].
  unfold onclose, setStatus.
  rewrite (notify_unregistered user fuel "onStatusChange" [statusValue CLOSED]
             (with_status CLOSED (setErrorHandler handler c)) Hnone).
  reflexivity.
Qed.

End Waiters.

Lemma waiters_resolve_independently_witness :
  ∃ c3 c4,
    callEventHandler sampleUser (sampleParse [oneArgumentReply; otherReply])
      sampleStringify false (λ v, v) 5 (sampleStringify otherReply)
      (waiter sampleStringify "u-2" "other" []
         (waiter sampleStringify "u-1" "sample" [JSString "sampleData"] connected))
    = ([HandlerCall "u-2" (OnceHandler "u-2" (Resolver "u-2")) [JSNumber 2]],
       Normal JSUndefined c3)
    ∧ callEventHandler sampleUser (sampleParse [oneArgumentReply; otherReply])
        sampleStringify false (λ v, v) 5 (sampleStringify oneArgumentReply) c3
      = ([HandlerCall "u-1" (OnceHandler "u-1" (Resolver "u-1"))
            [JSString "sampleData success"]], Normal JSUndefined c4)
    ∧ settled c4 !! "u-1" = Some (JSString "sampleData success")
    ∧ settled c4 !! "u-2" = Some (JSNumber 2).
Proof.
  destruct (waiters_resolve_independently sampleUser
              (sampleParse [oneArgumentReply; otherReply]) sampleStringify false
              (λ v, v) 5 "u-1" "u-2" "sample" "other" [JSString "sampleData"] []
              (sampleStringify oneArgumentReply) (sampleStringify otherReply)
              oneArgumentReply otherReply [JSString "sampleData success"] [JSNumber 2]
              connected)
    as (c3 & c4 & H2 & H1 & Hs1 & Hs2 & _).
  - discriminate.
  - vm_compute. reflexivity.
  - reflexivity.
  - reflexivity.
  - reflexivity.
  - reflexivity.
  - vm_compute. reflexivity.
  - reflexivity.
  - reflexivity.
  - reflexivity.
  - reflexivity.
  - reflexivity.
  - reflexivity.
  - reflexivity.
  - reflexivity.
  - exists c3, c4. split; [exact H2|]. split; [exact H1|]. split; [exact Hs1|exact Hs2].
Defined.

Lemma close_calls_the_current_error_handler_witness :
  onclose sampleUser 5 1000 "bye" (setErrorHandler (UserFn 2) connected)
  = ([ErrorCall (UserFn 2) [JSString "bye"]],
     invoke sampleUser (UserFn 2) [JSString "bye"]
       (with_status CLOSED (setErrorHandler (UserFn 2) connected))).
Proof.
  refine (proj1 (close_calls_the_current_error_handler sampleUser 5 1000 "bye"
                   (UserFn 2) connected _)).
  reflexivity.
Defined.

(** ** One-shot listeners *)

Section OneShot.

Variable user : nat → list JSValue → ZilaConnection → Completion.

(** A loop over an array that ends with a one-shot listener: the listeners
    before it are called, then the one-shot listener, which takes itself out
    of the array. *)
Lemma forOf_through_once (eventType : string) (id ref : nat) (inner : Callback)
    (args : list JSValue) (pre : list Callback) :
  ∀ (done : list Callback) (fuel : nat) (c : ZilaConnection),
    localEventCallbacks c !! eventType
    = Some {| arrayId := id;
              elems := done ++ pre ++ [OnceCallback ref eventType inner] |} →
    OnceCallback ref eventType inner ∉ done ++ pre →
    Forall (quiet user args) pre →
    quiet user args inner →
    length pre < fuel →
    ∃ c', forOf user fuel eventType id (length done) args c
            = (calls eventType args (pre ++ [OnceCallback ref eventType inner]),
               Normal JSUndefined c')
          ∧ listeners eventType c' = done ++ pre.
Proof.
  induction pre as [|x pre IH]; intros done fuel c Hreg Hfresh Hquiet Hinner Hfuel.
  - destruct fuel as [|fuel]; [lia|].
    rewrite app_nil_r in Hfresh.
    assert (Hnow : arrayNow eventType id c = done ++ [OnceCallback ref eventType inner]).
    { unfold arrayNow. rewrite Hreg. simpl. rewrite Nat.eqb_refl. reflexivity. }
    assert (Hsome : arrayNow eventType id c !! length done
                    = Some (OnceCallback ref eventType inner)).
    { rewrite Hnow. apply list_lookup_middle. reflexivity. }
    pose proof (removeEventListener_first eventType (OnceCallback ref eventType inner)
                  c _ done [] Hreg eq_refl Hfresh) as Hremove.
    rewrite app_nil_r in Hremove. simpl in Hremove.
    destruct (Hinner (removeEventListener eventType (OnceCallback ref eventType inner) c))
      as (v & c1 & Hcall & Hsame).
    exists c1. simpl. rewrite Hsome. simpl. rewrite Hcall.
    assert (Hafter : listeners eventType c1 = done
                     ∧ arrayNow eventType id c1 !! S (length done) = None).
    { unfold listeners, arrayNow. rewrite Hsame, Hremove.
      destruct (Nat.eqb_spec (length done) 0) as [Hz|Hz]; simpl.
      - rewrite lookup_delete_eq. apply nil_length_inv in Hz. subst done.
        split; reflexivity.
      - rewrite lookup_insert_eq. simpl. rewrite Nat.eqb_refl.
        split; [reflexivity|]. apply lookup_ge_None. lia. }
    destruct Hafter as [Hleft Hend].
    split; [|rewrite app_nil_r; exact Hleft].
    destruct fuel; simpl; rewrite Hend; reflexivity.
  - destruct fuel as [|fuel]; [lia|].
    apply Forall_cons in Hquiet as [Hx Hpre].
    assert (Hsome : arrayNow eventType id c !! length done = Some x).
    { unfold arrayNow. rewrite Hreg. simpl. rewrite Nat.eqb_refl.
      apply list_lookup_middle. reflexivity. }
    destruct (Hx c) as (v & c1 & Hcall & Hsame).
    destruct (IH (done ++ [x]) fuel c1) as (c' & Hloop & Hleft).
    + rewrite Hsame, Hreg, <- app_assoc. reflexivity.
    + rewrite <- app_assoc. exact Hfresh.
    + exact Hpre.
    + exact Hinner.
    + simpl in Hfuel. lia.
    + exists c'. simpl. rewrite Hsome, Hcall.
      rewrite length_app in Hloop. simpl in Hloop.
      rewrite Nat.add_1_r in Hloop. rewrite Hloop.
      split; [reflexivity|]. rewrite Hleft, <- app_assoc. reflexivity.
Qed.

(** X11. A listener registered with [onceEventListener] is called by the
    next notification of its event type, after the listeners registered
    before it, and has left the array when that notification ends: the
    notification after it calls the other listeners only. *)
Theorem onceEventListener_fires_once (fuel : nat) (eventType : string)
    (inner : Callback) (args : list JSValue) (c : ZilaConnection)
    (pre : list Callback) :
  listeners eventType c = pre →
  Forall (quiet user args) pre →
  quiet user args inner →
  OnceCallback (nextFunction c) eventType inner ∉ pre →
  length pre < fuel →
  ∃ c1 c2 c3,
    onceEventListener eventType inner c = Normal JSUndefined c1
    ∧ notify user fuel eventType args c1
      = (calls eventType args (pre ++ [OnceCallback (nextFunction c) eventType inner]),
         Normal JSUndefined c2)
    ∧ listeners eventType c2 = pre
    ∧ notify user fuel eventType args c2
      = (calls eventType args pre, Normal JSUndefined c3).
Proof.
  intros Hl Hquiet Hinner Hfresh Hfuel.
  assert (Hout : OnceCallback (nextFunction c) eventType inner
                 ∉ listeners eventType (with_nextFunction (S (nextFunction c)) c))
    by (change (OnceCallback (nextFunction c) eventType inner ∉ listeners eventType c);
        rewrite Hl; exact Hfresh).
  destruct (addEventListener_absent _ _ _ Hout) as (c1 & Hadd & Hl1 & _).
  change (listeners eventType (with_nextFunction (S (nextFunction c)) c))
    with (listeners eventType c) in Hl1. rewrite Hl in Hl1.
  assert (Hloop : ∃ c2, notify user fuel eventType args c1
                        = (calls eventType args
                             (pre ++ [OnceCallback (nextFunction c) eventType inner]),
                           Normal JSUndefined c2)
                      ∧ listeners eventType c2 = pre).
  { unfold notify. unfold listeners in Hl1.
    destruct (localEventCallbacks c1 !! eventType) as [array|] eqn:Harray;
      [|destruct pre; discriminate].
    apply (forOf_through_once eventType (arrayId array) (nextFunction c) inner args
             pre [] fuel c1).
    - rewrite Harray. destruct array as [id l]. simpl in *. rewrite Hl1. reflexivity.
    - exact Hfresh.
    - exact Hquiet.
    - exact Hinner.
    - exact Hfuel. }
  destruct Hloop as (c2 & Hnotify & Hl2).
  assert (Hagain : ∃ c3, notify user fuel eventType args c2
                         = (calls eventType args pre, Normal JSUndefined c3)).
  { unfold notify.
    destruct (localEventCallbacks c2 !! eventType) as [array|] eqn:Harray.
    - destruct (forOf_quiet user eventType (arrayId array) args pre [] fuel c2)
        as (c3 & Hrun & _).
      + rewrite (arrayNow_listeners _ _ _ Harray). exact Hl2.
      + exact Hquiet.
      + lia.
      + exists c3. exact Hrun.
    - unfold listeners in Hl2. rewrite Harray in Hl2. rewrite <- Hl2.
      exists c2. reflexivity. }
  destruct Hagain as (c3 & Hagain).
  exists c1, c2, c3. split; [exact Hadd|]. split; [exact Hnotify|].
  split; [exact Hl2|exact Hagain].
Qed.

End OneShot.

Lemma onceEventListener_fires_once_witness :
  ∃ c1 c2 c3,
    onceEventListener "onStatusChange" (UserFn 2) listening = Normal JSUndefined c1
    ∧ notify sampleUser 5 "onStatusChange" [statusValue CLOSED] c1
      = (calls "onStatusChange" [statusValue CLOSED]
           [UserFn 0; OnceCallback (nextFunction listening) "onStatusChange" (UserFn 2)],
         Normal JSUndefined c2)
    ∧ listeners "onStatusChange" c2 = [UserFn 0]
    ∧ notify sampleUser 5 "onStatusChange" [statusValue CLOSED] c2
      = (calls "onStatusChange" [statusValue CLOSED] [UserFn 0], Normal JSUndefined c3).
Proof.
  refine (onceEventListener_fires_once sampleUser 5 "onStatusChange" (UserFn 2)
            [statusValue CLOSED] listening [UserFn 0] _ _ _ _ _).
  - reflexivity.
  - constructor; [|constructor]. intros c. exists JSUndefined, c. split; reflexivity.
  - intros c. exists (statusValue CLOSED), c. split; reflexivity.
  - intros H. apply list_elem_of_singleton in H. discriminate H.
  - simpl. lia.
Defined.

(** ** The snapshot [unnamed/part_000]: from one side to the other *)

Lemma hasFunction_top_level (data : list JSValue) :
  Snapshot.hasFunction data = existsb isFunction data.
Proof.
  unfold Snapshot.hasFunction. induction data as [|x data IH]; [reflexivity|].
  destruct (isFunction x) eqn:Hx.
  - rewrite filter_cons_True by exact Hx. simpl. rewrite Hx. reflexivity.
  - rewrite filter_cons_False by (rewrite Hx; discriminate). simpl.
    rewrite Hx. exact IH.
Qed.

Section SnapshotRoundTrip.

Variable user : nat → list JSValue → ZilaConnection → Completion.
Variable JSON_parse : string → option JSValue.
Variable JSON_stringify : JSValue → string.
Variable browser : bool.
Variable expiredCookie : JSValue → JSValue.

Local Abbreviation dispatch :=
  (SnapshotLoop.callEventHandler user JSON_parse JSON_stringify browser expiredCookie).

(** X12. [send] and [waiter] of the snapshot look at the arguments
    themselves only: a function among them makes the call throw before the
    transport and the handler table are touched, and arguments that merely
    contain a function (inside an object or an array) pass: the text is
    handed to the transport, with the identifier of the caller in it. *)
Theorem snapshot_send_checks_top_level (uuid identifier : string)
    (data : list JSValue) (c : ZilaConnection) :
  ((∃ el, el ∈ data ∧ isFunction el = true) →
   Snapshot.send JSON_stringify identifier data c
   = Abrupt (Error "Passing functions to the server is prohibited.") c
   ∧ Snapshot.waiter JSON_stringify uuid identifier data c
     = Abrupt (Error "Passing functions to the server is prohibited.") c)
  ∧ (Forall (λ el, isFunction el = false) data →
     Snapshot.send JSON_stringify identifier data c
     = Normal JSUndefined
         (transportSend (JSON_stringify (Snapshot.msg identifier data JSNull)) c)
     ∧ Snapshot.waiter JSON_stringify uuid identifier data c
       = Normal JSUndefined
           (transportSend (JSON_stringify (Snapshot.msg identifier data (JSString uuid)))
              (onceMessageHandler uuid (Resolver uuid) c))).
Proof.
  split.
  - intros (el & Hin & Hel).
    assert (H : Snapshot.hasFunction data = true).
    { rewrite hasFunction_top_level. apply existsb_exists. exists el.
      split; [apply list_elem_of_In, Hin|exact Hel]. }
    unfold Snapshot.send, Snapshot.waiter. rewrite H. split; reflexivity.
  - intros Hnone.
    assert (H : Snapshot.hasFunction data = false).
    { rewrite hasFunction_top_level. apply not_true_is_false. intros Hex.
      apply existsb_exists in Hex as (el & Hin & Hel).
      rewrite Forall_forall in Hnone.
      rewrite (Hnone el) in Hel by (apply list_elem_of_In, Hin). discriminate. }
    unfold Snapshot.send, Snapshot.waiter. rewrite H. split; reflexivity.
Qed.

(** X13. What [send] of the snapshot writes, the dispatch loop of the
    snapshot on the other side delivers: the handler registered under the
    identifier is called once, with exactly the arguments of the call in
    their order, and no reply is sent. *)
Theorem snapshot_send_reaches_handler (fuel : nat) (identifier : string)
    (data : list JSValue) (a b : ZilaConnection) (cb : Callback) :
  Forall (λ el, isFunction el = false) data →
  JSON_parse (JSON_stringify (Snapshot.msg identifier data JSNull))
  = Some (Snapshot.msg identifier data JSNull) →
  startsWithAt identifier = false →
  localEventCallbacks b !! "onRawMessageRecieved" = None →
  localEventCallbacks b !! "onMessageRecieved" = None →
  callbacks b !! identifier = Some cb →
  ∃ a',
    Snapshot.send JSON_stringify identifier data a = Normal JSUndefined a'
    ∧ sent (connection a')
      = sent (connection a) ++ [JSON_stringify (Snapshot.msg identifier data JSNull)]
    ∧ (dispatch fuel (JSON_stringify (Snapshot.msg identifier data JSNull)) b).1
      = [HandlerCall identifier cb data].
Proof.
  intros Hdata Hparse Hat Hraw Hmsg Hcb.
  assert (H : Snapshot.hasFunction data = false).
  { rewrite hasFunction_top_level. apply not_true_is_false. intros Hex.
    apply existsb_exists in Hex as (el & Hin & Hel).
    rewrite Forall_forall in Hdata.
    rewrite (Hdata el) in Hel by (apply list_elem_of_In, Hin). discriminate. }
  eexists. split; [unfold Snapshot.send; rewrite H; reflexivity|].
  split; [reflexivity|].
  unfold SnapshotLoop.callEventHandler.
  rewrite (notify_unregistered _ _ _ _ _ Hraw). simpl.
  rewrite Hparse. cbn [getProperty Snapshot.msg lookupProperty String.eqb Ascii.eqb
                         Bool.eqb fieldOf].
  rewrite Hat, (notify_unregistered _ _ _ _ _ Hmsg). simpl.
  unfold SnapshotLoop.routeToHandler. rewrite Hcb. simpl.
  destruct (invoke user cb data b);
    [reflexivity|destruct (isAsync cb); reflexivity|reflexivity].
Qed.

(** X14. A waiter of the snapshot against a peer that runs the same
    dispatch loop: the peer calls its handler with the arguments of the
    waiter and sends one reply, under the correlation id and with the value
    the handler returned; dispatching that reply on the side of the waiter
    calls the one-shot handler, resolves the promise with that value and
    leaves no handler under the correlation id. *)
Theorem snapshot_waiter_round_trip (fuel : nat) (uuid identifier : string)
    (data : list JSValue) (val : JSValue) (a b b' : ZilaConnection) (cb : Callback) :
  Forall (λ el, isFunction el = false) data →
  isFunction val = false →
  uuid ≠ "" →
  startsWithAt identifier = false →
  startsWithAt uuid = false →
  JSON_parse (JSON_stringify (Snapshot.msg identifier data (JSString uuid)))
  = Some (Snapshot.msg identifier data (JSString uuid)) →
  JSON_parse (JSON_stringify (Snapshot.msg uuid [val] JSNull))
  = Some (Snapshot.msg uuid [val] JSNull) →
  localEventCallbacks a !! "onRawMessageRecieved" = None →
  localEventCallbacks a !! "onMessageRecieved" = None →
  settled a !! uuid = None →
  localEventCallbacks b !! "onRawMessageRecieved" = None →
  localEventCallbacks b !! "onMessageRecieved" = None →
  callbacks b !! identifier = Some cb →
  invoke user cb data b = Normal val b' →
  ∃ a1 a2,
    Snapshot.waiter JSON_stringify uuid identifier data a = Normal JSUndefined a1
    ∧ sent (connection a1)
      = sent (connection a)
        ++ [JSON_stringify (Snapshot.msg identifier data (JSString uuid))]
    ∧ dispatch fuel (JSON_stringify (Snapshot.msg identifier data (JSString uuid))) b
      = ([HandlerCall identifier cb data;
          Reply (JSON_stringify (Snapshot.msg uuid [val] JSNull))],
         Normal JSUndefined
           (transportSend (JSON_stringify (Snapshot.msg uuid [val] JSNull)) b'))
    ∧ dispatch fuel (JSON_stringify (Snapshot.msg uuid [val] JSNull)) a1
      = ([HandlerCall uuid (OnceHandler uuid (Resolver uuid)) [val]],
         Normal JSUndefined a2)
    ∧ settled a2 !! uuid = Some val
    ∧ callbacks a2 !! uuid = None.
Proof.
  intros Hdata Hval Huuid Hat Hat' Hcall Hreply Hraw Hmsg Hpending Hraw' Hmsg' Hcb Hrun.
  assert (H : Snapshot.hasFunction data = false).
  { rewrite hasFunction_top_level. apply not_true_is_false. intros Hex.
    apply existsb_exists in Hex as (el & Hin & Hel).
    rewrite Forall_forall in Hdata.
    rewrite (Hdata el) in Hel by (apply list_elem_of_In, Hin). discriminate. }
  assert (H' : Snapshot.hasFunction [val] = false).
  { rewrite hasFunction_top_level. simpl. rewrite Hval. reflexivity. }
  assert (Htruthy : truthy (JSString uuid) = true).
  { simpl. apply negb_true_iff, String.eqb_neq, Huuid. }
  eexists. eexists. split; [unfold Snapshot.waiter; rewrite H; reflexivity|].
  split; [reflexivity|]. split; [|split; [|split]].
  - unfold SnapshotLoop.callEventHandler.
    rewrite (notify_unregistered _ _ _ _ _ Hraw'). simpl.
    rewrite Hcall. cbn [getProperty Snapshot.msg lookupProperty String.eqb Ascii.eqb
                          Bool.eqb fieldOf].
    rewrite Hat, (notify_unregistered _ _ _ _ _ Hmsg'). simpl.
    unfold SnapshotLoop.routeToHandler. rewrite Hcb.
    change (truthy (JSArray data)) with true. cbn [spread].
    rewrite Hrun, Htruthy. unfold Snapshot.send. rewrite H'. reflexivity.
  - unfold SnapshotLoop.callEventHandler.
    rewrite notify_unregistered by exact Hraw. simpl.
    rewrite Hreply. cbn [getProperty Snapshot.msg lookupProperty String.eqb Ascii.eqb
                           Bool.eqb fieldOf].
    rewrite Hat', notify_unregistered by exact Hmsg. simpl.
    unfold SnapshotLoop.routeToHandler, onceMessageHandler, transportSend. simpl.
    rewrite lookup_insert_eq. simpl. reflexivity.
  - unfold resolve. simpl. rewrite Hpending. simpl. apply lookup_insert_eq.
  - unfold resolve. simpl. rewrite Hpending. simpl. apply lookup_delete_eq.
Qed.

(** X15. A transport error of the snapshot that is followed by the close:
    the status is [ERROR] when the error callback runs without argument, and
    [CLOSED] when the same callback runs again with the reason of the close;
    [ERROR] is not kept. *)
Theorem snapshot_error_then_close (fuel : nat) (code : Z) (reason : string)
    (handler : Callback) (v : JSValue) (c c1 : ZilaConnection) :
  localEventCallbacks c !! "onStatusChange" = None →
  errorCallback c = Some handler →
  invoke user handler [] (with_status ERROR c) = Normal v c1 →
  localEventCallbacks c1 !! "onStatusChange" = None →
  errorCallback c1 = Some handler →
  status (with_status ERROR c) = ERROR
  ∧ SnapshotLoop.onerror user fuel c = ([ErrorCall handler []], Normal v c1)
  ∧ status (with_status CLOSED c1) = CLOSED
  ∧ onclose user fuel code reason c1
    = ([ErrorCall handler [JSString reason]],
       invoke user handler [JSString reason] (with_status CLOSED c1)).
Proof.
  intros Hnone Hcb Hrun Hnone1 Hcb1.
  split; [reflexivity|]. split; [|split; [reflexivity|]].
  - unfold SnapshotLoop.onerror, setStatus.
    rewrite (notify_unregistered user fuel "onStatusChange" [statusValue ERROR]
               (with_status ERROR c) Hnone).
    simpl. rewrite Hcb, Hrun. reflexivity.
  - unfold onclose, setStatus.
    rewrite (notify_unregistered user fuel "onStatusChange" [statusValue CLOSED]
               (with_status CLOSED c1) Hnone1).
    simpl. rewrite Hcb1.
    destruct (invoke user handler [JSString reason] (with_status CLOSED c1));
      reflexivity.
Qed.

End SnapshotRoundTrip.

Lemma snapshot_send_checks_top_level_witness :
  Snapshot.send sampleStringify "job" [JSString "x"; JSFunction 0] connected
  = Abrupt (Error "Passing functions to the server is prohibited.") connected
  ∧ Snapshot.send sampleStringify "job" [nestedFunction] connected
    = Normal JSUndefined
        (transportSend (sampleStringify (Snapshot.msg "job" [nestedFunction] JSNull))
           connected).
Proof.
  split.
  - apply (snapshot_send_checks_top_level sampleStringify "u-1" "job"
             [JSString "x"; JSFunction 0] connected).
    exists (JSFunction 0). split; [|reflexivity].
    apply list_elem_of_further, list_elem_of_here.
  - apply (snapshot_send_checks_top_level sampleStringify "u-1" "job"
             [nestedFunction] connected).
    repeat constructor.
Defined.

Lemma snapshot_send_reaches_handler_witness :
  ∃ a',
    Snapshot.send sampleStringify "job" [JSString "hi"; JSNumber 2] connected
    = Normal JSUndefined a'
    ∧ sent (connection a')
      = sent (connection connected)
        ++ [sampleStringify (Snapshot.msg "job" [JSString "hi"; JSNumber 2] JSNull)]
    ∧ (SnapshotLoop.callEventHandler sampleUser
         (sampleParse [Snapshot.msg "job" [JSString "hi"; JSNumber 2] JSNull])
         sampleStringify false (λ v, v) 5
         (sampleStringify (Snapshot.msg "job" [JSString "hi"; JSNumber 2] JSNull))
         (setMessageHandler "job" (UserFn 2) connected)).1
      = [HandlerCall "job" (UserFn 2) [JSString "hi"; JSNumber 2]].
Proof.
  apply (snapshot_send_reaches_handler sampleUser
           (sampleParse [Snapshot.msg "job" [JSString "hi"; JSNumber 2] JSNull])
           sampleStringify false (λ v, v) 5 "job" [JSString "hi"; JSNumber 2]
           connected (setMessageHandler "job" (UserFn 2) connected) (UserFn 2)).
  - repeat constructor.
  - vm_compute. reflexivity.
  - reflexivity.
  - reflexivity.
  - reflexivity.
  - reflexivity.
Defined.

Lemma snapshot_waiter_round_trip_witness :
  ∃ a1 a2,
    Snapshot.waiter sampleStringify "u-1" "job" [JSString "hi"] connected
    = Normal JSUndefined a1
    ∧ sent (connection a1)
      = sent (connection connected)
        ++ [sampleStringify (Snapshot.msg "job" [JSString "hi"] (JSString "u-1"))]
    ∧ SnapshotLoop.callEventHandler sampleUser
        (sampleParse [Snapshot.msg "job" [JSString "hi"] (JSString "u-1");
                      Snapshot.msg "u-1" [JSString "hi"] JSNull])
        sampleStringify false (λ v, v) 5
        (sampleStringify (Snapshot.msg "job" [JSString "hi"] (JSString "u-1")))
        (setMessageHandler "job" (UserFn 2) connected)
      = ([HandlerCall "job" (UserFn 2) [JSString "hi"];
          Reply (sampleStringify (Snapshot.msg "u-1" [JSString "hi"] JSNull))],
         Normal JSUndefined
           (transportSend (sampleStringify (Snapshot.msg "u-1" [JSString "hi"] JSNull))
              (setMessageHandler "job" (UserFn 2) connected)))
    ∧ SnapshotLoop.callEventHandler sampleUser
        (sampleParse [Snapshot.msg "job" [JSString "hi"] (JSString "u-1");
                      Snapshot.msg "u-1" [JSString "hi"] JSNull])
        sampleStringify false (λ v, v) 5
        (sampleStringify (Snapshot.msg "u-1" [JSString "hi"] JSNull)) a1
      = ([HandlerCall "u-1" (OnceHandler "u-1" (Resolver "u-1")) [JSString "hi"]],
         Normal JSUndefined a2)
    ∧ settled a2 !! "u-1" = Some (JSString "hi")
    ∧ callbacks a2 !! "u-1" = None.
Proof.
  apply (snapshot_waiter_round_trip sampleUser
           (sampleParse [Snapshot.msg "job" [JSString "hi"] (JSString "u-1");
                         Snapshot.msg "u-1" [JSString "hi"] JSNull])
           sampleStringify false (λ v, v) 5 "u-1" "job" [JSString "hi"]
           (JSString "hi") connected (setMessageHandler "job" (UserFn 2) connected)
           (setMessageHandler "job" (UserFn 2) connected) (UserFn 2)).
  - repeat constructor.
  - reflexivity.
  - discriminate.
  - reflexivity.
  - reflexivity.
  - vm_compute. reflexivity.
  - vm_compute. reflexivity.
  - reflexivity.
  - reflexivity.
  - reflexivity.
  - reflexivity.
  - reflexivity.
  - reflexivity.
  - reflexivity.
Defined.

Lemma snapshot_error_then_close_witness :
  status (with_status ERROR (setErrorHandler (UserFn 0) connected)) = ERROR
  ∧ SnapshotLoop.onerror sampleUser 5 (setErrorHandler (UserFn 0) connected)
    = ([ErrorCall (UserFn 0) []],
       Normal JSUndefined (with_status ERROR (setErrorHandler (UserFn 0) connected)))
  ∧ status (with_status CLOSED
              (with_status ERROR (setErrorHandler (UserFn 0) connected))) = CLOSED
  ∧ onclose sampleUser 5 1006 "gone"
      (with_status ERROR (setErrorHandler (UserFn 0) connected))
    = ([ErrorCall (UserFn 0) [JSString "gone"]],
       invoke sampleUser (UserFn 0) [JSString "gone"]
         (with_status CLOSED
            (with_status ERROR (setErrorHandler (UserFn 0) connected)))).
Proof.
  apply (snapshot_error_then_close sampleUser 5 1006 "gone" (UserFn 0) JSUndefined
           (setErrorHandler (UserFn 0) connected)
           (with_status ERROR (setErrorHandler (UserFn 0) connected)));
    reflexivity.
Defined.

(** ** The older class of [src/index.ts] *)

Lemma findIndexFrom_range (p : Callback → bool) (l : list Callback) :
  ∀ i : Z, findIndexFrom p l i = (-1)%Z ∨ (i ≤ findIndexFrom p l i)%Z.
Proof.
  induction l as [|el rest IH]; intros i; simpl; [left; reflexivity|].
  destruct (p el); [right; lia|].
  destruct (IH (i + 1)%Z) as [H|H]; [left; exact H|right; lia].
Qed.

Lemma findIndex_falsy (p : Callback → bool) (l : list Callback) :
  truthy (JSNumber (findIndex p l)) = false ↔ ∃ el rest, l = el :: rest ∧ p el = true.
Proof.
  unfold findIndex. simpl. rewrite negb_false_iff, Z.eqb_eq. split.
  - destruct l as [|el rest]; simpl; [discriminate|].
    destruct (p el) eqn:Hel; [eauto|].
    intros H. exfalso. change (0 + 1)%Z with 1%Z in H.
    destruct (findIndexFrom_range p rest 1) as [H'|H']; lia.
  - intros (el & rest & -> & Hel). simpl. rewrite Hel. reflexivity.
Qed.

(** X16. [addEventListener] of the older class, on an event type that has
    listeners: it takes the index that [findIndex] returns for the
    condition, so it returns only for the callback that is first in the
    array, which it appends a second time, and throws for every other
    callback, registered or not, leaving the connection as it is.  Once an
    event type has a listener, no other callback can be added. *)
Theorem legacy_addEventListener_only_repeats_the_first (eventType : string)
    (callback : Callback) (c : ZilaConnection) (array : ListenerArray) :
  localEventCallbacks c !! eventType = Some array →
  match Legacy.addEventListener eventType callback c with
  | Normal _ c' =>
      head (elems array) = Some callback
      ∧ listeners eventType c' = elems array ++ [callback]
  | Abrupt e c' =>
      head (elems array) ≠ Some callback
      ∧ e = Error (eventType +:+ " listener already has this callback added to it.")
      ∧ c' = c
  | Unknown _ => False
  end.
Proof.
  intros Harray. unfold Legacy.addEventListener. rewrite Harray.
  destruct (truthy (JSNumber (findIndex (λ el, bool_decide (el = callback))
                                (elems array)))) eqn:Hcond.
  - split; [|split; reflexivity].
    intros Hhead. apply not_false_iff_true in Hcond. apply Hcond.
    apply findIndex_falsy. destruct (elems array) as [|el rest]; [discriminate|].
    injection Hhead as ->. exists callback, rest.
    split; [reflexivity|apply bool_decide_eq_true; reflexivity].
  - apply findIndex_falsy in Hcond as (el & rest & Helems & Hel).
    apply bool_decide_eq_true in Hel. subst el. split.
    + rewrite Helems. reflexivity.
    + unfold listeners. simpl. rewrite lookup_insert_eq. reflexivity.
Qed.

Lemma legacy_addEventListener_only_repeats_the_first_witness :
  localEventCallbacks threeListeners !! "onStatusChange"
  = Some {| arrayId := 1; elems := [UserFn 0; UserFn 1; UserFn 2] |}
  ∧ match Legacy.addEventListener "onStatusChange" (UserFn 1) threeListeners with
    | Normal _ c' =>
        head [UserFn 0; UserFn 1; UserFn 2] = Some (UserFn 1)
        ∧ listeners "onStatusChange" c' = [UserFn 0; UserFn 1; UserFn 2] ++ [UserFn 1]
    | Abrupt e c' =>
        head [UserFn 0; UserFn 1; UserFn 2] ≠ Some (UserFn 1)
        ∧ e = Error ("onStatusChange" +:+ " listener already has this callback added to it.")
        ∧ c' = threeListeners
    | Unknown _ => False
    end.
Proof.
  split; [reflexivity|].
  apply (legacy_addEventListener_only_repeats_the_first "onStatusChange" (UserFn 1)
           threeListeners {| arrayId := 1; elems := [UserFn 0; UserFn 1; UserFn 2] |}).
  reflexivity.
Defined.

(** X17. [removeEventListener] of the older class against the one of the
    current class: for a callback that is in the array, and for an event
    type without listeners, the two leave the same connection; for a
    callback that is not in the array of an event type that has listeners,
    the older one throws a [ReferenceError] where the current one
    returns, and both leave the connection as it is. *)
Theorem legacy_removeEventListener_differs_on_unknown (eventType : string)
    (callback : Callback) (c : ZilaConnection) :
  (localEventCallbacks c !! eventType = None ∨ callback ∈ listeners eventType c →
   Legacy.removeEventListener eventType callback c
   = Normal JSUndefined (removeEventListener eventType callback c))
  ∧ (is_Some (localEventCallbacks c !! eventType) →
     callback ∉ listeners eventType c →
     Legacy.removeEventListener eventType callback c
     = Abrupt (ReferenceError
                 "EventListener doesn't exist with the given eventName and callback!") c
     ∧ removeEventListener eventType callback c = c).
Proof.
  split.
  - intros [Hnone|Hin].
    + unfold Legacy.removeEventListener, removeEventListener. rewrite Hnone.
      reflexivity.
    + unfold listeners in Hin.
      unfold Legacy.removeEventListener, removeEventListener.
      destruct (localEventCallbacks c !! eventType) as [array|]; [|reflexivity].
      apply list_elem_of_split_l in Hin as (l1 & l2 & Helems & Hfirst).
      rewrite Helems, (indexOf_first _ _ _ Hfirst).
      destruct (Z.of_nat (length l1) =? -1)%Z eqn:Hneg; [apply Z.eqb_eq in Hneg; lia|].
      destruct (length (splice1 (Z.to_nat (Z.of_nat (length l1))) (l1 ++ callback :: l2))
                =? 0); reflexivity.
  - intros [array Harray] Hout. split.
    + unfold listeners in Hout. rewrite Harray in Hout.
      unfold Legacy.removeEventListener. rewrite Harray.
      rewrite (indexOf_absent _ _ Hout). reflexivity.
    + apply removeEventListener_absent, Hout.
Qed.

Lemma legacy_removeEventListener_differs_on_unknown_witness :
  Legacy.removeEventListener "onStatusChange" (UserFn 1) threeListeners
  = Normal JSUndefined (removeEventListener "onStatusChange" (UserFn 1) threeListeners)
  ∧ Legacy.removeEventListener "onStatusChange" (UserFn 7) threeListeners
    = Abrupt (ReferenceError
                "EventListener doesn't exist with the given eventName and callback!")
        threeListeners
  ∧ removeEventListener "onStatusChange" (UserFn 7) threeListeners = threeListeners.
Proof.
  split.
  - apply (legacy_removeEventListener_differs_on_unknown "onStatusChange" (UserFn 1)
             threeListeners).
    right. apply list_elem_of_further, list_elem_of_here.
  - apply (legacy_removeEventListener_differs_on_unknown "onStatusChange" (UserFn 7)
             threeListeners).
    + eexists. reflexivity.
    + intros Hin. repeat (apply elem_of_cons in Hin as [Hin|Hin]; [discriminate Hin|]).
      inversion Hin.
Defined.

(** ** The two ways of the current class to write an envelope *)

Section BuiltIn.

Variable user : nat → list JSValue → ZilaConnection → Completion.
Variable JSON_parse : string → option JSValue.
Variable JSON_stringify : JSValue → string.
Variable browser : bool.
Variable expiredCookie : JSValue → JSValue.

(** X18. Of the two send functions of the current class, only the private
    [bSend] writes an envelope that the dispatch loop of the same class
    routes to a handler: with a handler registered under the identifier, the
    text of [bSend] calls it once with the arguments of the call and sends no
    reply, and the text of [send] for the same identifier and arguments
    calls nothing and changes nothing (the identifier is not the name of one
    of the two cookie directives). *)
Theorem only_bSend_reaches_the_handler (fuel : nat) (identifier : string)
    (data : list JSValue) (a b : ZilaConnection) (cb : Callback) :
  JSON_parse (getMessageJSON JSON_stringify identifier (Some data) None true)
  = Some (messageObject identifier (Some data) None true) →
  JSON_parse (getMessageJSON JSON_stringify identifier (Some data) None false)
  = Some (messageObject identifier (Some data) None false) →
  startsWithAt identifier = false →
  identifier ≠ "SetCookie" →
  identifier ≠ "DelCookie" →
  localEventCallbacks b !! "onRawMessageRecieved" = None →
  localEventCallbacks b !! "onMessageRecieved" = None →
  callbacks b !! identifier = Some cb →
  sent (connection (bSend JSON_stringify identifier data a))
  = sent (connection a) ++ [getMessageJSON JSON_stringify identifier (Some data) None true]
  ∧ (callEventHandler user JSON_parse JSON_stringify browser expiredCookie fuel
       (getMessageJSON JSON_stringify identifier (Some data) None true) b).1
    = [HandlerCall identifier cb data]
  ∧ sent (connection (send JSON_stringify identifier data a))
    = sent (connection a) ++ [getMessageJSON JSON_stringify identifier (Some data) None false]
  ∧ callEventHandler user JSON_parse JSON_stringify browser expiredCookie fuel
      (getMessageJSON JSON_stringify identifier (Some data) None false) b
    = ([], Normal JSUndefined b).
Proof.
  intros Hbuilt Hown Hat Hset Hdel Hraw Hmsg Hcb.
  split; [reflexivity|]. split; [|split; [reflexivity|]].
  - unfold callEventHandler.
    rewrite (notify_unregistered _ _ _ _ _ Hraw). simpl.
    rewrite Hbuilt. cbn [getProperty messageObject lookupProperty String.eqb Ascii.eqb
                           Bool.eqb fieldOf].
    rewrite Hat, (notify_unregistered _ _ _ _ _ Hmsg). simpl.
    unfold routeToHandler. rewrite Hcb. simpl.
    destruct (invoke user cb data b);
    [reflexivity|destruct (isAsync cb); reflexivity|reflexivity].
  - unfold callEventHandler.
    rewrite (notify_unregistered _ _ _ _ _ Hraw). simpl.
    rewrite Hown. cbn [getProperty messageObject lookupProperty String.eqb Ascii.eqb
                         Bool.eqb fieldOf].
    change ("@" +:+ identifier) with (String "@"%char identifier).
    unfold controlPlane. simpl.
    apply String.eqb_neq in Hset, Hdel. rewrite Hset, Hdel. reflexivity.
Qed.

End BuiltIn.

Lemma only_bSend_reaches_the_handler_witness :
  sent (connection (bSend sampleStringify "job" [JSString "hi"] connected))
  = sent (connection connected)
    ++ [getMessageJSON sampleStringify "job" (Some [JSString "hi"]) None true]
  ∧ (callEventHandler sampleUser
       (sampleParse [messageObject "job" (Some [JSString "hi"]) None true;
                     messageObject "job" (Some [JSString "hi"]) None false])
       sampleStringify false (λ v, v) 5
       (getMessageJSON sampleStringify "job" (Some [JSString "hi"]) None true)
       (setMessageHandler "job" (UserFn 2) connected)).1
    = [HandlerCall "job" (UserFn 2) [JSString "hi"]]
  ∧ sent (connection (send sampleStringify "job" [JSString "hi"] connected))
    = sent (connection connected)
      ++ [getMessageJSON sampleStringify "job" (Some [JSString "hi"]) None false]
  ∧ callEventHandler sampleUser
      (sampleParse [messageObject "job" (Some [JSString "hi"]) None true;
                    messageObject "job" (Some [JSString "hi"]) None false])
      sampleStringify false (λ v, v) 5
      (getMessageJSON sampleStringify "job" (Some [JSString "hi"]) None false)
      (setMessageHandler "job" (UserFn 2) connected)
    = ([], Normal JSUndefined (setMessageHandler "job" (UserFn 2) connected)).
Proof.
  apply (only_bSend_reaches_the_handler sampleUser
           (sampleParse [messageObject "job" (Some [JSString "hi"]) None true;
                         messageObject "job" (Some [JSString "hi"]) None false])
           sampleStringify false (λ v, v) 5 "job" [JSString "hi"] connected
           (setMessageHandler "job" (UserFn 2) connected) (UserFn 2)).
  - vm_compute. reflexivity.
  - vm_compute. reflexivity.
  - reflexivity.
  - discriminate.
  - discriminate.
  - reflexivity.
  - reflexivity.
  - reflexivity.
Defined.
